(* ===== verification/_CoqProject ===== *)
-Q . S2P
Prelude.v
JsString.v
JsValue.v
JsonText.v
Action.v
Machine.v
Http.v
Front.v
FrontProps.v
FrontMachine.v
FrontQueue.v
FrontWire.v
FrontInvariants.v
FrontDefects.v
FrontRefinement.v
FrontScenarios.v
Quiz.v
QuizProps.v
QuizDefects.v
QuizWire.v
QuizRefinement.v
QuizScenarios.v
App.v
AppInvariants.v
AppScenarios.v
