(* ===== verification/Prelude.v ===== *)
(** * A verification development for the CV-quiz interview front end

    The program is an Angular client (TypeScript, under
    [src/frontend/cv-quiz-frontend/src/app/]).  It has no algorithmic core;
    what can go wrong in it is the order in which callbacks run, the flags
    that drive the pages, the shape of the replies it trusts, and the small
    amount of text processing done in the browser.  The development models
    exactly that.

    ** The program's parts

    - [front/front.component.ts], class [FrontComponent]: the interview
      page.  Fifteen mutable fields, six methods reachable from the
      template ([onCVSelected], [playCurrentQuestion], [startRecording],
      [stopRecording], [playFeedback], [nextQuestion]), three private
      ones ([requestFeedback], [clientSideFeedbackFallback] and
      [playFeedbackWithWebSpeech], which nothing calls) and the callbacks
      they register: the observers of eight HTTP calls (the
      transcription is posted in both callbacks of the analysis, with
      two copies of one observer), two [audio.onended] handlers, the continuation of [await getUserMedia],
      and the two [MediaRecorder] handlers.
    - [quiz/quiz.component.ts], class [QuizComponent]: the quiz page.
      Choose a file or give a text, receive a quiz, type answers, submit
      them, receive a score.
    - [quiz.service.ts], [ai.service.ts]: builders of HTTP requests.  The
      quiz page calls the first; nothing calls the second.
    - [app-routing.module.ts], [app.module.ts]: the route table (the
      empty path shows the quiz page, [front] the interview page) and
      the root module, which declares the components and imports
      [HttpClientModule], whose [HttpClient] both pages need.

    The two pages share no field.  Each talks to a backend of its own
    (port 8000 for the interview, port 5000 for the quiz) and is driven
    by two sources of events: the user, through the template, and the
    browser, which delivers replies, ends of playback, media permissions
    and recorder events to the callbacks the page registered.  They meet
    in the router: it shows one of them at a time, destroys the component
    it leaves and creates a new one on return, while the browser keeps
    the callbacks of the destroyed component; and in the document, where
    [startRecording] looks up the [preview] element of whichever
    [FrontComponent] is shown.

    ** Files of the development, in dependency order

    - [Prelude] (this file): what every file shares; the hint databases,
      the tactics, lemmas on lists used as queues of callbacks.
    - [JsString]: the ECMAScript string operations the sources call
      ([trim], [split(/\s+/)], [filter(Boolean)], [startsWith], [join])
      as functions on [string], with their laws and a reference word
      counter.
    - [JsValue]: JSON values as the page sees them ([typeof], truthiness,
      [||], [in], [Object.keys], template-literal conversion), and the
      three-valued [undefined | null | value] used for one field.
    - [JsonText]: [JSON.stringify] on those values and the reader of
      JSON text on the receiving side.
    - [Action]: the state-and-exception monad in which handlers are
      written.  A handler that throws keeps the writes it made before the
      throw, which is what JavaScript does.
    - [Machine]: deterministic labelled transition systems as a class,
      reachability under an assumption on the events, computed runs,
      invariants, simulations, measures and schedulers.  The two pages
      and the application are instances of it.
    - [Http]: blobs, files, multipart forms, requests, and the typed
      replies of the interview backend.
    - [Front]: the fields of [FrontComponent], the world around it
      (pending callbacks, recorder objects) and one action per method and
      per callback.
    - [FrontProps]: what each method and callback does, branch by branch,
      and the laws of the client-side feedback text.
    - [FrontMachine]: events, the step function, the instance of
      [Machine], and the tactics that split a step into the cases of the
      source.
    - [FrontQueue]: the rank of a callback and the load of a world; the
      callback loop terminates and no click starts more than six
      callbacks.
    - [FrontWire]: the [facial] field of the feedback request as text,
      and what the receiver reads in it.
    - [FrontInvariants]: the invariants of every reachable world.
    - [FrontDefects]: what the interview page never undoes, stated for
      every world and run: recorders left recording, an index left
      stale, a spinner left up.
    - [FrontRefinement]: the abstract interview pipeline
      [interview_machine], the relation [shows] between a world of the
      page and a state of the pipeline, and the proof that the page
      implements the pipeline on disciplined runs, and nothing less.
    - [FrontScenarios]: concrete runs, evaluated by the kernel; they
      instantiate the theorems and reach the states in which the defects
      show.
    - [Quiz]: [Module QuizService], [Module AiService] and
      [Module QuizPage] (the fields of [QuizComponent], its methods and
      callbacks, its events and its instance of [Machine]).
    - [QuizProps]: what [submit] and the callbacks do on every branch,
      and the invariants of the quiz page.
    - [QuizDefects]: what the quiz page never undoes, stated for every
      world and run: a spinner left turning, a quiz that cannot be
      submitted, a score shown beside another quiz.
    - [QuizWire]: the body of a submission as the text that leaves the
      page, and what its receiver reads from it.
    - [QuizRefinement]: the abstract quiz session [session_machine]
      (idle, generating, submitting; a file chosen, a quiz loaded, a
      score and a message shown, or not), the function [session_of]
      from a world of the page to the session it shows, and the
      refinement.
    - [QuizScenarios]: runs of the quiz page and the witnesses of the
      theorems of [QuizProps], [QuizDefects], [QuizWire] and
      [QuizRefinement].
    - [App]: the metadata of the modules, components and services as
      data, what the injector needs to create a component, and the
      application as a machine over the two page machines: navigation,
      events at the instance shown, callbacks of destroyed instances.
    - [AppInvariants]: what the page shown has seen of a run
      ([view_of], a function of the events alone), the invariants of the
      two pages lifted to the application, and the requests the
      application has in flight.
    - [AppScenarios]: runs of the application across navigations.

    ** How state and operations correspond to the code

    A field of a class is a field of the record [Front.FrontComponent]
    or [Quiz.QuizPage.QuizComponent] with the same name and a type that
    follows the TypeScript declaration ([string | null] is
    [option string]; [any] is [JsValue.json]).  Where the code stores a
    value outside the declared type the model's type is widened to hold
    it: [currentQuestion] is assigned [generatedQuestions[0]] of a
    possibly empty array, so it is three-valued; [quizId] and
    [questions] are assigned properties of a reply declared [any], so
    they are [option json], with [None] for [undefined].  An assignment
    [this.f = e] is the action [assign (upd (set_f e))].

    A method or callback is a definition with the name of the method, or
    the name of the request followed by [_next] or [_error]; its body
    follows the statements of the source in order, and the doc comment
    of each gives the lines.  A closure passed to [subscribe], assigned
    to [onended], [onstop] or [ondataavailable], or the remainder of an
    [async] function after [await], is a constructor of [Front.task]
    carrying what the closure captures.  The browser holds these in
    [pending]; an event [Browser i b] of [FrontMachine.front_event]
    picks the one at position [i], removes it and runs its action, and
    an event [User u] calls a public method.  Any pending callback may
    run next, and the user may call any method at any time: that is the
    whole of the concurrency of a single-threaded page, and every
    invariant is proved for every interleaving.  [QuizPage.quiz_event]
    is built the same way.

    A decorator is a record with the fields of its metadata
    ([App.AppModule], [App.FrontComponent_decorator]), a constructor the
    list of what it asks the injector for.  The state of the application
    is [App.App]: the instance in the outlet and the instances destroyed,
    each an [App.instance] holding the world of its page.  An event of
    [App.app_event] is a navigation or an event of a page machine at an
    instance; what the router and the injector do with the metadata is
    modelled from Angular's documentation, since their code is not in
    the repository.

    ** What the theorems show

    - [JsString]: [trim] is idempotent and leaves a string with
      non-blank ends alone; the word count of
      [split(/\s+/).filter(Boolean).length] equals the number of word
      starts, is at most half the length, and the words are those of
      [String.words] on strings without U+00A0.
    - [JsonText]: [parse (stringify v) = Some v] for every well-formed
      [v] (round trip), with the length of the text as fuel; every value
      [parse] returns is well-formed; the text of a well-formed value
      holds no raw control character; [stringify] is injective on
      well-formed values.
    - [FrontProps]: the fallback feedback equals a reference text, is
      never empty and needs no [trim]; each method and callback leaves
      the fields and the pending callbacks as stated, on the normal and
      on the throwing branches; a second [stopRecording] changes nothing.
    - [FrontQueue]: termination of the callback loop.  Each callback
      has a rank, the length of the longest chain it can start
      ([stop()] has rank 6: the recorder's events, the analysis, the
      transcription, the feedback, its speech, its end).  Running a
      callback lowers the load, the sum of the ranks pending; so a run
      of browser events is no longer than the load, a browser that
      serves the oldest callback first empties the queue with the load
      as fuel, and over any run the callbacks run are at most six times
      the method calls.
    - [FrontWire]: as long as the analysis bodies delivered are
      well-formed, the [facial] field of every feedback request in
      flight is read back as the value the page held; the field does
      not tell a string from a value with that text.
    - [FrontInvariants]: in every reachable world a raised flag
      ([questionPlaying], [feedbackLoading], [feedbackPlaying]) has a
      pending callback that will lower it; [recording] implies that the
      current recorder is recording; a queued recorder stop always finds
      its [onstop] handler; [feedbackText] is never the empty string;
      [interviewFinished] is only raised on the last question; every
      request goes to the backend.  Two invariants hold only under an
      assumption on the backend ([no_null_upload], [questions_succeed]),
      stated as a restriction of the runs.
    - [FrontDefects]: over any run the recorders that record at the
      end are those at the start plus the camera grants, less at most
      the calls of [stopRecording]: nothing else stops a recorder.  A
      failed question request keeps the index, the question and
      [interviewFinished] in every world, and after an advance leaves the
      index past the end of the list.  A [null] body in answer to an
      upload request leaves [cvUploading] raised after every
      continuation in which no other CV is chosen.
    - [FrontRefinement]: when the user calls a method only while the
      page is quiet ([stopRecording] only while it records), no body is
      [null] and the preview element exists, every run of the page is a
      run of the pipeline (a simulation through [Machine.simulation]),
      every run of the pipeline is the image of such a run
      ([Machine.complete]), at most one callback is pending and one
      recorder records, each flag is raised exactly in its phases, and
      from every world at most six events bring the page back to rest.
    - [FrontScenarios]: a full interview, and a run that reaches each
      state in which an assumption is needed or a theorem of
      [FrontDefects] applies (index left stale by a failed regeneration,
      a spinner that stays up after a [null] body, two live recorders, an
      [undefined] question).  The runs are witnesses, not the theorems.
    - [QuizProps]: [submit] posts one answer per question, or throws
      exactly when the questions are not an array of non-null values; a
      reply loads the quiz and resets the answers; the spinner is up only
      while a generation request waits (unless a reply is [null]); the
      message is never empty and never cleared; every waiting observer
      holds the request of its method.
      Every reply answers a call: replies delivered and observers
      waiting are at most the actions of the user.
    - [QuizDefects]: a [null] reply to a generation request leaves the
      spinner turning after every continuation in which no quiz is asked
      for; a reply that names a quiz without questions that can be
      answered is loaded and [submit] then throws; in every reachable
      world a score that arrives after another quiz was loaded is shown
      beside that quiz.
    - [QuizWire]: while the quiz replies and the answers typed are
      well-formed JSON values, the body of every submission in flight is
      a text from which [JSON.parse] reads back the quiz id and the
      answer objects [submit] built.
    - [QuizRefinement]: on orderly runs (the user acts only while no
      request waits, no generation request is answered with [null]) the
      events of the page are a run of the session, which ends in the
      session the page shows; at most one request waits and the spinner
      turns exactly while a quiz is generated.  Conversely every run of
      the session is the image of an orderly run of the page.  A
      property of the session (answers are submitted and a score is
      shown only for a quiz that is loaded and can be answered) is
      proved by induction on the session and carried over to the page.
    - [QuizScenarios]: a full session, and the runs behind the findings
      on the quiz page; a run that is not orderly shows a score with no
      quiz loaded.
    - [App]: both routed components can be created, and a navigation
      fails exactly on a URL that is neither path; in every state of the
      application each instance, shown or destroyed, is at the end of a
      run of its page machine, so that every invariant above holds under
      navigation; events at destroyed instances never change the page
      shown; a recorder that records in a destroyed component is never
      stopped.
    - [AppInvariants]: after any run the page shown is a new instance of
      the component the last change of page went to, which has seen the
      events at the page shown since then and nothing else; a camera
      granted to a destroyed [FrontComponent] while an interview page is
      shown starts a recorder there that records for ever and leaves the
      page shown as it is.  An invariant of each page holds of every
      instance in every state of the application; every request in
      flight, of the page shown or of a destroyed one, goes to one of
      the eight addresses [FrontComponent] and [QuizService] post to; no
      constructor asks for [AiService] and no request was built by it.
    - [AppScenarios]: runs in which a quiz arrives after the user has
      left and come back, a recording starts in a destroyed component
      through the preview of the new one, and a camera is granted while
      the quiz page is shown; they are the witnesses of the theorems of
      [App] and [AppInvariants].

    ** Bounds and assumptions

    - Strings are sequences of UTF-16 code units below 256, one [ascii]
      each.  White space is therefore the seven code units 9-13, 32, 160.
      A literal of the source with a code unit above 255 is the bytes of
      its UTF-8 encoding; only its being non-empty is used.
    - A JSON number is carried as text; the pages only print numbers
      and test their truthiness.  [JsValue.truthy] decides the test for
      every spelling: a number is falsy when its text is [NaN] or a zero
      ([0], [-0], [0.0], [0e1]), so that it agrees with JavaScript also
      on a number that [JsonText.parse] kept as the token of a reply.
      Printing ([${v}], line 61 of quiz.component.ts) prints the text as
      it is, which is exact for a number in its [ToString] rendering:
      a question id written [1.0] in a reply is printed as [1.0] by the
      model and as [1] by JavaScript.
    - A reply of the interview backend has the shape the typed field it
      is stored in requires, each property optional, the body itself
      possibly [null]; [facialResult] is declared [any] and accepts every
      JSON value.  A reply of the quiz backend is any JSON value.
    - Property names of [userAnswers] are assumed not to be names that
      [Object.prototype] defines.
    - [MediaRecorder.stop()] on an inactive recorder throws in the first
      edition of the specification and returns in the current one; the
      event [CallStopRecording strict] carries which, and every invariant
      holds for both.
    - Fuel is used in two places.  The reader [JsonText.parse_value]
      takes one unit per value and per element; [parse] gives it the
      length of the text, which [weight_le_length] shows to be enough for
      the text of any well-formed value.  [Machine.schedule] takes one
      unit per event; [FrontQueue.callbacks_run_out] gives it the load
      of the world and shows that the queue is empty at the end.  Every
      other function is structurally recursive, and a run is a finite
      list of events.
    - [JsonText.parse] reads [\u] escapes of characters below 128 only,
      which covers every escape [stringify] writes, and keeps the
      members of an object in the order of the text, where JavaScript
      puts integer-like names first.  [stringify], [parse] and the string
      operations of [JsString] model built-ins of the language at their
      call sites; no line of the repository implements them.
    - The browser's media objects do only what the statements of the
      source make them do.  In [startRecording] only the missing
      [preview] element throws (line 121): [new MediaRecorder] (line
      125) and [start()] (line 131) are assumed not to throw.  A
      recorder becomes inactive only through [stop()] (line 143): one
      that the browser stops because its stream ended is not among the
      events, and the theorems that say a recorder records for ever
      ([App.destroyed_recorder_never_stops],
      [AppInvariants.orphan_recording], [FrontDefects.recorders_leak])
      are about recorders the browser leaves alone.  [audio.play()]
      (lines 102, 255) is assumed to start the playback: when it is
      rejected the [onended] callback stays pending.
    - The write of [userAnswers] by the template (quiz.component.html is
      not in the sources) is assumed to be the two-way binding
      [userAnswers[q.id]], the event [TypeAnswer].
    - The router is Angular's with its defaults: a route matches a URL
      that is its whole path, a navigation to the route shown changes
      nothing, any other destroys the component shown and creates the
      new one with the initial values of its fields.  [NgZone] is always
      provided; [HttpClient] is provided by [HttpClientModule]; a service
      by its own [providedIn: 'root'].

    ** Not modelled

    Change detection and [NgZone] (when the view is refreshed changes
    no field; [zone.run(f)] is [f]); [AppComponent], the templates and
    the style sheets, which the sources name but do not contain (the
    user events of the machines stand for what a template can call);
    child routes, guards and lazy loading, which the route table does
    not use; the media content of streams and blobs; [console.error];
    the [import] lines; and the two backends, of which only the reading
    of JSON text is modelled.  Replies of the interview backend are
    typed by endpoint: a body whose [summary], [questions],
    [transcription] or [feedback] is not of the declared type is not
    among the events.  The credential of line 54 of front.component.ts
    is replaced by a placeholder.

    ** Plan

    Done: the text primitives and values, JSON text, [FrontComponent]
    and [QuizComponent] with their invariants, the two services, the
    refinement of the interview pipeline by [FrontComponent], the
    termination of the callback loop, the module metadata and the two
    pages under navigation, the abstract quiz session and its
    refinement by [QuizComponent], the body of a quiz submission read
    back by its receiver, the defects of the two pages and of the
    navigation stated for every world and run, with the computed runs
    as their witnesses.  Next: replies of the interview backend of any
    JSON shape; failures of [new MediaRecorder], [start()] and
    [audio.play()] as events. *)

From stdpp Require Export base tactics option list strings.
From Stdlib Require Export Ascii.

(** ** Hint databases

    [js] holds the laws of the JavaScript primitives, [front] the facts
    about projections of an updated component that the invariant proofs
    use over and over. *)

Create HintDb js discriminated.
Create Rewrite HintDb js.
Create HintDb front discriminated.
Create Rewrite HintDb front.

(** ** Tactics *)

(** Split every conjunction and existential of the context. *)
Ltac destruct_all :=
  repeat match goal with
         | H : _ ∧ _ |- _ => destruct H
         | H : ∃ _, _ |- _ => destruct H
         end.

(** ** Lists as queues of registered callbacks

    The page's pending callbacks form a list from which the browser
    removes one element at a time. *)

Section list_delete.
Context {A : Type}.
Implicit Types (l : list A) (x y : A) (i : nat).

Lemma elem_of_delete_sub l i x : x ∈ delete i l → x ∈ l.
Proof.
  revert i; induction l as [|y l IH]; intros [|i]; simpl;
    rewrite ?elem_of_cons; [done..|tauto|].
  intros [->|?]; [by left|right; eauto].
Qed.

(** Removing an element does not remove the others. *)
Lemma elem_of_delete_other l i x y :
  l !! i = Some y → x ∈ l → x ≠ y → x ∈ delete i l.
Proof.
  revert i; induction l as [|z l IH]; intros [|i]; simpl;
    rewrite ?elem_of_cons; try done.
  - intros [= ->] [?|?] ?; done.
  - intros ? [->|?] ?; [by left|right; eauto].
Qed.

Lemma elem_of_snoc l x y : x ∈ l ++ [y] ↔ x ∈ l ∨ x = y.
Proof. rewrite elem_of_app, list_elem_of_singleton. done. Qed.

(** A property that some element has survives the removal of an element
    that does not have it. *)
Lemma Exists_delete_other (P : A → Prop) l i y :
  l !! i = Some y → ¬ P y → Exists P l → Exists P (delete i l).
Proof.
  rewrite !Exists_exists. intros Hi Hy (x & Hx & HP).
  exists x. split; [|done].
  eapply elem_of_delete_other; eauto. intros ->. done.
Qed.

Lemma Exists_delete_sub (P : A → Prop) l i :
  Exists P (delete i l) → Exists P l.
Proof.
  rewrite !Exists_exists. intros (x & Hx & HP).
  eauto using elem_of_delete_sub.
Qed.

Lemma Forall_delete_sub (P : A → Prop) l i :
  Forall P l → Forall P (delete i l).
Proof. rewrite !Forall_forall. eauto using elem_of_delete_sub. Qed.

Lemma Exists_snoc (P : A → Prop) l y :
  Exists P (l ++ [y]) ↔ Exists P l ∨ P y.
Proof. rewrite Exists_app, Exists_cons, Exists_nil. tauto. Qed.

Lemma Forall_snoc (P : A → Prop) l y :
  Forall P (l ++ [y]) ↔ Forall P l ∧ P y.
Proof. rewrite Forall_app, Forall_singleton. done. Qed.

(** The bound check [i < l.length] decides whether [l[i]] is an
    element. *)
Lemma ltb_lookup_Some l i x : l !! i = Some x → (i <? length l) = true.
Proof. intros ?%lookup_lt_Some. by apply Nat.ltb_lt. Qed.

Lemma ltb_lookup_None l i : l !! i = None → (i <? length l) = false.
Proof. intros ?%lookup_ge_None. by apply Nat.ltb_ge. Qed.
End list_delete.

#[export] Hint Resolve elem_of_delete_sub Forall_delete_sub : front.
