(* ===== verification/JsString.v ===== *)
(** * JsString: the string operations the component calls

    [clientSideFeedbackFallback] (front.component.ts, lines 288-315) builds
    its text with five built-ins: [startsWith], [split(/\s+/)],
    [filter(Boolean)], [join] and [trim].  Each is a function on [string]
    here; a character is one UTF-16 code unit below 256.

    Definitions come first, then the laws: idempotence and fixed points of
    [trim], the shape of the pieces of [split_ws], and the agreement of the
    word count with two reference counters. *)

From S2P Require Import Prelude.

(** ** Definitions *)

(** White space and line terminators of ECMAScript ([\s], and what [trim]
    removes), among the code units below 256: TAB, LF, VT, FF, CR, SP and
    NBSP (U+00A0). *)
Definition is_ws (a : ascii) : bool :=
  match a with
  | "009" | "010" | "011" | "012" | "013" | " " | "160" => true
  | _ => false
  end%char.

(** Every code unit of the string is white space. *)
Fixpoint all_ws (s : string) : bool :=
  match s with
  | "" => true
  | String a s' => is_ws a && all_ws s'
  end.

(** No code unit of the string is white space. *)
Fixpoint no_ws (s : string) : bool :=
  match s with
  | "" => true
  | String a s' => negb (is_ws a) && no_ws s'
  end.

(** The string begins with a code unit that is not white space. *)
Definition starts_word (s : string) : bool :=
  match s with
  | "" => false
  | String a _ => negb (is_ws a)
  end.

(** The string begins with a white-space code unit. *)
Definition starts_ws (s : string) : bool :=
  match s with
  | "" => false
  | String a _ => is_ws a
  end.

(** [s.trimStart()]. *)
Fixpoint trimStart (s : string) : string :=
  match s with
  | "" => ""
  | String a s' => if is_ws a then trimStart s' else s
  end.

(** [s.trimEnd()]: a code unit is kept when something is kept after it, or
    when it is not white space. *)
Fixpoint trimEnd (s : string) : string :=
  match s with
  | "" => ""
  | String a s' =>
      match trimEnd s' with
      | "" => if is_ws a then "" else String a ""
      | t => String a t
      end
  end.

(** [s.trim()]. *)
Definition trim (s : string) : string := trimEnd (trimStart s).

(** [s.split(/\s+/)].  The separator is a maximal run of white space, so
    a run at either end of [s] leaves an empty piece there, and the empty
    string splits into one empty piece. *)
Fixpoint split_ws (s : string) : list string :=
  match s with
  | "" => [""]
  | String a s' =>
      if is_ws a then
        if starts_ws s' then split_ws s' else "" :: split_ws s'
      else
        match split_ws s' with
        | p :: ps => String a p :: ps
        | [] => [String a ""]
        end
  end.

(** [Boolean(s)] for a string: it is not empty. *)
Definition truthy_string (s : string) : bool :=
  match s with
  | "" => false
  | String _ _ => true
  end.

(** [l.filter(Boolean)] on an array of strings. *)
Definition filter_Boolean (l : list string) : list string :=
  List.filter truthy_string l.

(** [s.split(/\s+/).filter(Boolean).length] (line 305). *)
Definition word_count (s : string) : nat :=
  length (filter_Boolean (split_ws s)).

(** [s.startsWith(p)]. *)
Definition startsWith (s p : string) : bool := String.prefix p s.

(** [l.join(sep)] on an array of strings. *)
Definition join (sep : string) (l : list string) : string :=
  String.concat sep l.

(** Reference counter: the positions where a word starts, that is, where a
    code unit that is not white space follows white space or the start. *)
Fixpoint word_starts (after_ws : bool) (s : string) : nat :=
  match s with
  | "" => 0
  | String a s' =>
      (if after_ws && negb (is_ws a) then 1 else 0) + word_starts (is_ws a) s'
  end.

(** No code unit of the string is U+00A0. *)
Fixpoint no_nbsp (s : string) : bool :=
  match s with
  | "" => true
  | String a s' => negb (Ascii.eqb a "160") && no_nbsp s'
  end.

(** ** Laws of append *)

Lemma app_nil_l_s (s : string) : "" +:+ s = s.
Proof. done. Qed.

Lemma app_cons_s a (s t : string) : String a s +:+ t = String a (s +:+ t).
Proof. done. Qed.

Lemma app_nil_r_s (s : string) : s +:+ "" = s.
Proof. induction s; rewrite ?app_nil_l_s, ?app_cons_s; congruence. Qed.

Lemma app_assoc_s (s t u : string) : (s +:+ t) +:+ u = s +:+ (t +:+ u).
Proof. induction s; rewrite ?app_nil_l_s, ?app_cons_s; congruence. Qed.

Lemma app_eq_nil_s (s t : string) : s +:+ t = "" → s = "" ∧ t = "".
Proof. destruct s; rewrite ?app_nil_l_s, ?app_cons_s; [done|discriminate]. Qed.

#[export] Hint Rewrite app_nil_l_s app_cons_s app_nil_r_s app_assoc_s : js.

(** ** White space *)

Lemma all_ws_app s t : all_ws (s +:+ t) = all_ws s && all_ws t.
Proof.
  induction s as [|a s IH]; autorewrite with js; simpl; [done|].
  rewrite IH. by destruct (is_ws a).
Qed.

Lemma no_ws_app s t : no_ws (s +:+ t) = no_ws s && no_ws t.
Proof.
  induction s as [|a s IH]; autorewrite with js; simpl; [done|].
  rewrite IH. by destruct (is_ws a).
Qed.

Lemma starts_word_not_all_ws s : starts_word s = true → all_ws s = false.
Proof. destruct s as [|a s]; simpl; [done|]. by destruct (is_ws a). Qed.

(** ** trim *)

Lemma trimStart_all_ws s : all_ws s = true → trimStart s = "".
Proof.
  induction s as [|a s IH]; simpl; [done|].
  destruct (is_ws a); simpl; [done|discriminate].
Qed.

Lemma trimStart_word s : starts_word s = true → trimStart s = s.
Proof. destruct s as [|a s]; simpl; [done|]. by destruct (is_ws a). Qed.

(** What [trimStart] leaves is empty or starts a word. *)
Lemma trimStart_result s : trimStart s = "" ∨ starts_word (trimStart s) = true.
Proof.
  induction s as [|a s IH]; simpl; [by left|].
  destruct (is_ws a) eqn:E; [done|]. right. simpl. by rewrite E.
Qed.

Lemma trimStart_idem s : trimStart (trimStart s) = trimStart s.
Proof.
  destruct (trimStart_result s) as [->| H]; [done|by apply trimStart_word].
Qed.

Lemma trimEnd_eq_nil s : trimEnd s = "" ↔ all_ws s = true.
Proof.
  induction s as [|a s IH]; simpl; [done|].
  destruct (trimEnd s) eqn:E, (is_ws a); simpl;
    intuition (discriminate || congruence).
Qed.

(** [trimEnd] only looks at the right end: a prefix in front of a string
    that keeps something is kept whole. *)
Lemma trimEnd_app s t : trimEnd t ≠ "" → trimEnd (s +:+ t) = s +:+ trimEnd t.
Proof.
  intros Ht. induction s as [|a s IH]; autorewrite with js; [done|].
  simpl. rewrite IH. destruct (s +:+ trimEnd t) eqn:E; [|done].
  apply app_eq_nil_s in E as [_ ?]. done.
Qed.

Lemma trimEnd_starts_word s :
  starts_word s = true → starts_word (trimEnd s) = true.
Proof.
  destruct s as [|a s]; simpl; [done|]. intros Ha.
  destruct (trimEnd s); simpl; [|done].
  destruct (is_ws a) eqn:E; simpl; [done|by rewrite E].
Qed.

Lemma trimEnd_idem s : trimEnd (trimEnd s) = trimEnd s.
Proof.
  induction s as [|a s IH]; simpl; [done|].
  destruct (trimEnd s) as [|b t] eqn:E.
  - destruct (is_ws a) eqn:Ea; simpl; [done|]. by rewrite Ea.
  - simpl in *. rewrite IH. done.
Qed.

Lemma trim_idem s : trim (trim s) = trim s.
Proof.
  unfold trim. destruct (trimStart_result s) as [->|H]; [done|].
  rewrite (trimStart_word (trimEnd _)) by by apply trimEnd_starts_word.
  apply trimEnd_idem.
Qed.

Lemma trim_eq_nil s : trim s = "" ↔ all_ws s = true.
Proof.
  unfold trim. rewrite trimEnd_eq_nil. split.
  - induction s as [|a s IH]; simpl; [done|].
    destruct (is_ws a) eqn:E; simpl; [done|]. by rewrite E.
  - intros H. by rewrite trimStart_all_ws.
Qed.

(** A text that starts with a word and ends with a given tail that
    [trimEnd] leaves alone is a fixed point of [trim]. *)
Lemma trim_fixed s t :
  starts_word (s +:+ t) = true → trimEnd t = t → t ≠ "" →
  trim (s +:+ t) = s +:+ t.
Proof.
  intros Hs Ht Hne. unfold trim. rewrite trimStart_word by done.
  rewrite trimEnd_app; congruence.
Qed.

(** ** split *)

Lemma split_ws_nonempty s : split_ws s ≠ [].
Proof.
  induction s as [|a s IH]; simpl; [done|].
  destruct (is_ws a); [|by destruct (split_ws s)].
  by destruct (starts_ws s).
Qed.

(** The first piece is empty exactly when the string does not start a
    word. *)
Lemma split_ws_head s :
  ∃ p ps, split_ws s = p :: ps ∧ truthy_string p = starts_word s.
Proof.
  induction s as [|a s (p & ps & E & Hp)]; simpl; [by eexists _, _|].
  destruct (is_ws a) eqn:Ea; simpl.
  - destruct (starts_ws s) eqn:Es; [|by eexists _, _].
    exists p, ps. split; [done|]. rewrite Hp.
    destruct s; simpl in *; [done|by rewrite Es].
  - rewrite E. by eexists _, _.
Qed.

(** No piece contains white space. *)
Lemma split_ws_no_ws s : Forall (λ p, no_ws p = true) (split_ws s).
Proof.
  induction s as [|a s IH]; simpl; [by repeat constructor|].
  destruct (is_ws a) eqn:Ea.
  - destruct (starts_ws s); [done|by constructor].
  - destruct (split_ws s) as [|p ps]; [by repeat constructor; simpl; rewrite Ea|].
    inversion_clear IH. constructor; [|done]. simpl. by rewrite Ea.
Qed.

(** ** The word count *)

Lemma word_count_ws a s : is_ws a = true → word_count (String a s) = word_count s.
Proof. unfold word_count. simpl. intros ->. by destruct (starts_ws s). Qed.

Lemma word_count_word a s :
  is_ws a = false →
  word_count (String a s) = word_count s + (if starts_word s then 0 else 1).
Proof.
  unfold word_count. simpl. intros ->.
  destruct (split_ws_head s) as (p & ps & -> & Hp). simpl.
  rewrite <-Hp. destruct (truthy_string p); simpl; lia.
Qed.

(** The two counters agree whichever state the reference starts in. *)
Lemma word_starts_word_count s :
  word_starts true s = word_count s ∧
  word_starts false s + (if starts_word s then 1 else 0) = word_count s.
Proof.
  induction s as [|a s [IH1 IH2]]; simpl; [done|].
  destruct (is_ws a) eqn:Ea; simpl.
  - rewrite word_count_ws by done. lia.
  - rewrite word_count_word by done. destruct (starts_word s); lia.
Qed.

Lemma word_starts_false_le s : word_starts false s ≤ word_starts true s.
Proof. destruct s as [|a s]; simpl; [done|]. destruct (is_ws a); simpl; lia. Qed.

(** A text has no word exactly when it is all white space. *)
Lemma word_starts_eq_0 s : word_starts true s = 0 ↔ all_ws s = true.
Proof.
  induction s as [|a s IH]; simpl; [done|].
  destruct (is_ws a) eqn:Ea; simpl; [done|]. split; [lia|done].
Qed.

(** Two words need a separator between them. *)
Lemma word_starts_bound b s :
  2 * word_starts b s ≤ String.length s + (if b then 1 else 0).
Proof.
  revert b; induction s as [|a s IH]; intros b; simpl; [lia|].
  specialize (IH (is_ws a)).
  destruct b, (is_ws a); simpl in *; lia.
Qed.

(** ** Agreement with the word splitter of the library

    [String.words] of stdpp breaks a string at the six ASCII blanks.  On a
    text without U+00A0 it returns what
    [split(/\s+/).filter(Boolean)] returns. *)

Lemma is_ws_is_space a : Ascii.eqb a "160" = false → is_ws a = Ascii.is_space a.
Proof. by destruct a as [[] [] [] [] [] [] [] []]. Qed.

Lemma rev_app_spec c t : String.rev_app c t = String.rev c +:+ t.
Proof.
  unfold String.rev. revert t; induction c as [|a c IH]; intros t; simpl; [done|].
  rewrite IH, (IH (String a "")), app_assoc_s. done.
Qed.

Lemma rev_cons a c p : String.rev (String a c) +:+ p = String.rev c +:+ String a p.
Proof.
  unfold String.rev at 1. simpl. rewrite rev_app_spec, app_assoc_s. done.
Qed.

Lemma filter_Boolean_ws a s :
  is_ws a = true →
  ∃ ps, split_ws (String a s) = "" :: ps ∧
        filter_Boolean ps = filter_Boolean (split_ws s).
Proof.
  intros Ha. simpl. rewrite Ha.
  destruct (starts_ws s) eqn:Es; [|by eexists].
  destruct (split_ws_head s) as (p & ps & E & Hp).
  assert (starts_word s = false) as Hs by (destruct s; simpl in *; [done|by rewrite Es]).
  rewrite Hs in Hp. destruct p; [|done]. exists ps. by rewrite E.
Qed.

(** The library's splitter, started inside a word [c] (kept reversed) or
    between words. *)
Lemma words_go_split cur s :
  no_nbsp s = true →
  String.words_go cur s =
    match cur, split_ws s with
    | Some c, p :: ps => (String.rev c +:+ p) :: filter_Boolean ps
    | _, l => filter_Boolean l
    end.
Proof.
  revert cur; induction s as [|a s IH]; intros cur Hs; simpl in *.
  { destruct cur; simpl; [by rewrite app_nil_r_s|done]. }
  apply andb_prop in Hs as [Ha%negb_true_iff Hs].
  rewrite <-(is_ws_is_space a) by done.
  destruct (is_ws a) eqn:Ea.
  - destruct (filter_Boolean_ws a s Ea) as (ps & E & Hps).
    simpl in E. rewrite Ea in E. rewrite E, IH by done.
    destruct (split_ws s) eqn:Es; [by destruct (split_ws_nonempty s)|].
    destruct cur; simpl; rewrite ?app_nil_r_s, Hps; done.
  - rewrite IH by done.
    destruct (split_ws_head s) as (p & ps & -> & _).
    destruct cur; simpl; [by rewrite rev_cons|done].
Qed.

(** ** Headline properties of the word count *)

(** C39.  [split(/\s+/).filter(Boolean).length] counts the word starts
    of the text: the positions where a code unit that is not white space
    follows white space or begins the text. *)
Theorem word_count_word_starts s : word_count s = word_starts true s.
Proof. by destruct (word_starts_word_count s) as [-> _]. Qed.

(** On a text without U+00A0 the words the page counts are the
    words stdpp's [String.words] returns, one for one. *)
Theorem filter_Boolean_split_words s :
  no_nbsp s = true → filter_Boolean (split_ws s) = String.words s.
Proof. intros Hs. unfold String.words. by rewrite words_go_split. Qed.

(** A text of [n] code units has at most [(n + 1) / 2] words, and
    it has none exactly when [trim] leaves nothing of it. *)
Theorem word_count_bound s :
  2 * word_count s ≤ String.length s + 1 ∧
  (word_count s = 0 ↔ trim s = "").
Proof.
  rewrite <-(proj1 (word_starts_word_count s)). split.
  - apply (word_starts_bound true).
  - rewrite trim_eq_nil. apply word_starts_eq_0.
Qed.

(** [trim] is idempotent, and what it returns neither starts nor
    ends with white space. *)
Theorem trim_idempotent s :
  trim (trim s) = trim s ∧
  (trim s = "" ∨ starts_word (trim s) = true ∧ trimEnd (trim s) = trim s).
Proof.
  split; [apply trim_idem|].
  unfold trim. destruct (trimStart_result s) as [->|H]; [by left|].
  right. split; [by apply trimEnd_starts_word|apply trimEnd_idem].
Qed.

Lemma filter_Boolean_split_words_witness :
  filter_Boolean (split_ws "  I build  services ") = String.words "  I build  services ".
Proof. exact (filter_Boolean_split_words "  I build  services " eq_refl). Defined.
