(* ===== verification/JsValue.v ===== *)
(** * JsValue: the values the page receives and how it inspects them

    [facialResult] (front.component.ts, line 14) is declared [any]: it
    holds whatever JSON the backend sent, the string the error branch
    stores, or [null].  The component applies six operations to it:
    truthiness, [typeof], [||], [in], [Object.keys] and conversion to a
    string inside a template literal (lines 213, 292-301).  This file
    defines the values and those operations, then their laws.

    [currentQuestion] (line 21) is declared [string | null] and is
    assigned [generatedQuestions[0]], which is [undefined] on an empty
    array: [jsopt] has the three cases. *)

From stdpp Require Import pretty.
From S2P Require Import Prelude JsString.

(** ** Definitions *)

(** A JSON value.  A number carries its [ToString] rendering, the only
    thing the component reads from a number besides its truthiness.  The
    fields of an object are listed in property order (the order of
    [Object.keys]), each name once. *)
#[local] Unset Elimination Schemes.
Inductive json : Type :=
| JNull
| JBool (b : bool)
| JNum (shown : string)
| JStr (s : string)
| JArr (items : list json)
| JObj (fields : list (string * json)).
#[local] Set Elimination Schemes.

(** The results of [typeof] on these values. *)
Inductive js_type : Type := TBoolean | TNumber | TString | TObject.

(** [undefined], [null], or a value. *)
Inductive jsopt (A : Type) : Type :=
| Undefined
| Null
| Val (a : A).
Arguments Undefined {A}.
Arguments Null {A}.
Arguments Val {A} a.

(** [typeof v]; [typeof null] is ["object"]. *)
Definition typeof (v : json) : js_type :=
  match v with
  | JNull => TObject
  | JBool _ => TBoolean
  | JNum _ => TNumber
  | JStr _ => TString
  | JArr _ => TObject
  | JObj _ => TObject
  end.

(** The digits of a mantissa are all [0], and there is one ([seen]); the
    digits of an exponent do not count. *)
Fixpoint zero_mantissa (seen : bool) (s : string) : bool :=
  match s with
  | "" => seen
  | String c r =>
      match c with
      | "0" => zero_mantissa true r
      | "." => zero_mantissa seen r
      | "e" | "E" => seen
      | _ => false
      end%char
  end.

(** The text of a number denotes zero: ["0"], and also ["-0"], ["0.0"]
    or ["0e1"], which a reply may hold and which are the number [0] once
    read. *)
Definition is_zero_text (shown : string) : bool :=
  match shown with
  | String "-" r => zero_mantissa false r
  | _ => zero_mantissa false shown
  end.

(** [Boolean(v)]: [null], [false], [0], [NaN] and [""] are falsy. *)
Definition truthy (v : json) : bool :=
  match v with
  | JNull => false
  | JBool b => b
  | JNum shown => negb (is_zero_text shown || String.eqb shown "NaN")
  | JStr s => truthy_string s
  | JArr _ => true
  | JObj _ => true
  end.

(** [v || d]. *)
Definition or_else (v d : json) : json := if truthy v then v else d.

(** [s || d] on strings, where [s] may be a missing property. *)
Definition or_string (s : option string) (d : string) : string :=
  match s with
  | Some s => if truthy_string s then s else d
  | None => d
  end.

(** [l || d] on arrays, where [l] may be a missing property; an array is
    truthy even when empty. *)
Definition or_array {A} (l : option (list A)) (d : list A) : list A :=
  default d l.

(** [v && typeof v === 'object']: an array or an object. *)
Definition is_object (v : json) : bool :=
  truthy v && match typeof v with TObject => true | _ => false end.

(** [Object.keys(v)]: the field names of an object, the indices of an
    array in decimal. *)
Definition own_keys (v : json) : list string :=
  match v with
  | JObj fields => fields.*1
  | JArr items => pretty <$> seq 0 (length items)
  | _ => []
  end.

(** [k in v] for a name [k] that no prototype defines: an enumerable own
    property, or the [length] of an array. *)
Definition has_own (k : string) (v : json) : bool :=
  existsb (String.eqb k) (own_keys v)
  || match v with JArr _ => String.eqb k "length" | _ => false end.

(** The first field named [k]. *)
Fixpoint assoc (k : string) (fields : list (string * json)) : option json :=
  match fields with
  | [] => None
  | (k', v) :: rest => if String.eqb k k' then Some v else assoc k rest
  end.

(** [v.k] on an object; [None] stands for [undefined]. *)
Definition get_prop (k : string) (v : json) : option json :=
  match v with
  | JObj fields => assoc k fields
  | _ => None
  end.

(** [`${v}`]: [ToString].  An array joins its elements with a comma and
    prints [null] elements as nothing; an object prints as
    ["[object Object]"]. *)
Fixpoint to_string (v : json) : string :=
  match v with
  | JNull => "null"
  | JBool true => "true"
  | JBool false => "false"
  | JNum shown => shown
  | JStr s => s
  | JArr items =>
      join "," (List.map (λ x, match x with JNull => "" | _ => to_string x end) items)
  | JObj _ => "[object Object]"
  end.

(** [`${o}`] where [o] may be [undefined]. *)
Definition template (o : option json) : string :=
  match o with
  | Some v => to_string v
  | None => "undefined"
  end.

(** [l[i]]: the element, or [undefined] out of range. *)
Definition index {A} (l : list A) (i : nat) : jsopt A :=
  match l !! i with
  | Some x => Val x
  | None => Undefined
  end.

(** A decimal digit, and a string of decimal digits: the names of the
    elements of an array. *)
Definition is_digit (a : ascii) : bool :=
  match a with
  | "0" | "1" | "2" | "3" | "4" | "5" | "6" | "7" | "8" | "9" => true
  | _ => false
  end%char.

Fixpoint digits (s : string) : bool :=
  match s with
  | "" => true
  | String a s' => is_digit a && digits s'
  end.

(** ** Decidable equality *)

#[export] Instance js_type_eq_dec : EqDecision js_type.
Proof. solve_decision. Defined.

#[export] Instance jsopt_eq_dec {A} `{EqDecision A} : EqDecision (jsopt A).
Proof. solve_decision. Defined.

(** Induction on JSON values with the hypothesis available for every
    element of an array and every field of an object. *)
Lemma json_ind (P : json → Prop) :
  P JNull → (∀ b, P (JBool b)) → (∀ n, P (JNum n)) → (∀ s, P (JStr s)) →
  (∀ items, Forall P items → P (JArr items)) →
  (∀ fields, Forall (λ kv, P kv.2) fields → P (JObj fields)) →
  ∀ v, P v.
Proof.
  intros Hnull Hbool Hnum Hstr Harr Hobj.
  fix IH 1. intros [|b|n|s|items|fields].
  - exact Hnull.
  - apply Hbool.
  - apply Hnum.
  - apply Hstr.
  - apply Harr. induction items as [|x items IHi]; constructor; [apply IH|exact IHi].
  - apply Hobj.
    induction fields as [|[k x] fields IHf]; constructor; [apply IH|exact IHf].
Qed.

(** ** Laws *)

Lemma typeof_string v : typeof v = TString ↔ ∃ s, v = JStr s.
Proof. destruct v; split; try done; (by intros [? [=]]) || eauto. Qed.

Lemma is_object_spec v :
  is_object v = true ↔ (∃ items, v = JArr items) ∨ (∃ fields, v = JObj fields).
Proof.
  destruct v as [|[]|n|s|items|fields]; unfold is_object; simpl;
    rewrite ?andb_false_r; split; try done; try (intros [[? [=]]|[? [=]]]).
  - left. by eexists.
  - right. by eexists.
Qed.

Lemma is_object_not_string v s : is_object v = true → v ≠ JStr s.
Proof. intros H ->. by destruct s. Qed.

(** Zero in each of its spellings is falsy, and no other number is. *)
Lemma truthy_zero_texts :
  truthy <$> (JNum <$> ["0"; "-0"; "0.0"; "0e1"; "-0.00E-7"; "NaN"])
  = [false; false; false; false; false; false] ∧
  truthy <$> (JNum <$> ["1"; "0.1"; "10"; "-0.5"; "1e0"; "0.001e5"; "Infinity"])
  = [true; true; true; true; true; true; true].
Proof. done. Qed.

Lemma or_else_truthy v d : truthy v = true → or_else v d = v.
Proof. unfold or_else. by intros ->. Qed.

Lemma or_else_falsy v d : truthy v = false → or_else v d = d.
Proof. unfold or_else. by intros ->. Qed.

Lemma truthy_or_else v d : truthy (or_else v d) = truthy v || truthy d.
Proof. unfold or_else. by destruct (truthy v) eqn:E. Qed.

Lemma or_string_truthy s d :
  truthy_string d = true → truthy_string (or_string s d) = true.
Proof.
  intros Hd. destruct s as [s|]; simpl; [|done].
  by destruct (truthy_string s) eqn:E.
Qed.

(** [s || ''] keeps a string as it is. *)
Lemma or_string_empty s : or_string (Some s) "" = s.
Proof. by destruct s. Qed.

Lemma own_keys_length_arr items :
  length (own_keys (JArr items)) = length items.
Proof. simpl. by rewrite length_fmap, length_seq. Qed.

Lemma own_keys_NoDup_arr items : NoDup (own_keys (JArr items)).
Proof. simpl. apply NoDup_fmap_2; [apply _|apply NoDup_seq]. Qed.

Lemma assoc_Some k fields v :
  assoc k fields = Some v → (k, v) ∈ fields.
Proof.
  induction fields as [|[k' v'] rest IH]; simpl; [done|].
  destruct (String.eqb_spec k k') as [->|?].
  - intros [= ->]. left.
  - intros ?. right. auto.
Qed.

Lemma existsb_eqb_elem_of k (l : list string) :
  existsb (String.eqb k) l = true ↔ k ∈ l.
Proof.
  induction l as [|k' l IH]; simpl.
  - split; [done|]. by intros ?%elem_of_nil.
  - rewrite orb_true_iff, IH, elem_of_cons.
    destruct (String.eqb_spec k k'); intuition congruence.
Qed.

(** On an object, [k in v] and [v.k !== undefined] agree. *)
Lemma has_own_get_prop k fields :
  has_own k (JObj fields) = true ↔ is_Some (get_prop k (JObj fields)).
Proof.
  unfold has_own. simpl. rewrite orb_false_r.
  induction fields as [|[k' v'] rest IH]; simpl.
  - split; [done|]. by intros [? ?].
  - destruct (String.eqb_spec k k'); simpl; [|done]. split; eauto.
Qed.

Lemma index_Val {A} (l : list A) i x : index l i = Val x ↔ l !! i = Some x.
Proof. unfold index. destruct (l !! i); naive_solver. Qed.

Lemma index_Undefined {A} (l : list A) i :
  index l i = Undefined ↔ length l ≤ i.
Proof.
  unfold index. destruct (l !! i) eqn:E.
  - apply lookup_lt_Some in E. split; [done|lia].
  - apply lookup_ge_None in E. done.
Qed.

Lemma index_not_Null {A} (l : list A) i : index l i ≠ Null.
Proof. unfold index. by destruct (l !! i). Qed.

(** ** The names of array elements *)

Lemma pretty_N_go_digits x s : digits s = true → digits (pretty_N_go x s) = true.
Proof.
  revert s. induction (N.lt_wf_0 x) as [x _ IH]; intros s Hs.
  assert (x = 0 ∨ 0 < x)%N as [->|?] by lia; [done|].
  rewrite pretty_N_go_step by done. apply IH; [by apply N.div_lt|].
  simpl. rewrite Hs, andb_true_r.
  unfold pretty_N_char. by repeat case_match.
Qed.

Lemma pretty_nat_digits (n : nat) : digits (pretty n) = true.
Proof.
  unfold pretty, pretty_nat, pretty, pretty_N.
  case_decide; [done|]. by apply pretty_N_go_digits.
Qed.

Lemma own_keys_arr_digits items :
  Forall (λ k, digits k = true) (own_keys (JArr items)).
Proof.
  simpl. apply Forall_fmap, Forall_forall. intros n _. apply pretty_nat_digits.
Qed.

(** An array has no property whose name is neither a number nor
    [length]. *)
Lemma has_own_arr_named k items :
  digits k = false → k ≠ "length" → has_own k (JArr items) = false.
Proof.
  intros Hk Hlen. unfold has_own. apply orb_false_intro.
  - apply not_true_is_false. intros Hin%existsb_eqb_elem_of.
    pose proof (own_keys_arr_digits items) as Hd.
    rewrite Forall_forall in Hd. apply Hd in Hin. congruence.
  - by apply String.eqb_neq.
Qed.
