(* ===== verification/JsonText.v ===== *)
(** * JsonText: JSON values as text on the wire

    [requestFeedback] puts [JSON.stringify(this.facialResult || {})] in
    the [facial] field of its form (front.component.ts, line 213), and
    Angular's [HttpClient] serialises the object bodies of the two
    services (quiz.service.ts, line 24; ai.service.ts, lines 15 and 19)
    the same way.  [stringify] is that function on the values of
    [JsValue]: no indentation, strings quoted with the escapes of
    ECMAScript's [QuoteJSONString], a number that is not finite printed as
    [null].

    [parse] is the reader on the other side of the wire: the JSON grammar
    of RFC 8259 with its four white-space characters, the two-character
    escapes, [\u] escapes of the characters below 128, and the last of
    several fields of the same name winning, as in [JSON.parse] and in
    Python's [json.loads].  It runs on fuel, and [parse] gives it the
    length of the text, which is always enough.

    The theorems: what [parse] reads from the text of a well-formed value
    is that value, whatever follows the text is left unread, and the text
    holds no raw control character. *)

From Stdlib Require Import NArith.
From S2P Require Import Prelude JsString JsValue.

(** ** Definitions *)

(** The quotation mark. *)
Definition dquote : ascii := "034"%char.

(** The digit of [n] in lower-case hexadecimal, for [n] below 16. *)
Definition hex_digit (n : N) : ascii :=
  if (n <? 10)%N then ascii_of_N (48 + n) else ascii_of_N (87 + n).

(** The value of a hexadecimal digit of either case. *)
Definition hex_value (a : ascii) : option N :=
  let n := N_of_ascii a in
  if (48 <=? n)%N && (n <=? 57)%N then Some (n - 48)%N
  else if (97 <=? n)%N && (n <=? 102)%N then Some (n - 87)%N
  else if (65 <=? n)%N && (n <=? 70)%N then Some (n - 55)%N
  else None.

(** A character that may not stand unescaped inside a JSON string. *)
Definition is_control (a : ascii) : bool := (N_of_ascii a <? 32)%N.

(** One code unit inside the quotes: the quotation mark, the reverse
    solidus and the five controls with a short name get their
    two-character escape, the other controls [\u00XX]. *)
Definition escape_char (a : ascii) : string :=
  match a with
  | "034"%char => String "\" (String dquote "")
  | "\"%char => "\\"
  | "008"%char => "\b"
  | "012"%char => "\f"
  | "010"%char => "\n"
  | "013"%char => "\r"
  | "009"%char => "\t"
  | _ =>
      if is_control a then
        "\u00" +:+ String (hex_digit (N_of_ascii a / 16))
                     (String (hex_digit (N_of_ascii a mod 16)) "")
      else String a ""
  end.

Fixpoint escape (s : string) : string :=
  match s with
  | "" => ""
  | String a s' => escape_char a +:+ escape s'
  end.

(** [QuoteJSONString]. *)
Definition quote (s : string) : string :=
  String dquote (escape s +:+ String dquote "").

(** The text of a number: its [ToString], or [null] when it is not
    finite. *)
Definition number_text (shown : string) : string :=
  if String.eqb shown "NaN" || String.eqb shown "Infinity"
     || String.eqb shown "-Infinity"
  then "null" else shown.

(** [JSON.stringify(v)]. *)
Fixpoint stringify (v : json) : string :=
  match v with
  | JNull => "null"
  | JBool true => "true"
  | JBool false => "false"
  | JNum shown => number_text shown
  | JStr s => quote s
  | JArr items => "[" +:+ join "," (List.map stringify items) +:+ "]"
  | JObj fields =>
      "{" +:+ join "," (List.map (λ kv, quote kv.1 +:+ ":" +:+ stringify kv.2) fields)
          +:+ "}"
  end.

(** No character of the text is a control character. *)
Fixpoint no_control (s : string) : bool :=
  match s with
  | "" => true
  | String a s' => negb (is_control a) && no_control s'
  end.

(** *** The reader *)

(** The white space of JSON: space, TAB, LF and CR. *)
Definition is_json_ws (a : ascii) : bool :=
  match a with
  | " " | "009" | "010" | "013" => true
  | _ => false
  end%char.

Fixpoint skip_ws (s : string) : string :=
  match s with
  | "" => ""
  | String a s' => if is_json_ws a then skip_ws s' else s
  end.

(** The rest of the text after the character [c], which must come next
    after white space. *)
Definition peek (c : ascii) (s : string) : option string :=
  match skip_ws s with
  | String a r => if Ascii.eqb a c then Some r else None
  | "" => None
  end.

(** The rest of [s] after the prefix [p]. *)
Fixpoint strip_prefix (p s : string) : option string :=
  match p, s with
  | "", _ => Some s
  | String a p', String b s' => if Ascii.eqb a b then strip_prefix p' s' else None
  | String _ _, "" => None
  end.

(** One of the three literal names. *)
Definition literal (word : string) (v : json) (s : string) : option (json * string) :=
  rest ← strip_prefix word s; Some (v, rest).

(** The character a two-character escape stands for. *)
Definition unescape (e : ascii) : option ascii :=
  match e with
  | "034" => Some "034"
  | "\" => Some "\"
  | "/" => Some "/"
  | "b" => Some "008"
  | "f" => Some "012"
  | "n" => Some "010"
  | "r" => Some "013"
  | "t" => Some "009"
  | _ => None
  end%char.

(** The character of [\uXXXX], when it is below 128. *)
Definition code_unit (h1 h2 h3 h4 : ascii) : option ascii :=
  a ← hex_value h1; b ← hex_value h2; c ← hex_value h3; d ← hex_value h4;
  let n := (((a * 16 + b) * 16 + c) * 16 + d)%N in
  if (n <? 128)%N then Some (ascii_of_N n) else None.

(** A string after its opening quote: its characters up to the closing
    quote, and what follows.  A raw control character is refused. *)
Fixpoint parse_string (s : string) : option (string * string) :=
  match s with
  | "" => None
  | String a rest =>
      if Ascii.eqb a dquote then Some ("", rest)
      else if Ascii.eqb a "\" then
        match rest with
        | String "u" (String h1 (String h2 (String h3 (String h4 rest')))) =>
            c ← code_unit h1 h2 h3 h4;
            '(str, r) ← parse_string rest'; Some (String c str, r)
        | String e rest' =>
            c ← unescape e;
            '(str, r) ← parse_string rest'; Some (String c str, r)
        | "" => None
        end
      else if is_control a then None
      else '(str, r) ← parse_string rest; Some (String a str, r)
  end.

(** The characters a number is made of. *)
Definition is_num_char (a : ascii) : bool :=
  is_digit a ||
  match a with
  | "-" | "+" | "." | "e" | "E" => true
  | _ => false
  end%char.

(** The longest prefix of characters that satisfy [p], and the rest. *)
Fixpoint span (p : ascii → bool) (s : string) : string * string :=
  match s with
  | "" => ("", "")
  | String a s' =>
      if p a then let '(t, r) := span p s' in (String a t, r) else ("", s)
  end.

(** The grammar of a JSON number, as an automaton: an optional minus, an
    integer part without leading zero, an optional fraction, an optional
    exponent. *)
Inductive num_state : Type :=
| NStart | NMinus | NZero | NInt | NDot | NFrac | NExp | NExpSign | NExpDigits.

Definition num_step (st : num_state) (a : ascii) : option num_state :=
  match st with
  | NStart =>
      if Ascii.eqb a "-" then Some NMinus
      else if Ascii.eqb a "0" then Some NZero
      else if is_digit a then Some NInt else None
  | NMinus =>
      if Ascii.eqb a "0" then Some NZero
      else if is_digit a then Some NInt else None
  | NZero =>
      if Ascii.eqb a "." then Some NDot
      else if Ascii.eqb a "e" || Ascii.eqb a "E" then Some NExp else None
  | NInt =>
      if is_digit a then Some NInt
      else if Ascii.eqb a "." then Some NDot
      else if Ascii.eqb a "e" || Ascii.eqb a "E" then Some NExp else None
  | NDot => if is_digit a then Some NFrac else None
  | NFrac =>
      if is_digit a then Some NFrac
      else if Ascii.eqb a "e" || Ascii.eqb a "E" then Some NExp else None
  | NExp =>
      if Ascii.eqb a "-" || Ascii.eqb a "+" then Some NExpSign
      else if is_digit a then Some NExpDigits else None
  | NExpSign => if is_digit a then Some NExpDigits else None
  | NExpDigits => if is_digit a then Some NExpDigits else None
  end.

Definition num_final (st : num_state) : bool :=
  match st with
  | NZero | NInt | NFrac | NExpDigits => true
  | _ => false
  end.

Fixpoint num_run (st : num_state) (s : string) : bool :=
  match s with
  | "" => num_final st
  | String a s' =>
      match num_step st a with
      | Some st' => num_run st' s'
      | None => false
      end
  end.

(** [s] is a JSON number. *)
Definition is_number (s : string) : bool := num_run NStart s.

(** Give the field [k] the value [v]: in place when the object has the
    field, at the end otherwise. *)
Fixpoint set_field (k : string) (v : json) (fields : list (string * json))
    : list (string * json) :=
  match fields with
  | [] => [(k, v)]
  | (k', v') :: rest =>
      if String.eqb k k' then (k', v) :: rest else (k', v') :: set_field k v rest
  end.

(** The object a list of fields read in order makes. *)
Definition last_wins (fields : list (string * json)) : list (string * json) :=
  fold_left (λ acc kv, set_field kv.1 kv.2 acc) fields [].

(** A field of an object: its name in quotes, a colon, its value read by
    [value]. *)
Definition parse_member (value : string → option (json * string)) (s : string)
    : option ((string * json) * string) :=
  r0 ← peek dquote s;
  '(k, r1) ← parse_string r0;
  r2 ← peek ":" r1;
  '(v, r3) ← value r2;
  Some ((k, v), r3).

(** A value at the head of [s], and what follows it, with [items] to read
    the elements of an array after its bracket and [fields] to read the
    fields of an object after its brace. *)
Definition parse_token
    (items : string → option (list json * string))
    (fields : string → option (list (string * json) * string))
    (s : string) : option (json * string) :=
  match skip_ws s with
  | String "n" _ as t => literal "null" JNull t
  | String "t" _ as t => literal "true" (JBool true) t
  | String "f" _ as t => literal "false" (JBool false) t
  | String "034" rest => '(str, r) ← parse_string rest; Some (JStr str, r)
  | String "[" rest =>
      match peek "]" rest with
      | Some r => Some (JArr [], r)
      | None => '(l, r) ← items rest; Some (JArr l, r)
      end
  | String "{" rest =>
      match peek "}" rest with
      | Some r => Some (JObj [], r)
      | None => '(l, r) ← fields rest; Some (JObj (last_wins l), r)
      end
  | t =>
      let '(tok, r) := span is_num_char t in
      if is_number tok then Some (JNum tok, r) else None
  end%char.

(** The reader of values, of the elements of an array and of the fields
    of an object, on fuel: each nesting level and each element takes
    one. *)
Fixpoint parse_value (fuel : nat) (s : string) : option (json * string) :=
  match fuel with
  | 0 => None
  | S fuel => parse_token (parse_items fuel) (parse_fields fuel) s
  end
with parse_items (fuel : nat) (s : string) : option (list json * string) :=
  match fuel with
  | 0 => None
  | S fuel =>
      '(v, r) ← parse_value fuel s;
      match peek "," r with
      | Some r' => '(vs, r'') ← parse_items fuel r'; Some (v :: vs, r'')
      | None => r' ← peek "]" r; Some ([v], r')
      end
  end
with parse_fields (fuel : nat) (s : string)
    : option (list (string * json) * string) :=
  match fuel with
  | 0 => None
  | S fuel =>
      '(kv, r) ← parse_member (parse_value fuel) s;
      match peek "," r with
      | Some r' => '(fs, r'') ← parse_fields fuel r'; Some (kv :: fs, r'')
      | None => r' ← peek "}" r; Some ([kv], r')
      end
  end.

(** Only white space is left. *)
Fixpoint all_json_ws (s : string) : bool :=
  match s with
  | "" => true
  | String a s' => is_json_ws a && all_json_ws s'
  end.

(** [JSON.parse(s)]; [None] is a SyntaxError. *)
Definition parse (s : string) : option json :=
  '(v, rest) ← parse_value (String.length s) s;
  if all_json_ws rest then Some v else None.

(** The values that come out of a reader: every number is a number of the
    grammar and no object has two fields of the same name. *)
Fixpoint wf_json (v : json) : bool :=
  match v with
  | JNum shown => is_number shown
  | JArr items => forallb wf_json items
  | JObj fields =>
      bool_decide (NoDup fields.*1) && forallb (λ kv, wf_json kv.2) fields
  | _ => true
  end.

(** The fuel that reading the text of [v] takes. *)
Fixpoint weight (v : json) : nat :=
  match v with
  | JArr items => S (list_sum (List.map (λ x, S (weight x)) items))
  | JObj fields => S (list_sum (List.map (λ kv, S (weight kv.2)) fields))
  | _ => 1
  end.

(** What may follow a value: not a character that would extend a
    number. *)
Definition delimited (rest : string) : bool :=
  match rest with
  | "" => true
  | String a _ => negb (is_num_char a)
  end.

(** *** Specifications *)

(** A number begins with a digit or a minus sign. *)
Definition starts_number (s : string) : bool :=
  match s with
  | "" => false
  | String a _ => is_digit a || Ascii.eqb a "-"
  end.

(** The characters a value can begin with. *)
Definition value_head (a : ascii) : bool :=
  is_digit a ||
  match a with
  | "-" | "n" | "t" | "f" | "034" | "[" | "{" => true
  | _ => false
  end%char.

(** The text begins as a value does. *)
Definition starts_value (s : string) : bool :=
  match s with
  | "" => false
  | String a _ => value_head a
  end.

(** The text of a field. *)
Definition member_text (kv : string * json) : string :=
  quote kv.1 +:+ ":" +:+ stringify kv.2.

(** The reader finds [v] at the head of its text and stops after it,
    given the fuel [v] takes. *)
Definition reads (v : json) : Prop :=
  ∀ fuel rest, weight v ≤ fuel → delimited rest = true →
    parse_value fuel (stringify v +:+ rest) = Some (v, rest).

(** ** Laws of the text operations *)

Lemma length_app_s (s t : string) :
  String.length (s +:+ t) = String.length s + String.length t.
Proof. induction s as [|a s IH]; simpl; [done|]. by rewrite <-IH. Qed.

Lemma join_cons_cons sep (x y : string) l :
  join sep (x :: y :: l) = x +:+ sep +:+ join sep (y :: l).
Proof. done. Qed.

Lemma quote_app k s : quote k +:+ s = String dquote (escape k +:+ String dquote s).
Proof. unfold quote. by rewrite app_cons_s, app_assoc_s. Qed.

(** ** Strings *)

(** Reading the escape of a character gives the character. *)
Lemma parse_string_escape_char a s :
  parse_string (escape_char a +:+ s) =
    '(str, r) ← parse_string s; Some (String a str, r).
Proof. by destruct a as [[] [] [] [] [] [] [] []]. Qed.

Lemma parse_string_escape s rest :
  parse_string (escape s +:+ String dquote rest) = Some (s, rest).
Proof.
  induction s as [|a s IH]; [done|].
  cbn [escape]. by rewrite app_assoc_s, parse_string_escape_char, IH.
Qed.

(** No escape holds a control character. *)
Lemma no_control_app s t : no_control (s +:+ t) = no_control s && no_control t.
Proof. induction s as [|a s IH]; simpl; [done|]. by rewrite IH, andb_assoc. Qed.

Lemma escape_char_no_control a : no_control (escape_char a) = true.
Proof. by destruct a as [[] [] [] [] [] [] [] []]. Qed.

Lemma quote_no_control s : no_control (quote s) = true.
Proof.
  unfold quote. simpl. rewrite no_control_app. simpl. rewrite andb_true_r.
  induction s as [|a s IH]; simpl; [done|].
  by rewrite no_control_app, escape_char_no_control.
Qed.

(** ** Numbers *)

Lemma num_step_num_char st a st' : num_step st a = Some st' → is_num_char a = true.
Proof. by destruct st, a as [[] [] [] [] [] [] [] []]. Qed.

Lemma span_delimited rest : delimited rest = true → span is_num_char rest = ("", rest).
Proof. destruct rest as [|a r]; simpl; [done|]. by intros ->%negb_true_iff. Qed.

Lemma num_run_span st s rest :
  num_run st s = true → delimited rest = true →
  span is_num_char (s +:+ rest) = (s, rest).
Proof.
  intros Hs Hrest. revert st Hs. induction s as [|a s IH]; intros st; simpl.
  - intros _. by apply span_delimited.
  - destruct (num_step st a) as [st'|] eqn:E; [|done]. intros Hs.
    by rewrite (num_step_num_char _ _ _ E), (IH _ Hs).
Qed.

Lemma is_number_starts s rest : is_number s = true → starts_number (s +:+ rest) = true.
Proof.
  destruct s as [|a s]; [done|]. unfold is_number. simpl.
  by destruct a as [[] [] [] [] [] [] [] []].
Qed.

Lemma is_number_text s : is_number s = true → number_text s = s.
Proof.
  intros Hs. unfold number_text.
  destruct (String.eqb_spec s "NaN") as [->|_]; [done|].
  destruct (String.eqb_spec s "Infinity") as [->|_]; [done|].
  by destruct (String.eqb_spec s "-Infinity") as [->|_].
Qed.

(** ** The equations of the reader *)

Lemma parse_value_number fuel s :
  starts_number s = true →
  parse_value (S fuel) s =
    let '(tok, r) := span is_num_char s in
    if is_number tok then Some (JNum tok, r) else None.
Proof.
  destruct s as [|a s]; [done|].
  by destruct a as [[] [] [] [] [] [] [] []].
Qed.

Lemma parse_value_string fuel s :
  parse_value (S fuel) (String dquote s) =
    '(str, r) ← parse_string s; Some (JStr str, r).
Proof. done. Qed.

Lemma parse_value_array fuel s :
  parse_value (S fuel) (String "[" s) =
    match peek "]" s with
    | Some r => Some (JArr [], r)
    | None => '(items, r) ← parse_items fuel s; Some (JArr items, r)
    end.
Proof. done. Qed.

Lemma parse_value_object fuel s :
  parse_value (S fuel) (String "{" s) =
    match peek "}" s with
    | Some r => Some (JObj [], r)
    | None =>
        '(fields, r) ← parse_fields fuel s; Some (JObj (last_wins fields), r)
    end.
Proof. done. Qed.

Lemma parse_items_eq fuel s :
  parse_items (S fuel) s =
    '(v, r) ← parse_value fuel s;
    match peek "," r with
    | Some r' => '(vs, r'') ← parse_items fuel r'; Some (v :: vs, r'')
    | None => r' ← peek "]" r; Some ([v], r')
    end.
Proof. done. Qed.

Lemma parse_fields_eq fuel s :
  parse_fields (S fuel) s =
    '(kv, r) ← parse_member (parse_value fuel) s;
    match peek "," r with
    | Some r' => '(fs, r'') ← parse_fields fuel r'; Some (kv :: fs, r'')
    | None => r' ← peek "}" r; Some ([kv], r')
    end.
Proof. done. Qed.

(** The first character of [c] is [c] itself when it is not white
    space. *)
Lemma peek_here c r :
  is_json_ws c = false → peek c (String c "" +:+ r) = Some r.
Proof. intros Hc. unfold peek. simpl. by rewrite Hc, Ascii.eqb_refl. Qed.

(** Where a value begins no bracket closes. *)
Lemma peek_close_value s :
  starts_value s = true → peek "]" s = None ∧ peek "}" s = None.
Proof.
  destruct s as [|a s]; [done|]. simpl.
  by destruct a as [[] [] [] [] [] [] [] []].
Qed.

Lemma starts_number_value s : starts_number s = true → starts_value s = true.
Proof.
  destruct s as [|a s]; [done|]. simpl.
  by destruct a as [[] [] [] [] [] [] [] []].
Qed.

(** ** Objects without repeated names *)

Lemma set_field_fresh k v fields :
  k ∉ fields.*1 → set_field k v fields = fields ++ [(k, v)].
Proof.
  induction fields as [|[k' v'] fields IH]; simpl; [done|].
  intros [Hne Hin]%not_elem_of_cons.
  destruct (String.eqb_spec k k'); [done|]. by rewrite IH.
Qed.

Lemma fold_set_field_NoDup acc fields :
  NoDup (acc ++ fields).*1 →
  fold_left (λ acc kv, set_field kv.1 kv.2 acc) fields acc = acc ++ fields.
Proof.
  revert acc; induction fields as [|[k v] fields IH]; intros acc Hnd; simpl.
  - by rewrite app_nil_r.
  - rewrite cons_middle, app_assoc in Hnd |- *.
    rewrite set_field_fresh, IH; [done..|].
    rewrite !fmap_app in Hnd. apply NoDup_app in Hnd as [Hnd _].
    apply NoDup_app in Hnd as (_ & Hnd & _).
    intros Hin. apply (Hnd _ Hin). simpl. left.
Qed.

(** Reading the fields of an object that has each name once gives the
    fields. *)
Lemma last_wins_NoDup fields : NoDup fields.*1 → last_wins fields = fields.
Proof. intros Hnd. by apply (fold_set_field_NoDup []). Qed.

(** ** Sequences

    The elements of an array and the fields of an object are read by the
    same loop: an element, then a comma and the rest, or the closing
    bracket.  The lemma is proved once, for any reader of elements that
    reads back the text of each element. *)

#[local] Arguments peek : simpl never.
#[local] Arguments parse_value : simpl never.
#[local] Arguments parse_items : simpl never.
#[local] Arguments parse_fields : simpl never.

Section sequence.
Context {A : Type}.
Context (elem : nat → string → option (A * string)).
Context (elems : nat → string → option (list A * string)).
Context (close : ascii) (text : A → string) (need : A → nat).
Hypothesis elems_eq : ∀ fuel s,
  elems (S fuel) s =
    '(v, r) ← elem fuel s;
    match peek "," r with
    | Some r' => '(vs, r'') ← elems fuel r'; Some (v :: vs, r'')
    | None => r' ← peek close r; Some ([v], r')
    end.
Hypothesis close_ws : is_json_ws close = false.
Hypothesis close_comma : Ascii.eqb close "," = false.
Hypothesis close_num : is_num_char close = false.

(** The element reader finds [x] at the head of its text. *)
Definition reads_elem (x : A) : Prop :=
  ∀ fuel rest, need x ≤ fuel → delimited rest = true →
    elem fuel (text x +:+ rest) = Some (x, rest).

Lemma peek_comma_close rest : peek "," (String close "" +:+ rest) = None.
Proof. unfold peek. simpl. by rewrite close_ws, close_comma. Qed.

Lemma reads_sequence xs :
  Forall reads_elem xs → xs ≠ [] →
  ∀ fuel rest, list_sum (List.map (λ x, S (need x)) xs) ≤ fuel →
    elems fuel (join "," (List.map text xs) +:+ String close "" +:+ rest)
    = Some (xs, rest).
Proof using All.
  induction 1 as [|x xs Hx Hxs IH]; [done|].
  intros _ fuel rest Hfuel. simpl in Hfuel.
  destruct fuel as [|fuel]; [lia|]. rewrite elems_eq.
  destruct xs as [|y xs].
  - change (join "," (List.map text [x])) with (text x).
    rewrite Hx by (lia || simpl; by rewrite close_num).
    cbn [mbind option_bind]. by rewrite peek_comma_close, peek_here.
  - cbn [List.map]. rewrite join_cons_cons, !app_assoc_s.
    rewrite Hx by (done || lia). cbn [mbind option_bind].
    rewrite peek_here by done. by rewrite IH by (done || lia).
Qed.

(** What the loop returns: a first element, then nothing or what the
    loop returns on the rest. *)
Lemma elems_inv fuel s l r :
  elems (S fuel) s = Some (l, r) →
  ∃ v vs s1 r1, elem fuel s1 = Some (v, r1) ∧ l = v :: vs ∧
                (vs = [] ∨ ∃ s', elems fuel s' = Some (vs, r)).
Proof using elems_eq.
  rewrite elems_eq. destruct (elem fuel s) as [[v r1]|] eqn:E; [simpl|done].
  destruct (peek "," r1) as [r2|].
  - destruct (elems fuel r2) as [[vs r3]|] eqn:E2; [simpl|done].
    intros [= <- <-]. exists v, vs, s, r1. eauto.
  - destruct (peek close r1); [simpl|done].
    intros [= <- <-]. exists v, [], s, r1. eauto.
Qed.

End sequence.

(** ** Round trip *)

Lemma stringify_starts_value v rest :
  wf_json v = true → starts_value (stringify v +:+ rest) = true.
Proof.
  destruct v as [|[]|n|s|items|fields]; try done. simpl. intros Hn.
  rewrite is_number_text by done. by apply starts_number_value, is_number_starts.
Qed.

(** A field whose value is read back is read back. *)
Lemma reads_member k v :
  reads v →
  reads_elem (λ fuel, parse_member (parse_value fuel)) member_text
    (λ kv, weight kv.2) (k, v).
Proof.
  intros Hv fuel rest Hfuel Hrest. unfold member_text, parse_member. cbn [fst snd] in *.
  rewrite !app_assoc_s, quote_app.
  change (String dquote ?s) with (String dquote "" +:+ s) at 1.
  rewrite peek_here by done. cbn [mbind option_bind].
  rewrite parse_string_escape. cbn [mbind option_bind].
  rewrite peek_here by done. cbn [mbind option_bind].
  by rewrite Hv.
Qed.

Lemma forallb_Forall {A} (f : A → bool) l :
  forallb f l = true ↔ Forall (λ x, f x = true) l.
Proof.
  induction l as [|x l IH]; simpl; [by split|].
  by rewrite andb_true_iff, Forall_cons, IH.
Qed.

(** An array whose elements are read back is read back. *)
Lemma reads_array items :
  Forall (λ v, wf_json v = true) items → Forall reads items → reads (JArr items).
Proof.
  intros Hwf Hitems fuel rest Hfuel Hrest. simpl in Hfuel.
  destruct fuel as [|fuel]; [lia|]. cbn [stringify].
  rewrite !app_assoc_s. change ("[" +:+ ?t) with (String "[" t).
  rewrite parse_value_array. destruct items as [|x items]; [done|].
  destruct (peek_close_value
    (join "," (List.map stringify (x :: items)) +:+ "]" +:+ rest)) as [-> _].
  { replace (join _ _ +:+ _) with (stringify x +:+
      (if items is [] then "" else "," +:+ join "," (List.map stringify items))
      +:+ "]" +:+ rest).
    - apply stringify_starts_value. by inversion Hwf.
    - destruct items; [done|]. cbn [List.map]. by rewrite join_cons_cons, !app_assoc_s. }
  by rewrite (reads_sequence parse_value parse_items "]" stringify weight)
    by (done || lia).
Qed.

(** So is an object that has each name once. *)
Lemma reads_object fields :
  NoDup fields.*1 → Forall (λ kv, reads kv.2) fields → reads (JObj fields).
Proof.
  intros Hnd Hfields fuel rest Hfuel Hrest. simpl in Hfuel.
  destruct fuel as [|fuel]; [lia|]. cbn [stringify].
  rewrite !app_assoc_s. change ("{" +:+ ?t) with (String "{" t).
  rewrite parse_value_object. destruct fields as [|[k x] fields]; [done|].
  replace (peek "}" _) with (@None string).
  2:{ cbn [List.map]. destruct fields; by rewrite ?join_cons_cons, ?app_assoc_s. }
  rewrite (reads_sequence (λ fuel, parse_member (parse_value fuel)) parse_fields
             "}" member_text (λ kv, weight kv.2)); [|done|done|done|done| |done|lia].
  - cbn [mbind option_bind]. by rewrite last_wins_NoDup.
  - eapply Forall_impl; [done|]. intros [k' y]. apply reads_member.
Qed.

(** A well-formed value is read back from its text. *)
Lemma reads_wf v : wf_json v = true → reads v.
Proof.
  induction v as [|b|n|s|items IH|fields IH] using json_ind; simpl; intros Hwf.
  - by intros [|fuel] rest ??; [simpl in *; lia|].
  - by intros [|fuel] rest ??; [simpl in *; lia|destruct b].
  - intros [|fuel] rest ??; [simpl in *; lia|]. simpl.
    rewrite is_number_text by done.
    rewrite parse_value_number by by apply is_number_starts.
    by rewrite (num_run_span NStart), Hwf.
  - intros [|fuel] rest ??; [simpl in *; lia|]. simpl.
    by rewrite quote_app, parse_value_string, parse_string_escape.
  - apply forallb_Forall in Hwf. apply reads_array; [done|].
    eapply Forall_impl; [apply Forall_and; split; [exact IH|exact Hwf]|].
    by intros v [Hv ?]; apply Hv.
  - apply andb_true_iff in Hwf as [Hnd%bool_decide_eq_true Hwf%forallb_Forall].
    apply reads_object; [done|].
    eapply Forall_impl; [apply Forall_and; split; [exact IH|exact Hwf]|].
    by intros v [Hv ?]; apply Hv.
Qed.

(** ** Fuel *)

Lemma is_number_length s : is_number s = true → 1 ≤ String.length s.
Proof. destruct s; [done|simpl; lia]. Qed.

(** The text of a list of elements is at least as long as the fuel it
    takes to read them, when that holds of each element. *)
Lemma join_length_ge {A} (text : A → string) (need : A → nat) xs :
  Forall (λ x, need x ≤ String.length (text x)) xs →
  list_sum (List.map (λ x, S (need x)) xs)
  ≤ S (String.length (join "," (List.map text xs))).
Proof.
  induction 1 as [|x xs Hx Hxs IH]; [simpl; lia|].
  destruct xs as [|y xs]; [unfold join; simpl in *; lia|].
  cbn [List.map list_sum] in *. rewrite join_cons_cons, !length_app_s.
  change (String.length ",") with 1. simpl list_sum in *. lia.
Qed.

(** The length of the text is enough fuel to read it. *)
Lemma weight_le_length v : wf_json v = true → weight v ≤ String.length (stringify v).
Proof.
  induction v as [|b|n|s|items IH|fields IH] using json_ind; simpl; intros Hwf.
  - lia.
  - destruct b; simpl; lia.
  - rewrite is_number_text by done. by apply is_number_length.
  - lia.
  - apply forallb_Forall in Hwf. rewrite !length_app_s. simpl.
    pose proof (join_length_ge stringify weight items) as Hlen.
    rewrite Forall_forall in IH, Hwf. rewrite Forall_forall in Hlen.
    specialize (Hlen (λ x Hx, IH x Hx (Hwf x Hx))). lia.
  - apply andb_true_iff in Hwf as [_ Hwf%forallb_Forall]. rewrite !length_app_s. simpl.
    pose proof (join_length_ge member_text (λ kv, weight kv.2) fields) as Hlen.
    rewrite Forall_forall in IH, Hwf. rewrite Forall_forall in Hlen.
    assert (∀ kv, kv ∈ fields → weight kv.2 ≤ String.length (member_text kv)) as H.
    { intros kv Hkv. unfold member_text. rewrite !length_app_s.
      specialize (IH kv Hkv (Hwf kv Hkv)). lia. }
    specialize (Hlen H). unfold member_text in Hlen. lia.
Qed.

(** ** What the reader returns *)

Lemma set_field_keys k v fields :
  (set_field k v fields).*1
  = if decide (k ∈ fields.*1) then fields.*1 else fields.*1 ++ [k].
Proof.
  induction fields as [|[k' v'] fields IH]; [done|]. cbn [set_field].
  destruct (String.eqb_spec k k') as [->|Hne]; rewrite !fmap_cons; cbn [fst].
  - by rewrite decide_True by left.
  - rewrite IH. destruct (decide (k ∈ fields.*1)).
    + by rewrite decide_True by by right.
    + by rewrite decide_False by by intros [?|?]%elem_of_cons.
Qed.

Lemma set_field_NoDup k v fields : NoDup fields.*1 → NoDup (set_field k v fields).*1.
Proof.
  intros Hnd. rewrite set_field_keys. case_decide; [done|].
  apply NoDup_app. split_and!; [done| |apply NoDup_singleton].
  by intros k' Hk' ->%list_elem_of_singleton.
Qed.

Lemma set_field_Forall (P : json → Prop) k v fields :
  P v → Forall (λ kv, P kv.2) fields → Forall (λ kv, P kv.2) (set_field k v fields).
Proof.
  intros Hv. induction 1 as [|[k' v'] fields Hx Hfields IH]; simpl.
  - by constructor.
  - destruct (String.eqb k k'); by constructor.
Qed.

Lemma fold_set_field_wf (P : json → Prop) fields acc :
  Forall (λ kv, P kv.2) fields → NoDup acc.*1 → Forall (λ kv, P kv.2) acc →
  let obj := fold_left (λ acc kv, set_field kv.1 kv.2 acc) fields acc in
  NoDup obj.*1 ∧ Forall (λ kv, P kv.2) obj.
Proof.
  intros Hfields; revert acc.
  induction Hfields as [|[k v] fields Hv Hfields IH]; intros acc Hnd Hacc; [done|].
  apply IH; [by apply set_field_NoDup|by apply set_field_Forall].
Qed.

(** The object made of the fields read has each name once, and its
    values are among the values read. *)
Lemma last_wins_wf fields :
  Forall (λ kv, wf_json kv.2 = true) fields → wf_json (JObj (last_wins fields)) = true.
Proof.
  intros Hfields.
  destruct (fold_set_field_wf (λ v, wf_json v = true) fields [] Hfields)
    as [Hnd Hwf]; [constructor|done|].
  simpl. apply andb_true_iff. split; [by apply bool_decide_eq_true|].
  by apply forallb_Forall.
Qed.

(** What [parse_token] returns, by the kind of value. *)
Lemma parse_token_inv items fields s v r :
  parse_token items fields s = Some (v, r) →
  match v with
  | JNum tok => is_number tok = true
  | JArr l => l = [] ∨ ∃ s', items s' = Some (l, r)
  | JObj obj => ∃ l, obj = last_wins l ∧ (l = [] ∨ ∃ s', fields s' = Some (l, r))
  | _ => True
  end.
Proof.
  unfold parse_token, literal. destruct (skip_ws s) as [|a t].
  - by destruct (is_number "") eqn:E.
  - destruct a as [[] [] [] [] [] [] [] []]; intros H;
      repeat (case_match; simplify_option_eq); eauto.
    all: try by exists []; eauto.
Qed.

Lemma parse_member_inv value s k v r :
  parse_member value s = Some ((k, v), r) → ∃ s', value s' = Some (v, r).
Proof.
  unfold parse_member.
  destruct (peek dquote s) as [r0|]; [simpl|done].
  destruct (parse_string r0) as [[k' r1]|]; [simpl|done].
  destruct (peek ":" r1) as [r2|]; [simpl|done].
  destruct (value r2) as [[v' r3]|] eqn:E; [simpl|done].
  intros [= <- <- <-]. eauto.
Qed.

(** Whatever the text, the values the three readers return are
    well-formed. *)
Lemma readers_wf fuel :
  (∀ s v r, parse_value fuel s = Some (v, r) → wf_json v = true) ∧
  (∀ s l r, parse_items fuel s = Some (l, r) → Forall (λ v, wf_json v = true) l) ∧
  (∀ s l r, parse_fields fuel s = Some (l, r) →
     Forall (λ kv, wf_json kv.2 = true) l).
Proof.
  induction fuel as [|fuel (IHv & IHi & IHf)]; [done|]. split_and!.
  - intros s v r H%parse_token_inv. destruct v; try done.
    + destruct H as [->|[s' H]]; [done|]. apply forallb_Forall. eauto.
    + destruct H as (l & -> & [->|[s' H]]); [done|]. apply last_wins_wf. eauto.
  - intros s l r (v & vs & s1 & r1 & Hv & -> & Hvs)%(elems_inv _ _ _ parse_items_eq).
    constructor; [eauto|]. destruct Hvs as [->|[s' Hvs]]; eauto.
  - intros s l r ([k v] & vs & s1 & r1 & Hv & -> & Hvs)%(elems_inv _ _ _ parse_fields_eq).
    apply parse_member_inv in Hv as [s2 Hv].
    constructor; [simpl; eauto|]. destruct Hvs as [->|[s' Hvs]]; eauto.
Qed.

(** ** Parts of a well-formed value *)

Lemma wf_json_elem items x :
  wf_json (JArr items) = true → x ∈ items → wf_json x = true.
Proof.
  simpl. intros Hwf%forallb_Forall Hx. rewrite Forall_forall in Hwf. auto.
Qed.

Lemma wf_json_get_prop k v x :
  wf_json v = true → get_prop k v = Some x → wf_json x = true.
Proof.
  destruct v as [| | | | |fields]; try done. simpl.
  intros [_ Hwf%forallb_Forall]%andb_true_iff Hx%assoc_Some.
  rewrite Forall_forall in Hwf. apply (Hwf _ Hx).
Qed.

(** ** Control characters *)

Lemma num_run_no_control st s : num_run st s = true → no_control s = true.
Proof.
  revert st; induction s as [|a s IH]; intros st; simpl; [done|].
  destruct (num_step st a) as [st'|] eqn:E; [|done]. intros Hs.
  rewrite (IH _ Hs), andb_true_r. apply num_step_num_char in E.
  by destruct a as [[] [] [] [] [] [] [] []].
Qed.

Lemma no_control_join l :
  Forall (λ s, no_control s = true) l → no_control (join "," l) = true.
Proof.
  induction 1 as [|x l Hx Hl IH]; [done|]. destruct l as [|y l]; [done|].
  by rewrite join_cons_cons, !no_control_app, Hx, IH.
Qed.

(** ** Theorems *)

(** C7.  Round trip: what [parse] reads from [JSON.stringify(v)] is [v], for
    every value [v] in which each number is a number of the JSON grammar
    and no object has a name twice; the length of the text is enough
    fuel. *)
Theorem parse_stringify v : wf_json v = true → parse (stringify v) = Some v.
Proof.
  intros Hwf. unfold parse.
  rewrite <-(app_nil_r_s (stringify v)) at 2.
  by rewrite (reads_wf v Hwf) by (done || by apply weight_le_length).
Qed.

(** Two well-formed values with the same text are the same value. *)
Theorem stringify_inj v1 v2 :
  wf_json v1 = true → wf_json v2 = true → stringify v1 = stringify v2 → v1 = v2.
Proof.
  intros H1%parse_stringify H2%parse_stringify Heq. congruence.
Qed.

(** C33.  What [parse] returns is well-formed, whatever the text: the values a
    page gets from a reader satisfy the hypothesis of the round trip. *)
Theorem parse_wf s v : parse s = Some v → wf_json v = true.
Proof.
  unfold parse.
  destruct (parse_value (String.length s) s) as [[v' r]|] eqn:E; [simpl|done].
  destruct (all_json_ws r); [|done]. intros [= <-].
  by eapply (readers_wf (String.length s)).
Qed.

(** The text of a well-formed value holds no raw control character:
    every one of them inside a string is escaped. *)
Theorem stringify_no_control v : wf_json v = true → no_control (stringify v) = true.
Proof.
  induction v as [|b|n|s|items IH|fields IH] using json_ind; simpl; intros Hwf.
  - done.
  - by destruct b.
  - rewrite is_number_text by done. by eapply num_run_no_control.
  - apply (quote_no_control s).
  - apply forallb_Forall in Hwf. rewrite !no_control_app, no_control_join; [done|].
    apply Forall_fmap.
    rewrite Forall_forall in IH, Hwf |- *. intros x Hx. exact (IH x Hx (Hwf x Hx)).
  - apply andb_true_iff in Hwf as [_ Hwf%forallb_Forall].
    rewrite !no_control_app, no_control_join; [done|]. apply Forall_fmap.
    rewrite Forall_forall in IH, Hwf |- *. intros kv Hkv. unfold compose.
    by rewrite !no_control_app, quote_no_control, (IH kv Hkv (Hwf kv Hkv)).
Qed.

(** ** The theorems on a value *)

(** An analysis with a nested array, numbers in exponent notation and a
    string that holds a quotation mark, a reverse solidus and a line
    feed. *)
Lemma parse_stringify_witness :
  let v := JObj [("dominant_emotion", JStr "happy");
                 ("scores", JArr [JNum "0.93"; JNum "-1e-7"; JNull; JBool true]);
                 ("note", JStr (String dquote (String "\" (String "010" "x"))))] in
  wf_json v = true ∧ parse (stringify v) = Some v.
Proof.
  split; [by vm_compute|].
  apply (parse_stringify
           (JObj [("dominant_emotion", JStr "happy");
                  ("scores", JArr [JNum "0.93"; JNum "-1e-7"; JNull; JBool true]);
                  ("note", JStr (String dquote (String "\" (String "010" "x"))))])).
  by vm_compute.
Defined.

Lemma parse_wf_witness :
  wf_json (JArr [JNum "1"; JArr [JBool true; JNull]; JNum "-2.5e3"]) = true.
Proof. apply (parse_wf "[1, [true, null], -2.5e3 ]"). by vm_compute. Defined.

Lemma stringify_no_control_witness :
  no_control (stringify (JStr (String "010" (String "001" "x")))) = true.
Proof. apply (stringify_no_control (JStr (String "010" (String "001" "x")))). by vm_compute. Defined.

Lemma stringify_inj_witness :
  stringify (JNum "1") = stringify (JStr "1") → JNum "1" = JStr "1".
Proof. apply (stringify_inj (JNum "1") (JStr "1")); by vm_compute. Defined.
