(* ===== verification/Action.v ===== *)
(** * Action: handlers as state transformers that may throw

    A method or callback of a component runs to completion on the one
    JavaScript thread.  It reads and writes the fields, and it either
    returns or throws; a throw abandons the rest of the handler and keeps
    every write made before it.  [action S A] is that: a function from the
    state to a completion and the state reached.

    The operations are [mret], [mbind] (stdpp's notations [x ← m; k] and
    [m ;; k]), [gets], [assign], [throw] and [when_].  The laws at the end
    are the rewriting rules [simp_run] uses to evaluate a handler on a
    symbolic state. *)

From S2P Require Import Prelude.

(** ** Definitions *)

(** The exceptions the modelled code can raise: a property read on [null]
    (TypeError), [MediaRecorder.stop()] on an inactive recorder
    (InvalidStateError), a refused or failed [getUserMedia]
    (NotAllowedError, NotFoundError). *)
Inductive js_error : Type :=
| TypeError
| InvalidStateError
| NotAllowedError
| NotFoundError.

(** How a handler ends. *)
Inductive completion (A : Type) : Type :=
| Normal (a : A)
| Throw (e : js_error).
Arguments Normal {A} a.
Arguments Throw {A} e.

(** A handler over state [S] returning [A]. *)
Definition action (S A : Type) : Type := S → completion A * S.

(** Run a handler from a state. *)
Definition run {S A} (m : action S A) (s : S) : completion A * S := m s.

(** The state a handler leaves. *)
Definition exec {S A} (m : action S A) (s : S) : S := (run m s).2.

(** How a handler ends. *)
Definition outcome {S A} (m : action S A) (s : S) : completion A := (run m s).1.

(** [return a]. *)
Definition act_ret {S A} (a : A) : action S A := λ s, (Normal a, s).

(** Sequencing: the second handler runs only if the first returned. *)
Definition act_bind {S A B} (f : A → action S B) (m : action S A) : action S B :=
  λ s, match m s with
       | (Normal a, s') => f a s'
       | (Throw e, s') => (Throw e, s')
       end.

#[export] Instance action_ret {S} : MRet (action S) := @act_ret S.
#[export] Instance action_bind {S} : MBind (action S) := @act_bind S.

(** Read the state through [f]. *)
Definition gets {S A} (f : S → A) : action S A := λ s, (Normal (f s), s).

(** Write the state: [this.x = v] is [assign (set_x v)]. *)
Definition assign {S} (f : S → S) : action S unit := λ s, (Normal tt, f s).

(** [throw e]. *)
Definition throw {S A} (e : js_error) : action S A := λ s, (Throw e, s).

(** [if (b) { m }]. *)
Definition when_ {S} (b : bool) (m : action S unit) : action S unit :=
  if b then m else act_ret tt.

(** A read of a property of [o], which throws a TypeError when [o] is
    [null]. *)
Definition deref {S A} (o : option A) : action S A :=
  match o with
  | Some a => act_ret a
  | None => throw TypeError
  end.

(** The handler returned. *)
Definition returns {A} (c : completion A) : bool :=
  match c with
  | Normal _ => true
  | Throw _ => false
  end.

(** ** Decidable equality *)

#[export] Instance js_error_eq_dec : EqDecision js_error.
Proof. solve_decision. Defined.

#[export] Instance completion_eq_dec {A} `{EqDecision A} :
  EqDecision (completion A).
Proof. solve_decision. Defined.

(** ** Laws *)

Section laws.
Context {S : Type}.
Implicit Types s : S.

Lemma run_ret {A} (a : A) s : run (mret a) s = (Normal a, s).
Proof. done. Qed.

Lemma run_bind {A B} (m : action S A) (f : A → action S B) s :
  run (m ≫= f) s =
    match run m s with
    | (Normal a, s') => run (f a) s'
    | (Throw e, s') => (Throw e, s')
    end.
Proof. done. Qed.

Lemma run_assign (f : S → S) s : run (assign f) s = (Normal tt, f s).
Proof. done. Qed.

Lemma run_gets {A} (f : S → A) s : run (gets f) s = (Normal (f s), s).
Proof. done. Qed.

Lemma run_throw {A} e s : run (throw e : action S A) s = (Throw e, s).
Proof. done. Qed.

Lemma run_when_true (m : action S unit) s : run (when_ true m) s = run m s.
Proof. done. Qed.

Lemma run_when_false (m : action S unit) s :
  run (when_ false m) s = (Normal tt, s).
Proof. done. Qed.

Lemma run_deref_Some {A} (a : A) s : run (deref (Some a)) s = (Normal a, s).
Proof. done. Qed.

Lemma run_deref_None {A} s : run (deref None : action S A) s = (Throw TypeError, s).
Proof. done. Qed.

(** The monad laws, pointwise. *)
Lemma bind_ret_l {A B} (a : A) (f : A → action S B) s :
  run (mret a ≫= f) s = run (f a) s.
Proof. done. Qed.

Lemma bind_ret_r {A} (m : action S A) s : run (m ≫= mret) s = run m s.
Proof. rewrite run_bind. by destruct (run m s) as [[a|e] s']. Qed.

Lemma bind_assoc {A B C} (m : action S A) (f : A → action S B)
    (g : B → action S C) s :
  run ((m ≫= f) ≫= g) s = run (m ≫= λ a, f a ≫= g) s.
Proof. rewrite !run_bind. by destruct (run m s) as [[a|e] s']. Qed.

(** A throw is final: what follows it does not run. *)
Lemma bind_throw {A B} e (f : A → action S B) s :
  run (throw e ≫= f) s = (Throw e, s).
Proof. done. Qed.

(** Assignments made before a throw are kept. *)
Lemma assign_then_throw {A} (f : S → S) e s :
  run (assign f ;; (throw e : action S A)) s = (Throw e, f s).
Proof. done. Qed.

Lemma exec_bind_normal {A B} (m : action S A) (f : A → action S B) s a s' :
  run m s = (Normal a, s') → exec (m ≫= f) s = exec (f a) s'.
Proof. unfold exec. rewrite run_bind. by intros ->. Qed.

End laws.

#[export] Hint Rewrite @run_ret @run_bind @run_assign @run_gets @run_throw
  @run_when_true @run_when_false @run_deref_Some @run_deref_None : js.

(** Evaluate a handler applied to a symbolic state as far as the state
    allows. *)
Ltac simp_run :=
  repeat (progress (unfold exec, outcome in *; autorewrite with js in *; simpl in *)).
