(* ===== verification/Machine.v ===== *)
(** * Machine: event-driven components as transition systems

    A component together with the callbacks the browser holds for it is a
    machine: a state, a set of events, and for each event and state the
    state the handler leaves, when the event can occur at all.  [Machine]
    is the interface; the component files provide instances and prove
    their invariants with the lemmas of this file.

    - [reachable_by ok]: the states a run reaches when every event of the
      run satisfies [ok] in the state where it occurs.  Restricting the
      events is how an assumption on the environment (the backend never
      fails, no body is [null]) is stated.
    - [exec_events]: the run of a list of events, computed;
      [state_after]: where it ends.
    - [inductive_by]: the two proof obligations of an invariant.
    - [simulation]: what it takes for one machine to implement
      another; [complete]: what it takes for the other to ask nothing
      the first cannot do.
    - [schedule]: the run a scheduler makes, on fuel; with a measure
      that the scheduled events decrease, the run ends within that many
      events and the fuel is enough. *)

From S2P Require Import Prelude.

(** ** Definitions *)

(** A deterministic machine.  [step e s = None] means that [e] cannot
    occur in [s]. *)
Class Machine : Type := {
  state : Type;
  event : Type;
  initial : state;
  step : event → state → option state;
}.

Section machine.
Context {M : Machine}.
Implicit Types (s : state) (e : event) (es : list event).
Implicit Types ok : state → event → Prop.

(** The states reached by runs whose events all satisfy [ok]. *)
Inductive reachable_by ok : state → Prop :=
| reachable_initial : reachable_by ok initial
| reachable_step s e s' :
    reachable_by ok s → ok s e → step e s = Some s' → reachable_by ok s'.

(** The states reached by any run. *)
Definition reachable : state → Prop := reachable_by (λ _ _, True).

(** The run of a list of events from a state; [None] if one of them
    cannot occur. *)
Fixpoint exec_events (es : list event) (s : state) : option state :=
  match es with
  | [] => Some s
  | e :: es' =>
      match step e s with
      | Some s' => exec_events es' s'
      | None => None
      end
  end.

(** Every event of the run satisfies [ok] where it occurs. *)
Fixpoint permitted ok (es : list event) (s : state) : Prop :=
  match es with
  | [] => True
  | e :: es' =>
      ok s e ∧ match step e s with
               | Some s' => permitted ok es' s'
               | None => True
               end
  end.

(** The state at the end of a run from the initial state (the initial
    state if the run cannot happen). *)
Definition state_after (es : list event) : state :=
  default initial (exec_events es initial).

(** [I] holds in every state reached under [ok]. *)
Definition invariant_by ok (I : state → Prop) : Prop :=
  ∀ s, reachable_by ok s → I s.

Definition invariant : (state → Prop) → Prop := invariant_by (λ _ _, True).

(** [I] holds initially and every permitted step keeps it. *)
Record inductive_by ok (I : state → Prop) : Prop := {
  inductive_initial : I initial;
  inductive_step s e s' : I s → ok s e → step e s = Some s' → I s';
}.

(** ** Invariants *)

Lemma inductive_invariant ok I : inductive_by ok I → invariant_by ok I.
Proof.
  intros [Hi Hs] s Hr. induction Hr; eauto.
Qed.

(** An invariant may be used to prove the next one inductive. *)
Lemma inductive_invariant_with ok J I :
  invariant_by ok J →
  I initial →
  (∀ s e s', J s → I s → ok s e → step e s = Some s' → I s') →
  invariant_by ok I.
Proof.
  intros HJ Hi Hs s Hr. induction Hr; [done|].
  eapply Hs; eauto.
Qed.

Lemma reachable_by_mono ok ok' s :
  (∀ s e, ok s e → ok' s e) → reachable_by ok s → reachable_by ok' s.
Proof. intros Hok Hr. induction Hr; econstructor; eauto. Qed.

Lemma reachable_by_reachable ok s : reachable_by ok s → reachable s.
Proof. apply reachable_by_mono. done. Qed.

(** An invariant of all runs is an invariant of the restricted ones. *)
Lemma invariant_by_weaken ok I :
  invariant I → invariant_by ok I.
Proof. intros HI s Hr. eapply HI, reachable_by_reachable, Hr. Qed.

Lemma invariant_by_and ok I J :
  invariant_by ok I → invariant_by ok J → invariant_by ok (λ s, I s ∧ J s).
Proof. intros HI HJ s Hr. split; auto. Qed.

Lemma invariant_by_impl ok (I J : state → Prop) :
  (∀ s, I s → J s) → invariant_by ok I → invariant_by ok J.
Proof. intros HIJ HI s Hr. auto. Qed.

(** ** Runs *)

Lemma exec_events_app es1 es2 s :
  exec_events (es1 ++ es2) s = exec_events es1 s ≫= exec_events es2.
Proof.
  revert s; induction es1 as [|e es1 IH]; intros s; simpl; [done|].
  destruct (step e s); simpl; auto.
Qed.

Lemma exec_events_reachable_by ok es s s' :
  permitted ok es s → reachable_by ok s → exec_events es s = Some s' →
  reachable_by ok s'.
Proof.
  revert s; induction es as [|e es IH]; intros s Hok Hr; simpl in *.
  - by intros [= <-].
  - destruct Hok as [He Hes]. destruct (step e s) as [s1|] eqn:E; [|done].
    apply IH; [done|]. by eapply reachable_step.
Qed.

Lemma permitted_True es s : permitted (λ _ _, True) es s.
Proof.
  revert s; induction es as [|e es IH]; intros s; simpl; [done|].
  split; [done|]. by destruct (step e s).
Qed.

Lemma permitted_app ok es1 es2 s s1 :
  permitted ok es1 s → exec_events es1 s = Some s1 → permitted ok es2 s1 →
  permitted ok (es1 ++ es2) s.
Proof.
  revert s; induction es1 as [|e es1 IH]; intros s; simpl.
  - by intros _ [= ->].
  - intros [He Hes]. destruct (step e s) as [s'|]; [|done]. eauto.
Qed.

(** A computed run ends in a reachable state. *)
Lemma exec_events_reachable es s' :
  exec_events es initial = Some s' → reachable s'.
Proof.
  apply exec_events_reachable_by; [apply permitted_True|constructor].
Qed.

(** Conversely every reachable state is the end of a run. *)
Lemma reachable_by_exec_events ok s :
  reachable_by ok s →
  ∃ es, permitted ok es initial ∧ exec_events es initial = Some s.
Proof.
  induction 1 as [|s e s' _ (es & Hes & Hrun) He Hstep].
  - by exists [].
  - exists (es ++ [e]). split.
    + eapply permitted_app; [done..|]. simpl. by rewrite Hstep.
    + rewrite exec_events_app, Hrun. simpl. by rewrite Hstep.
Qed.

(** An invariant holds at the end of every computed run. *)
Lemma invariant_exec_events I es s :
  invariant I → exec_events es initial = Some s → I s.
Proof. intros HI Hrun. eapply HI, exec_events_reachable, Hrun. Qed.

Lemma state_after_reachable_by ok es :
  permitted ok es initial → is_Some (exec_events es initial) →
  reachable_by ok (state_after es).
Proof.
  intros Hok [s Hs]. unfold state_after. rewrite Hs. simpl.
  eapply exec_events_reachable_by; [done|constructor|done].
Qed.

Lemma state_after_reachable es :
  is_Some (exec_events es initial) → reachable (state_after es).
Proof. apply state_after_reachable_by, permitted_True. Qed.

(** A property that every step keeps is kept by every run. *)
Lemma exec_events_stable (P : state → Prop) es s s' :
  (∀ s e s', P s → step e s = Some s' → P s') →
  P s → exec_events es s = Some s' → P s'.
Proof.
  intros HP; revert s; induction es as [|e es IH]; intros s Hs; simpl.
  - by intros [= <-].
  - destruct (step e s) as [s1|] eqn:E; [|done]. eauto.
Qed.

End machine.

(** ** Measures and termination

    [quiet] singles out the events that happen without the user (the
    browser running a callback).  When each of them decreases [measure],
    a run of quiet events is no longer than the measure of its first
    state, and a scheduler that picks quiet events runs out of them. *)

(** The run a scheduler makes from [s]: the event [next] picks, as long
    as it picks one that can occur and fuel is left. *)
Fixpoint schedule {M : Machine} (next : state → option event) (fuel : nat)
    (s : state) : list event :=
  match fuel with
  | 0 => []
  | S fuel =>
      match next s with
      | Some e =>
          match step e s with
          | Some s' => e :: schedule next fuel s'
          | None => []
          end
      | None => []
      end
  end.

Section measure.
Context {M : Machine}.
Context (measure : state → nat) (quiet : event → Prop).
Hypothesis decreases :
  ∀ e s s', quiet e → step e s = Some s' → measure s' < measure s.

(** A run of quiet events uses up the measure. *)
Lemma exec_events_measure es s s' :
  Forall quiet es → exec_events es s = Some s' →
  length es + measure s' ≤ measure s.
Proof using decreases.
  intros Hes; revert s; induction Hes as [|e es He Hes IH]; intros s; simpl.
  - intros [= <-]. lia.
  - destruct (step e s) as [s1|] eqn:E; [|done]. intros Hrun.
    specialize (IH _ Hrun). specialize (decreases _ _ _ He E). lia.
Qed.

Context (next : state → option event).
Hypothesis next_quiet : ∀ s e, next s = Some e → quiet e.
Hypothesis next_enabled : ∀ s e, next s = Some e → is_Some (step e s).

(** The scheduled run happens, is made of quiet events, and with the
    measure of [s] as fuel it ends where the scheduler has nothing left
    to pick. *)
Lemma schedule_ends fuel s :
  measure s ≤ fuel →
  ∃ s', exec_events (schedule next fuel s) s = Some s' ∧ next s' = None
        ∧ Forall quiet (schedule next fuel s).
Proof using All.
  revert s; induction fuel as [|fuel IH]; intros s Hfuel; simpl.
  - destruct (next s) as [e|] eqn:En; [|by exists s].
    destruct (next_enabled _ _ En) as [s1 E1].
    specialize (decreases _ _ _ (next_quiet _ _ En) E1). lia.
  - destruct (next s) as [e|] eqn:En; [|by exists s].
    destruct (next_enabled _ _ En) as [s1 E1]. rewrite E1. simpl. rewrite E1.
    specialize (decreases _ _ _ (next_quiet _ _ En) E1).
    destruct (IH s1) as (s' & Hrun & Hnext & Hq); [lia|].
    exists s'. split_and!; [done..|]. constructor; eauto.
Qed.

End measure.

(** ** Amortised bounds

    Each event pays [cost] out of the measure and may add [credit] to it:
    over a run, what was paid and what is left is at most what there was
    and what was added. *)

Section potential.
Context {M : Machine}.
Context (measure : state → nat) (cost credit : event → nat).
Hypothesis pays : ∀ e s s',
  step e s = Some s' → cost e + measure s' ≤ measure s + credit e.

Lemma exec_events_potential es s s' :
  exec_events es s = Some s' →
  list_sum (cost <$> es) + measure s' ≤ measure s + list_sum (credit <$> es).
Proof using pays.
  revert s; induction es as [|e es IH]; intros s; csimpl.
  - intros [= <-]. lia.
  - destruct (step e s) as [s1|] eqn:E; [|done]. intros Hrun.
    specialize (IH _ Hrun). specialize (pays _ _ _ E). lia.
Qed.

End potential.

(** A run given in full can happen. *)
Ltac run_happens := vm_compute; eexists; reflexivity.

(** Every event of a run given in full is permitted. *)
Ltac run_permitted := vm_compute; repeat split; intros; discriminate.

Arguments reachable_by M ok s : rename, clear implicits.
Arguments reachable M s : rename, clear implicits.
Arguments invariant_by M ok I : rename, clear implicits.
Arguments invariant M I : rename, clear implicits.
Arguments inductive_by M ok I : rename, clear implicits.

(** ** Simulation

    The machine [C] implements [A] through the relation [R] when the
    initial states are related and each step of [C] is either a step of
    [A] on the abstract event [abs e], or invisible ([abs e = None]) and
    leaves the abstract state alone. *)

Section simulation.
Context (C A : Machine).
Context (ok : @state C → @event C → Prop).
Context (R : @state C → @state A → Prop).
Context (abs : @event C → option (@event A)).

Record simulation : Prop := {
  sim_initial : R initial initial;
  sim_step c e c' a :
    R c a → ok c e → step e c = Some c' →
    match abs e with
    | Some e' => ∃ a', step e' a = Some a' ∧ R c' a'
    | None => R c' a
    end;
}.

(** The abstract image of a run. *)
Definition abs_events (es : list (@event C)) : list (@event A) :=
  omap abs es.

(** Conversely [A] asks nothing that [C] cannot do: each step of [A]
    from a related state is the image of a permitted step of [C]. *)
Definition complete : Prop :=
  ∀ c a e' a', R c a → step e' a = Some a' →
    ∃ e c', abs e = Some e' ∧ ok c e ∧ step e c = Some c' ∧ R c' a'.

(** Every state [C] reaches is related to a state [A] reaches. *)
Lemma simulation_reachable c :
  simulation → reachable_by C ok c → ∃ a, reachable A a ∧ R c a.
Proof.
  intros [Hi Hs]. induction 1 as [|c e c' _ (a & Ha & HR) He Hstep].
  - exists initial. split; [constructor|done].
  - specialize (Hs c e c' a HR He Hstep).
    destruct (abs e) as [e'|].
    + destruct Hs as (a' & Hstep' & HR'). exists a'. split; [|done].
      by eapply reachable_step.
    + by exists a.
Qed.

(** An invariant of [A] that [R] transports is an invariant of [C]. *)
Lemma simulation_invariant (I : @state A → Prop) (J : @state C → Prop) :
  simulation → invariant A I → (∀ c a, R c a → I a → J c) →
  invariant_by C ok J.
Proof.
  intros Hsim HI HJ c Hc.
  destruct (simulation_reachable c Hsim Hc) as (a & Ha & HR). eauto.
Qed.

(** The image of a run of [C] is a run of [A]. *)
Lemma simulation_exec_events es c c' a :
  simulation → permitted ok es c → R c a → exec_events es c = Some c' →
  ∃ a', exec_events (abs_events es) a = Some a' ∧ R c' a'.
Proof.
  intros [Hi Hs]; revert c a; induction es as [|e es IH];
    intros c a Hok HR; simpl in *.
  - intros [= <-]. by exists a.
  - destruct Hok as [He Hes].
    destruct (step e c) as [c1|] eqn:E; [|done]. intros Hrun.
    specialize (Hs c e c1 a HR He E). unfold abs_events. simpl.
    destruct (abs e) as [e'|]; simpl.
    + destruct Hs as (a1 & -> & HR1). eauto.
    + eauto.
Qed.


(** Every run of [A] from a related state is the image of a permitted
    run of [C] of the same length. *)
Lemma complete_exec_events aes c a a' :
  complete → R c a → exec_events aes a = Some a' →
  ∃ es c', permitted ok es c ∧ exec_events es c = Some c' ∧
           abs_events es = aes ∧ length es = length aes ∧ R c' a'.
Proof.
  intros Hc; revert c a; induction aes as [|e' aes IH]; intros c a HR; simpl.
  - intros [= <-]. by exists [], c.
  - destruct (step e' a) as [a1|] eqn:E; [|done]. intros Hrun.
    destruct (Hc c a e' a1 HR E) as (e & c1 & He & Hok & Hstep & HR1).
    destruct (IH c1 a1 HR1 Hrun) as (es & c' & Hes & Hrun' & Habs & Hlen & HR').
    exists (e :: es), c'. subst aes. unfold abs_events in *. simpl.
    rewrite Hstep, He, Hlen. done.
Qed.

End simulation.
