(* ===== verification/Http.v ===== *)
(** * Http: what the page sends and what it receives

    Every operation of the application is an HTTP POST.  A request is a
    URL, a body (a multipart form or a JSON value) and the response type
    asked for.  The constructors of requests used by [FrontComponent]
    (front.component.ts) are here; those of the two services are in
    [Quiz].

    A response body has the shape the typed field it is stored in
    requires; each property may be missing, and the body may be [null].
    [analyze_video] feeds the field declared [any], so its body is any
    JSON value. *)

From S2P Require Import Prelude JsString JsValue JsonText.

(** ** Definitions *)

(** Binary data with its MIME type. *)
Record Blob : Type := {
  blob_data : list N;
  blob_type : string;
}.

(** A file chosen by the user. *)
Record File : Type := {
  file_name : string;
  file_content : Blob;
}.

(** The value of a form field: a text, a file part with its file name, or
    the text [JSON.stringify(v)], kept as [v]. *)
Inductive form_value : Type :=
| FText (s : string)
| FFile (b : Blob) (filename : string)
| FJson (v : json).

(** [FormData]: the fields in the order of the [append] calls. *)
Definition FormData : Type := list (string * form_value).

(** The body of a POST. *)
Inductive body : Type :=
| FormBody (fd : FormData)
| JsonBody (v : json).

(** The [responseType] option of the call. *)
Inductive response_type : Type := AsJson | AsBlob.

Record request : Type := {
  req_url : string;
  req_body : body;
  req_response : response_type;
}.

(** [fd.append(name, value)]. *)
Definition append (name : string) (v : form_value) (fd : FormData) : FormData :=
  fd ++ [(name, v)].

(** [new Blob(chunks, { type })]: the chunks end to end. *)
Definition new_Blob (chunks : list Blob) (type : string) : Blob :=
  {| blob_data := concat (blob_data <$> chunks); blob_type := type |}.

(** [blob.size]. *)
Definition blob_size (b : Blob) : nat := length (blob_data b).

(** The address of the interview backend (lines 45, 57, 97, 153, 162, 218,
    250 of front.component.ts). *)
Definition backend : string := "http://127.0.0.1:8000".

(** The value of the [api_key] field (line 54).  The source holds a
    literal credential there; its characters are not reproduced, and no
    definition or theorem depends on them. *)
Definition api_key : string := "sk-or-v1-(redacted)".

(** The body of [summarize_cv] (lines 41-45). *)
Definition summarize_request (file : File) : request :=
  {| req_url := backend +:+ "/summarize_cv";
     req_body := FormBody (append "file" (FFile (file_content file) (file_name file)) []);
     req_response := AsJson |}.

(** The body of [generate_questions] (lines 51-57). *)
Definition questions_request (summary : string) : request :=
  {| req_url := backend +:+ "/generate_questions";
     req_body := FormBody (append "num_questions" (FText "4")
                          (append "api_key" (FText api_key)
                          (append "summary" (FText summary) [])));
     req_response := AsJson |}.

(** The body of [text_to_speech] (lines 92-97 and 247-250). *)
Definition tts_request (text : string) : request :=
  {| req_url := backend +:+ "/text_to_speech";
     req_body := FormBody (append "text" (FText text) []);
     req_response := AsBlob |}.

(** The body of [analyze_video] (lines 148-153). *)
Definition analyze_request (blob : Blob) : request :=
  {| req_url := backend +:+ "/analyze_video";
     req_body := FormBody (append "file" (FFile blob "interview.mp4") []);
     req_response := AsJson |}.

(** The body of [transcribe_audio] (lines 159-162 and 184-187). *)
Definition transcribe_request (blob : Blob) : request :=
  {| req_url := backend +:+ "/transcribe_audio";
     req_body := FormBody (append "file" (FFile blob "interview.mp4") []);
     req_response := AsJson |}.

(** The [facial] field of the feedback form (lines 212-216): the field
    itself when it is a string, else [JSON.stringify(facialResult || {})].
    A value made of JSON cannot make [stringify] throw, so the [catch] of
    line 214 has no case here. *)
Definition facial_field (facialResult : json) : form_value :=
  match facialResult with
  | JStr s => FText s
  | v => FJson (or_else v (JObj []))
  end.

(** The body of [generate_feedback] (lines 210-218). *)
Definition feedback_request (transcription : string) (facialResult : json) : request :=
  {| req_url := backend +:+ "/generate_feedback";
     req_body := FormBody (append "facial" (facial_field facialResult)
                          (append "summary" (FText (or_string (Some transcription) "")) []));
     req_response := AsJson |}.

(** The bodies of the JSON responses, by endpoint. *)
Record SummaryRes : Type := { summary : option string }.
Record QuestionsRes : Type := { questions : option (list string) }.
Record TranscriptionRes : Type := { transcription : option string }.
Record FeedbackRes : Type := { feedback : option string }.

(** What the [next] callback of an observer receives.  [None] is a body
    that is [null]. *)
Inductive response : Type :=
| RSummary (res : option SummaryRes)
| RQuestions (res : option QuestionsRes)
| RSpeech (res : Blob)
| RFacial (res : json)
| RTranscription (res : option TranscriptionRes)
| RFeedback (res : option FeedbackRes).

(** The field named [name] of a form, as the server reads it: the first
    part with that name. *)
Fixpoint form_get (name : string) (fd : FormData) : option form_value :=
  match fd with
  | [] => None
  | (n, v) :: rest => if String.eqb name n then Some v else form_get name rest
  end.

(** The text of a form field on the wire; a file part is not a text. *)
Definition field_text (v : form_value) : option string :=
  match v with
  | FText s => Some s
  | FJson v => Some (stringify v)
  | FFile _ _ => None
  end.

(** The text of a body that [HttpClient] serialises as JSON; a form is
    sent in parts. *)
Definition body_text (b : body) : option string :=
  match b with
  | JsonBody v => Some (stringify v)
  | FormBody _ => None
  end.

(** The form of a request, if its body is one. *)
Definition req_form (rq : request) : FormData :=
  match req_body rq with
  | FormBody fd => fd
  | JsonBody _ => []
  end.

(** ** Decidable equality *)

#[export] Instance Blob_eq_dec : EqDecision Blob.
Proof. solve_decision. Defined.

#[export] Instance File_eq_dec : EqDecision File.
Proof. solve_decision. Defined.

#[export] Instance response_type_eq_dec : EqDecision response_type.
Proof. solve_decision. Defined.

(** ** Laws *)

Lemma blob_size_new_Blob chunks type :
  blob_size (new_Blob chunks type) = sum_list (blob_size <$> chunks).
Proof.
  unfold blob_size, new_Blob. simpl.
  by rewrite length_concat, <-list_fmap_compose.
Qed.

(** The recording is empty exactly when every chunk is. *)
Lemma new_Blob_empty chunks type :
  blob_size (new_Blob chunks type) = 0 ↔ Forall (λ c, blob_size c = 0) chunks.
Proof.
  rewrite blob_size_new_Blob.
  induction chunks as [|c chunks IH]; [by split|].
  rewrite fmap_cons, Forall_cons, <-IH. simpl. lia.
Qed.

Lemma form_get_append_ne name n v fd :
  name ≠ n → form_get name (append n v fd) = form_get name fd.
Proof.
  intros Hne. unfold append. induction fd as [|[n' v'] fd IH]; simpl.
  - destruct (String.eqb_spec name n); done.
  - by rewrite IH.
Qed.

Lemma form_get_append_fresh name v fd :
  form_get name fd = None → form_get name (append name v fd) = Some v.
Proof.
  unfold append. induction fd as [|[n' v'] fd IH]; simpl.
  - by rewrite String.eqb_refl.
  - destruct (String.eqb name n'); [done|auto].
Qed.

(** The text sent to speech synthesis is the text given. *)
Lemma tts_request_text text :
  form_get "text" (req_form (tts_request text)) = Some (FText text).
Proof. done. Qed.

(** Every question request carries the summary, asks for four questions
    and carries the key compiled into the page. *)
Lemma questions_request_fields summary :
  let fd := req_form (questions_request summary) in
  form_get "summary" fd = Some (FText summary) ∧
  form_get "num_questions" fd = Some (FText "4") ∧
  form_get "api_key" fd = Some (FText api_key).
Proof. done. Qed.

(** The same recording goes to video analysis and to transcription. *)
Lemma analyze_transcribe_same_file blob :
  req_body (analyze_request blob) = req_body (transcribe_request blob).
Proof. done. Qed.

(** The [facial] field is a text exactly when the stored result is a
    string; otherwise it is the JSON text of the result, or of [{}] when
    the result is falsy. *)
Lemma facial_field_spec v :
  facial_field v =
    match v with
    | JStr s => FText s
    | _ => if truthy v then FJson v else FJson (JObj [])
    end.
Proof. destruct v; simpl; try done; unfold or_else; simpl; by case_match. Qed.

(** The [facial] field, read back as JSON by the receiver, is the stored
    result, or [{}] in place of a falsy one; a stored string is sent as it
    is, without quotes. *)
Lemma facial_field_read_back v :
  wf_json v = true →
  match v with
  | JStr s => field_text (facial_field v) = Some s
  | _ => field_text (facial_field v) ≫= parse = Some (or_else v (JObj []))
  end.
Proof.
  intros Hwf. destruct v as [|b|n|s|items|fields]; [..|done| |];
    match goal with |- field_text (facial_field ?v) ≫= parse = _ =>
      change (parse (stringify (or_else v (JObj []))) = Some (or_else v (JObj [])))
    end; apply parse_stringify; unfold or_else; by case_match.
Qed.

(** A JSON body is read back as the value posted. *)
Lemma body_text_read_back v :
  wf_json v = true → body_text (JsonBody v) ≫= parse = Some v.
Proof. apply parse_stringify. Qed.
