(* ===== verification/Front.v ===== *)
(** * Front: the interview controller and the world it runs in

    [FrontComponent] (front/front.component.ts) as a record of its fields,
    and one action per method and per callback.  The callbacks a method
    registers with the browser (observers of HTTP calls, [onended] of an
    audio element, the rest of [startRecording] after its [await], the
    events of a stopped [MediaRecorder]) are the [task]s of the world;
    running one of them is an event of [FrontMachine].

    The file only defines; [FrontProps] and [FrontInvariants] prove. *)

From S2P Require Import Prelude JsString JsValue Action Http.

(** ** The component *)

(** The fields of the class (lines 10-31), with their TypeScript types. *)
Record FrontComponent : Type := {
  mediaRecorder : option nat;
  recordedChunks : list Blob;
  recording : bool;
  facialResult : json;
  transcriptionResult : string;
  cvSummary : string;
  generatedQuestions : list string;
  currentQuestionIndex : nat;
  currentQuestion : jsopt string;
  cvUploading : bool;
  interviewFinished : bool;
  questionPlaying : bool;
  feedbackText : option string;
  feedbackLoading : bool;
  feedbackPlaying : bool;
}.

(** One setter per field: [set_f v c] is [c] after [this.f = v]. *)
Definition set_mediaRecorder (v : option nat) (c : FrontComponent) : FrontComponent :=
  {| mediaRecorder := v; recordedChunks := recordedChunks c;
     recording := recording c; facialResult := facialResult c;
     transcriptionResult := transcriptionResult c; cvSummary := cvSummary c;
     generatedQuestions := generatedQuestions c;
     currentQuestionIndex := currentQuestionIndex c;
     currentQuestion := currentQuestion c; cvUploading := cvUploading c;
     interviewFinished := interviewFinished c;
     questionPlaying := questionPlaying c; feedbackText := feedbackText c;
     feedbackLoading := feedbackLoading c;
     feedbackPlaying := feedbackPlaying c |}.

Definition set_recordedChunks (v : list Blob) (c : FrontComponent) : FrontComponent :=
  {| mediaRecorder := mediaRecorder c; recordedChunks := v;
     recording := recording c; facialResult := facialResult c;
     transcriptionResult := transcriptionResult c; cvSummary := cvSummary c;
     generatedQuestions := generatedQuestions c;
     currentQuestionIndex := currentQuestionIndex c;
     currentQuestion := currentQuestion c; cvUploading := cvUploading c;
     interviewFinished := interviewFinished c;
     questionPlaying := questionPlaying c; feedbackText := feedbackText c;
     feedbackLoading := feedbackLoading c;
     feedbackPlaying := feedbackPlaying c |}.

Definition set_recording (v : bool) (c : FrontComponent) : FrontComponent :=
  {| mediaRecorder := mediaRecorder c; recordedChunks := recordedChunks c;
     recording := v; facialResult := facialResult c;
     transcriptionResult := transcriptionResult c; cvSummary := cvSummary c;
     generatedQuestions := generatedQuestions c;
     currentQuestionIndex := currentQuestionIndex c;
     currentQuestion := currentQuestion c; cvUploading := cvUploading c;
     interviewFinished := interviewFinished c;
     questionPlaying := questionPlaying c; feedbackText := feedbackText c;
     feedbackLoading := feedbackLoading c;
     feedbackPlaying := feedbackPlaying c |}.

Definition set_facialResult (v : json) (c : FrontComponent) : FrontComponent :=
  {| mediaRecorder := mediaRecorder c; recordedChunks := recordedChunks c;
     recording := recording c; facialResult := v;
     transcriptionResult := transcriptionResult c; cvSummary := cvSummary c;
     generatedQuestions := generatedQuestions c;
     currentQuestionIndex := currentQuestionIndex c;
     currentQuestion := currentQuestion c; cvUploading := cvUploading c;
     interviewFinished := interviewFinished c;
     questionPlaying := questionPlaying c; feedbackText := feedbackText c;
     feedbackLoading := feedbackLoading c;
     feedbackPlaying := feedbackPlaying c |}.

Definition set_transcriptionResult (v : string) (c : FrontComponent) : FrontComponent :=
  {| mediaRecorder := mediaRecorder c; recordedChunks := recordedChunks c;
     recording := recording c; facialResult := facialResult c;
     transcriptionResult := v; cvSummary := cvSummary c;
     generatedQuestions := generatedQuestions c;
     currentQuestionIndex := currentQuestionIndex c;
     currentQuestion := currentQuestion c; cvUploading := cvUploading c;
     interviewFinished := interviewFinished c;
     questionPlaying := questionPlaying c; feedbackText := feedbackText c;
     feedbackLoading := feedbackLoading c;
     feedbackPlaying := feedbackPlaying c |}.

Definition set_cvSummary (v : string) (c : FrontComponent) : FrontComponent :=
  {| mediaRecorder := mediaRecorder c; recordedChunks := recordedChunks c;
     recording := recording c; facialResult := facialResult c;
     transcriptionResult := transcriptionResult c; cvSummary := v;
     generatedQuestions := generatedQuestions c;
     currentQuestionIndex := currentQuestionIndex c;
     currentQuestion := currentQuestion c; cvUploading := cvUploading c;
     interviewFinished := interviewFinished c;
     questionPlaying := questionPlaying c; feedbackText := feedbackText c;
     feedbackLoading := feedbackLoading c;
     feedbackPlaying := feedbackPlaying c |}.

Definition set_generatedQuestions (v : list string) (c : FrontComponent) : FrontComponent :=
  {| mediaRecorder := mediaRecorder c; recordedChunks := recordedChunks c;
     recording := recording c; facialResult := facialResult c;
     transcriptionResult := transcriptionResult c; cvSummary := cvSummary c;
     generatedQuestions := v; currentQuestionIndex := currentQuestionIndex c;
     currentQuestion := currentQuestion c; cvUploading := cvUploading c;
     interviewFinished := interviewFinished c;
     questionPlaying := questionPlaying c; feedbackText := feedbackText c;
     feedbackLoading := feedbackLoading c;
     feedbackPlaying := feedbackPlaying c |}.

Definition set_currentQuestionIndex (v : nat) (c : FrontComponent) : FrontComponent :=
  {| mediaRecorder := mediaRecorder c; recordedChunks := recordedChunks c;
     recording := recording c; facialResult := facialResult c;
     transcriptionResult := transcriptionResult c; cvSummary := cvSummary c;
     generatedQuestions := generatedQuestions c; currentQuestionIndex := v;
     currentQuestion := currentQuestion c; cvUploading := cvUploading c;
     interviewFinished := interviewFinished c;
     questionPlaying := questionPlaying c; feedbackText := feedbackText c;
     feedbackLoading := feedbackLoading c;
     feedbackPlaying := feedbackPlaying c |}.

Definition set_currentQuestion (v : jsopt string) (c : FrontComponent) : FrontComponent :=
  {| mediaRecorder := mediaRecorder c; recordedChunks := recordedChunks c;
     recording := recording c; facialResult := facialResult c;
     transcriptionResult := transcriptionResult c; cvSummary := cvSummary c;
     generatedQuestions := generatedQuestions c;
     currentQuestionIndex := currentQuestionIndex c; currentQuestion := v;
     cvUploading := cvUploading c; interviewFinished := interviewFinished c;
     questionPlaying := questionPlaying c; feedbackText := feedbackText c;
     feedbackLoading := feedbackLoading c;
     feedbackPlaying := feedbackPlaying c |}.

Definition set_cvUploading (v : bool) (c : FrontComponent) : FrontComponent :=
  {| mediaRecorder := mediaRecorder c; recordedChunks := recordedChunks c;
     recording := recording c; facialResult := facialResult c;
     transcriptionResult := transcriptionResult c; cvSummary := cvSummary c;
     generatedQuestions := generatedQuestions c;
     currentQuestionIndex := currentQuestionIndex c;
     currentQuestion := currentQuestion c; cvUploading := v;
     interviewFinished := interviewFinished c;
     questionPlaying := questionPlaying c; feedbackText := feedbackText c;
     feedbackLoading := feedbackLoading c;
     feedbackPlaying := feedbackPlaying c |}.

Definition set_interviewFinished (v : bool) (c : FrontComponent) : FrontComponent :=
  {| mediaRecorder := mediaRecorder c; recordedChunks := recordedChunks c;
     recording := recording c; facialResult := facialResult c;
     transcriptionResult := transcriptionResult c; cvSummary := cvSummary c;
     generatedQuestions := generatedQuestions c;
     currentQuestionIndex := currentQuestionIndex c;
     currentQuestion := currentQuestion c; cvUploading := cvUploading c;
     interviewFinished := v; questionPlaying := questionPlaying c;
     feedbackText := feedbackText c; feedbackLoading := feedbackLoading c;
     feedbackPlaying := feedbackPlaying c |}.

Definition set_questionPlaying (v : bool) (c : FrontComponent) : FrontComponent :=
  {| mediaRecorder := mediaRecorder c; recordedChunks := recordedChunks c;
     recording := recording c; facialResult := facialResult c;
     transcriptionResult := transcriptionResult c; cvSummary := cvSummary c;
     generatedQuestions := generatedQuestions c;
     currentQuestionIndex := currentQuestionIndex c;
     currentQuestion := currentQuestion c; cvUploading := cvUploading c;
     interviewFinished := interviewFinished c; questionPlaying := v;
     feedbackText := feedbackText c; feedbackLoading := feedbackLoading c;
     feedbackPlaying := feedbackPlaying c |}.

Definition set_feedbackText (v : option string) (c : FrontComponent) : FrontComponent :=
  {| mediaRecorder := mediaRecorder c; recordedChunks := recordedChunks c;
     recording := recording c; facialResult := facialResult c;
     transcriptionResult := transcriptionResult c; cvSummary := cvSummary c;
     generatedQuestions := generatedQuestions c;
     currentQuestionIndex := currentQuestionIndex c;
     currentQuestion := currentQuestion c; cvUploading := cvUploading c;
     interviewFinished := interviewFinished c;
     questionPlaying := questionPlaying c; feedbackText := v;
     feedbackLoading := feedbackLoading c;
     feedbackPlaying := feedbackPlaying c |}.

Definition set_feedbackLoading (v : bool) (c : FrontComponent) : FrontComponent :=
  {| mediaRecorder := mediaRecorder c; recordedChunks := recordedChunks c;
     recording := recording c; facialResult := facialResult c;
     transcriptionResult := transcriptionResult c; cvSummary := cvSummary c;
     generatedQuestions := generatedQuestions c;
     currentQuestionIndex := currentQuestionIndex c;
     currentQuestion := currentQuestion c; cvUploading := cvUploading c;
     interviewFinished := interviewFinished c;
     questionPlaying := questionPlaying c; feedbackText := feedbackText c;
     feedbackLoading := v; feedbackPlaying := feedbackPlaying c |}.

Definition set_feedbackPlaying (v : bool) (c : FrontComponent) : FrontComponent :=
  {| mediaRecorder := mediaRecorder c; recordedChunks := recordedChunks c;
     recording := recording c; facialResult := facialResult c;
     transcriptionResult := transcriptionResult c; cvSummary := cvSummary c;
     generatedQuestions := generatedQuestions c;
     currentQuestionIndex := currentQuestionIndex c;
     currentQuestion := currentQuestion c; cvUploading := cvUploading c;
     interviewFinished := interviewFinished c;
     questionPlaying := questionPlaying c; feedbackText := feedbackText c;
     feedbackLoading := feedbackLoading c; feedbackPlaying := v |}.

(** The component as constructed (the field initialisers of lines 10-31). *)
Definition new_FrontComponent : FrontComponent :=
  {| mediaRecorder := None; recordedChunks := []; recording := false;
     facialResult := JNull; transcriptionResult := ""; cvSummary := "";
     generatedQuestions := []; currentQuestionIndex := 0;
     currentQuestion := Null; cvUploading := false;
     interviewFinished := false; questionPlaying := false;
     feedbackText := None; feedbackLoading := false;
     feedbackPlaying := false |}.

(** ** The browser around the component *)

(** [MediaRecorder.state]; the component never pauses a recorder. *)
Inductive recording_state : Type := Inactive | Recording.

(** A [MediaRecorder] object: its state and which of the two handlers the
    component has assigned (lines 127 and 146). *)
Record MediaRecorder : Type := {
  rec_state : recording_state;
  rec_ondataavailable : bool;
  rec_onstop : bool;
}.

(** The observer passed to [subscribe] at each of the eight call sites.
    The observer of [analyze_video] captures the recorded blob;
    [transcribe_audio] is posted in both of its callbacks, each time with
    an observer of its own. *)
Inductive observer : Type :=
| ObsSummarize
| ObsQuestions
| ObsQuestionSpeech
| ObsAnalyze (blob : Blob)
| ObsTranscribe
| ObsTranscribeAnyway
| ObsFeedback
| ObsFeedbackSpeech.

(** The two audio elements the component plays (lines 101 and 254). *)
Inductive audio : Type := QuestionAudio | FeedbackAudio.

(** A callback the browser holds for the component. *)
Inductive task : Type :=
| Http (rq : request) (obs : observer)
| Playing (a : audio)
| GetUserMedia
| RecorderStop (r : nat).

(** The component, the callbacks registered and not yet run (oldest
    first), and the recorder objects created so far. *)
Record World : Type := {
  this : FrontComponent;
  pending : list task;
  recorders : list MediaRecorder;
}.

(** The world when the page opens. *)
Definition new_World : World :=
  {| this := new_FrontComponent; pending := []; recorders := [] |}.

(** [this.f = v], as a change of the world. *)
Definition upd (f : FrontComponent → FrontComponent) (w : World) : World :=
  {| this := f (this w); pending := pending w; recorders := recorders w |}.

(** Register a callback. *)
Definition add_task (t : task) (w : World) : World :=
  {| this := this w; pending := pending w ++ [t]; recorders := recorders w |}.

(** Remove the callback at position [i], which is about to run. *)
Definition remove_task (i : nat) (w : World) : World :=
  {| this := this w; pending := delete i (pending w); recorders := recorders w |}.

(** Create a recorder object. *)
Definition add_recorder (r : MediaRecorder) (w : World) : World :=
  {| this := this w; pending := pending w; recorders := recorders w ++ [r] |}.

(** Change the recorder object [r]. *)
Definition alter_recorder (f : MediaRecorder → MediaRecorder) (r : nat)
    (w : World) : World :=
  {| this := this w; pending := pending w;
     recorders := alter f r (recorders w) |}.

Definition set_rec_state (st : recording_state) (m : MediaRecorder) : MediaRecorder :=
  {| rec_state := st; rec_ondataavailable := rec_ondataavailable m;
     rec_onstop := rec_onstop m |}.

Definition set_rec_ondataavailable (m : MediaRecorder) : MediaRecorder :=
  {| rec_state := rec_state m; rec_ondataavailable := true;
     rec_onstop := rec_onstop m |}.

Definition set_rec_onstop (m : MediaRecorder) : MediaRecorder :=
  {| rec_state := rec_state m; rec_ondataavailable := rec_ondataavailable m;
     rec_onstop := true |}.

(** [this.http.post(...).subscribe(obs)]: the request leaves and the
    observer waits. *)
Definition post (rq : request) (obs : observer) : action World unit :=
  assign (add_task (Http rq obs)).

(** [audio.play(); audio.onended = ...] (lines 100-107, 253-259). *)
Definition play (a : audio) : action World unit :=
  assign (add_task (Playing a)).

(** The text a form field gets from [currentQuestion]: [FormData.append]
    converts what is not a string. *)
Definition form_text (q : jsopt string) : string :=
  match q with
  | Val s => s
  | Null => "null"
  | Undefined => "undefined"
  end.

(** [Boolean(s)] for a [string | null]. *)
Definition truthy_text (s : option string) : bool :=
  match s with
  | Some s => truthy_string s
  | None => false
  end.

(** ** The methods and callbacks *)

(** The part of [clientSideFeedbackFallback] about the face (lines
    291-303): what it appends to [feedback]. *)
Definition facial_feedback (feedback : string) (facialResult : json) : string :=
  if is_object facialResult then
    if has_own "dominant_emotion" facialResult then
      feedback +:+ ("I detected a "
        +:+ template (get_prop "dominant_emotion" facialResult)
        +:+ " expression. ")
    else
      let keys := own_keys (or_else facialResult (JObj [])) in
      if 0 <? length keys
      then feedback +:+ ("Facial analysis detected: " +:+ join ", " keys +:+ ". ")
      else feedback
  else
    match facialResult with
    | JStr s =>
        if startsWith s "Error"
        then feedback +:+ "Facial analysis was not available. "
        else feedback
    | _ => feedback
    end.

(** The part about the length of the answer (lines 306-312). *)
Definition length_feedback (feedback : string) (words : nat) : string :=
  if words =? 0 then
    feedback +:+ "No speech detected. Try speaking more clearly and a bit louder."
  else if words <? 20 then
    feedback +:+ "Your answer was short; consider expanding with a brief example or two."
  else
    feedback +:+ "Good length. Try to structure your answer with problem, action and result.".

(** [clientSideFeedbackFallback] (lines 288-315). *)
Definition clientSideFeedbackFallback (c : FrontComponent) : string :=
  let feedback := "" in
  let feedback := facial_feedback feedback (facialResult c) in
  let words := word_count (or_string (Some (transcriptionResult c)) "") in
  let feedback := length_feedback feedback words in
  trim feedback.

(** [startRecording] up to its [await] (lines 118-119): the request for
    the camera and microphone is made and the method suspends. *)
Definition startRecording : action World unit :=
  assign (add_task GetUserMedia).

(** [startRecording] after [getUserMedia] resolved (lines 120-138).
    [preview] tells whether the element with id [preview] is in the
    document; without it the assignment of line 121 throws. *)
Definition startRecording_resume (preview : bool) : action World unit :=
  (if preview then mret tt else throw TypeError);;
  assign (upd (set_recordedChunks []));;
  r ← gets (λ w, length (recorders w));
  assign (add_recorder
    {| rec_state := Inactive; rec_ondataavailable := false; rec_onstop := false |});;
  assign (upd (set_mediaRecorder (Some r)));;
  assign (alter_recorder set_rec_ondataavailable r);;
  assign (alter_recorder (set_rec_state Recording) r);;
  assign (upd (set_recording true));;
  assign (upd (set_facialResult JNull));;
  assign (upd (set_transcriptionResult ""));;
  assign (upd (set_feedbackText None)).

(** [playCurrentQuestion] (lines 87-97).  An array is never falsy, so the
    guard is the bound check. *)
Definition playCurrentQuestion : action World unit :=
  c ← gets this;
  if length (generatedQuestions c) <=? currentQuestionIndex c then mret tt
  else
    assign (upd (set_currentQuestion
      (index (generatedQuestions c) (currentQuestionIndex c))));;
    q ← gets (currentQuestion ∘ this);
    assign (upd (set_questionPlaying true));;
    post (tts_request (form_text q)) ObsQuestionSpeech.

(** The observer of the question's speech request (lines 99-114). *)
Definition questionSpeech_next (res : Blob) : action World unit :=
  play QuestionAudio.

Definition questionSpeech_error : action World unit :=
  assign (upd (set_questionPlaying false));;
  startRecording.

(** [audio.onended] of the question (lines 104-107). *)
Definition questionAudio_ended : action World unit :=
  assign (upd (set_questionPlaying false));;
  startRecording.

(** [onCVSelected] (lines 36-45); [file] is [event.target.files[0]]. *)
Definition onCVSelected (file : option File) : action World unit :=
  match file with
  | None => mret tt
  | Some f =>
      assign (upd (set_cvUploading true));;
      post (summarize_request f) ObsSummarize
  end.

(** The observer of [summarize_cv] (lines 47-57 and 78-82). *)
Definition summarize_next (res : option SummaryRes) : action World unit :=
  r ← deref res;
  assign (upd (set_cvSummary (or_string (summary r) "")));;
  s ← gets (cvSummary ∘ this);
  post (questions_request s) ObsQuestions.

Definition summarize_error : action World unit :=
  assign (upd (set_cvSummary "Error summarizing CV"));;
  assign (upd (set_cvUploading false)).

(** The observer of [generate_questions] (lines 59-75). *)
Definition questions_next (qRes : option QuestionsRes) : action World unit :=
  r ← deref qRes;
  assign (upd (set_generatedQuestions (or_array (questions r) [])));;
  assign (upd (set_currentQuestionIndex 0));;
  qs ← gets (generatedQuestions ∘ this);
  assign (upd (set_currentQuestion (index qs 0)));;
  assign (upd (set_cvUploading false));;
  assign (upd (set_interviewFinished false));;
  when_ (0 <? length qs) playCurrentQuestion.

Definition questions_error : action World unit :=
  assign (upd (set_generatedQuestions ["Error generating questions"]));;
  assign (upd (set_cvUploading false)).

(** [this.mediaRecorder.stop()] (line 143).  A recording recorder becomes
    inactive and the browser queues the task that will fire
    [dataavailable] and [stop].  On an inactive recorder the first edition
    of MediaStream Recording throws an InvalidStateError and the current
    one returns; [strict] says which of the two the browser does. *)
Definition recorder_stop (strict : bool) (r : nat) : action World unit :=
  m ← gets (λ w, recorders w !! r);
  match m with
  | Some {| rec_state := Recording |} =>
      assign (alter_recorder (set_rec_state Inactive) r);;
      assign (add_task (RecorderStop r))
  | Some {| rec_state := Inactive |} =>
      if strict then throw InvalidStateError else mret tt
  | None => throw TypeError
  end.

(** [stopRecording] (lines 140-146): the [onstop] handler is assigned
    after the call of [stop]. *)
Definition stopRecording (strict : bool) : action World unit :=
  c ← gets this;
  match mediaRecorder c with
  | None => mret tt
  | Some r =>
      recorder_stop strict r;;
      assign (upd (set_recording false));;
      assign (alter_recorder set_rec_onstop r)
  end.

(** [playFeedback] (lines 242-250). *)
Definition playFeedback : action World unit :=
  c ← gets this;
  match feedbackText c with
  | Some text =>
      if truthy_string text then
        assign (upd (set_feedbackPlaying true));;
        post (tts_request text) ObsFeedbackSpeech
      else mret tt
  | None => mret tt
  end.

(** The observer of the feedback's speech request (lines 252-268). *)
Definition feedbackSpeech_next (res : Blob) : action World unit :=
  play FeedbackAudio.

Definition feedbackSpeech_error : action World unit :=
  assign (upd (set_feedbackPlaying false)).

(** [audio.onended] of the feedback (lines 257-259). *)
Definition feedbackAudio_ended : action World unit :=
  assign (upd (set_feedbackPlaying false)).

(** [playFeedbackWithWebSpeech(text)] (lines 271-285).  [synth] is
    [window.speechSynthesis]: [None] when the browser has none, otherwise
    whether building or speaking the utterance throws.  The [onend]
    handler of the utterance (lines 276-278) is the [onended] handler of
    the feedback audio (lines 257-259), so the utterance waits as that
    sound does.  No method calls this one: the call at line 266 is
    commented out. *)
Definition playFeedbackWithWebSpeech (synth : option bool) (text : string)
    : action World unit :=
  match synth with
  | None => mret tt
  | Some throws =>
      if throws then assign (upd (set_feedbackPlaying false))
      else
        play FeedbackAudio;;
        assign (upd (set_feedbackPlaying true))
  end.

(** [requestFeedback] (lines 206-218). *)
Definition requestFeedback : action World unit :=
  assign (upd (set_feedbackLoading true));;
  assign (upd (set_feedbackText None));;
  c ← gets this;
  post (feedback_request (transcriptionResult c) (facialResult c)) ObsFeedback.

(** The observer of [generate_feedback] (lines 220-238).  [res?.feedback]
    is [undefined] when the body is [null]. *)
Definition feedback_next (res : option FeedbackRes) : action World unit :=
  c ← gets this;
  assign (upd (set_feedbackText
    (Some (or_string (res ≫= feedback) (clientSideFeedbackFallback c)))));;
  assign (upd (set_feedbackLoading false));;
  t ← gets (feedbackText ∘ this);
  when_ (truthy_text t) playFeedback.

Definition feedback_error : action World unit :=
  c ← gets this;
  assign (upd (set_feedbackText (Some (clientSideFeedbackFallback c))));;
  assign (upd (set_feedbackLoading false));;
  t ← gets (feedbackText ∘ this);
  when_ (truthy_text t) playFeedback.

(** The observer of [transcribe_audio] after the analysis succeeded
    (lines 163-177). *)
Definition transcribe_next (audioRes : option TranscriptionRes) : action World unit :=
  r ← deref audioRes;
  assign (upd (set_transcriptionResult (or_string (transcription r) "")));;
  requestFeedback.

Definition transcribe_error : action World unit :=
  assign (upd (set_transcriptionResult "Error transcribing audio"));;
  requestFeedback.

(** The observer of [transcribe_audio] after the analysis failed
    (lines 188-198). *)
Definition transcribeAnyway_next (audioRes : option TranscriptionRes) : action World unit :=
  r ← deref audioRes;
  assign (upd (set_transcriptionResult (or_string (transcription r) "")));;
  requestFeedback.

Definition transcribeAnyway_error : action World unit :=
  assign (upd (set_transcriptionResult "Error transcribing audio"));;
  requestFeedback.

(** The observer of [analyze_video] (lines 154-200): both branches go
    on to the transcription of the same blob. *)
Definition analyze_next (blob : Blob) (res : json) : action World unit :=
  assign (upd (set_facialResult res));;
  post (transcribe_request blob) ObsTranscribe.

Definition analyze_error (blob : Blob) : action World unit :=
  assign (upd (set_facialResult (JStr "Error analyzing video")));;
  post (transcribe_request blob) ObsTranscribeAnyway.

(** [mediaRecorder.ondataavailable] (lines 127-129). *)
Definition recorder_ondataavailable (data : option Blob) : action World unit :=
  match data with
  | Some d =>
      if 0 <? blob_size d then
        c ← gets this;
        assign (upd (set_recordedChunks (recordedChunks c ++ [d])))
      else mret tt
  | None => mret tt
  end.

(** [mediaRecorder.onstop] (lines 146-153). *)
Definition recorder_onstop : action World unit :=
  c ← gets this;
  let blob := new_Blob (recordedChunks c) "video/mp4" in
  post (analyze_request blob) (ObsAnalyze blob).

(** The task queued by [stop()] runs: the browser fires [dataavailable]
    with the data gathered, then [stop], each at the handler the recorder
    has at that moment. *)
Definition recorder_stopped (r : nat) (data : option Blob) : action World unit :=
  m ← gets (λ w, recorders w !! r);
  match m with
  | Some m =>
      when_ (rec_ondataavailable m) (recorder_ondataavailable data);;
      when_ (rec_onstop m) recorder_onstop
  | None => mret tt
  end.

(** [nextQuestion] (lines 318-331).  The comparison is made on integers:
    with no question, [length - 1] is [-1]. *)
Definition nextQuestion : action World unit :=
  c ← gets this;
  if bool_decide (Z.of_nat (currentQuestionIndex c)
                  < Z.of_nat (length (generatedQuestions c)) - 1)%Z then
    assign (upd (set_currentQuestionIndex (S (currentQuestionIndex c))));;
    c ← gets this;
    assign (upd (set_currentQuestion
      (index (generatedQuestions c) (currentQuestionIndex c))));;
    assign (upd (set_facialResult JNull));;
    assign (upd (set_transcriptionResult ""));;
    assign (upd (set_feedbackText None));;
    playCurrentQuestion
  else
    assign (upd (set_interviewFinished true)).

(** ** Decidable equality *)

#[export] Instance recording_state_eq_dec : EqDecision recording_state.
Proof. solve_decision. Defined.

#[export] Instance MediaRecorder_eq_dec : EqDecision MediaRecorder.
Proof. solve_decision. Defined.

#[export] Instance audio_eq_dec : EqDecision audio.
Proof. solve_decision. Defined.
