(* ===== verification/FrontProps.v ===== *)
(** * FrontProps: what the methods and callbacks of the controller do

    First the client-side feedback text: a reference description of it
    ([facial_sentence], [length_sentence]) that uses none of the
    JavaScript operations of the source, and the proof that
    [clientSideFeedbackFallback] computes it.  Then each method and
    callback, on every branch: the fields it leaves, the request it
    sends, and how it ends. *)

From stdpp Require Import pretty.
From S2P Require Import Prelude JsString JsValue Action Http Front.

(** ** Reference description of the fallback text *)

(** What the text says about the face: the dominant emotion if the result
    is an object that names one, else the names of the fields of the
    object or the indices of the array, nothing for an empty one; a
    notice if the result is an error text; nothing otherwise. *)
Definition facial_sentence (v : json) : string :=
  match v with
  | JObj fields =>
      match assoc "dominant_emotion" fields, fields with
      | Some e, _ => "I detected a " +:+ to_string e +:+ " expression. "
      | None, [] => ""
      | None, _ => "Facial analysis detected: " +:+ join ", " fields.*1 +:+ ". "
      end
  | JArr [] => ""
  | JArr items =>
      "Facial analysis detected: "
        +:+ join ", " (pretty <$> seq 0 (length items)) +:+ ". "
  | JStr s =>
      if String.prefix "Error" s then "Facial analysis was not available. " else ""
  | _ => ""
  end.

(** What the text says about the answer, by its number of words. *)
Definition length_sentence (words : nat) : string :=
  if decide (words = 0) then
    "No speech detected. Try speaking more clearly and a bit louder."
  else if decide (words < 20) then
    "Your answer was short; consider expanding with a brief example or two."
  else
    "Good length. Try to structure your answer with problem, action and result.".

Arguments clientSideFeedbackFallback : simpl never.

(** ** The fallback text *)

Lemma length_sentence_trimEnd n : trimEnd (length_sentence n) = length_sentence n.
Proof. unfold length_sentence. by repeat case_decide. Qed.

Lemma length_sentence_starts_word n : starts_word (length_sentence n) = true.
Proof. unfold length_sentence. by repeat case_decide. Qed.

Lemma length_sentence_nonempty n : length_sentence n ≠ "".
Proof. unfold length_sentence. by repeat case_decide. Qed.

(** The sentence about the face is empty or starts with a letter. *)
Lemma facial_sentence_starts v :
  facial_sentence v = "" ∨ ∃ a s, facial_sentence v = String a s ∧ is_ws a = false.
Proof.
  assert (∀ a s, is_ws a = false →
    String a s = "" ∨ ∃ a' s', String a s = String a' s' ∧ is_ws a' = false)
    as Hword by (intros a s Ha; right; by exists a, s).
  destruct v as [|b|n|s|[|x items]|fields]; simpl; auto.
  - case_match; [by apply Hword|by left].
  - by apply Hword.
  - destruct (assoc _ fields); [by apply Hword|].
    destruct fields; [by left|by apply Hword].
Qed.

(** [trim] has nothing to remove from the assembled text. *)
Lemma trim_sentences v n :
  trim (facial_sentence v +:+ length_sentence n)
  = facial_sentence v +:+ length_sentence n.
Proof.
  apply trim_fixed;
    auto using length_sentence_trimEnd, length_sentence_nonempty.
  destruct (facial_sentence_starts v) as [->|(a & s & -> & Ha)].
  - apply length_sentence_starts_word.
  - simpl. by rewrite Ha.
Qed.

(** The branches of lines 292-303 append [facial_sentence]. *)
Lemma facial_feedback_spec feedback v :
  facial_feedback feedback v = feedback +:+ facial_sentence v.
Proof.
  unfold facial_feedback.
  destruct v as [|b|n|s|items|fields]; unfold is_object; simpl;
    rewrite ?andb_false_r, ?app_nil_r_s; try done.
  - unfold startsWith. case_match; by rewrite ?app_nil_r_s.
  - rewrite has_own_arr_named by done. destruct items; by rewrite ?app_nil_r_s.
  - destruct (has_own _ _) eqn:E.
    + apply has_own_get_prop in E as [e He]. simpl in *. by rewrite He.
    + destruct (assoc _ fields) as [e|] eqn:He.
      { assert (is_Some (get_prop "dominant_emotion" (JObj fields))) as Hs by eauto.
        apply has_own_get_prop in Hs. congruence. }
      destruct fields; by rewrite ?app_nil_r_s.
Qed.

(** The branches of lines 306-312 append [length_sentence]. *)
Lemma length_feedback_spec feedback n :
  length_feedback feedback n = feedback +:+ length_sentence n.
Proof.
  unfold length_feedback, length_sentence.
  destruct (Nat.eqb_spec n 0), (Nat.ltb_spec n 20); repeat case_decide; done || lia.
Qed.

(** The text before and after [trim], with the word count of the source. *)
Lemma fallback_text c :
  clientSideFeedbackFallback c
  = facial_sentence (facialResult c)
      +:+ length_sentence (word_count (transcriptionResult c)).
Proof.
  unfold clientSideFeedbackFallback. cbv zeta.
  rewrite or_string_empty, facial_feedback_spec, length_feedback_spec.
  rewrite app_nil_l_s. apply trim_sentences.
Qed.

(** The client-side feedback is never the empty string. *)
Lemma fallback_truthy c : truthy_string (clientSideFeedbackFallback c) = true.
Proof.
  rewrite fallback_text.
  destruct (facial_sentence_starts (facialResult c)) as [->|(a & s & -> & _)];
    [|done].
  rewrite app_nil_l_s. unfold length_sentence. by repeat case_decide.
Qed.

(** C9.  The client-side feedback is the sentence about the face followed
    by the sentence about the length of the answer, where the length is
    the number of word starts of the transcription: no word, fewer than
    twenty, twenty or more.  [trim] removes nothing from it. *)
Theorem fallback_spec c :
  clientSideFeedbackFallback c
  = facial_sentence (facialResult c)
      +:+ length_sentence (word_starts true (transcriptionResult c)).
Proof.
  rewrite fallback_text. by rewrite (proj1 (word_starts_word_count _)).
Qed.

(** ** Evaluating handlers *)

(** Unfold the handlers and evaluate them on a symbolic world. *)
Ltac eval_handler :=
  unfold feedback_next, feedback_error, playFeedback, requestFeedback,
    transcribe_next, transcribe_error, transcribeAnyway_next,
    transcribeAnyway_error, analyze_next, analyze_error,
    summarize_next, summarize_error, questions_next, questions_error,
    questionSpeech_next, questionSpeech_error, questionAudio_ended,
    feedbackSpeech_next, feedbackSpeech_error, feedbackAudio_ended,
    onCVSelected, nextQuestion, playCurrentQuestion, startRecording,
    startRecording_resume, stopRecording, recorder_stop, recorder_stopped,
    recorder_ondataavailable, recorder_onstop, post, play in *;
  simp_run.

(** The same, using two facts about the world on the way. *)
Ltac eval_handler_with H1 H2 :=
  eval_handler; rewrite H1; simp_run; rewrite H2; simp_run.

Lemma truthy_text_Some s : truthy_text (Some s) = truthy_string s.
Proof. done. Qed.

Lemma feedback_text_truthy (res : option FeedbackRes) c :
  truthy_string (or_string (res ≫= feedback) (clientSideFeedbackFallback c)) = true.
Proof. apply or_string_truthy, fallback_truthy. Qed.

#[export] Hint Rewrite truthy_text_Some feedback_text_truthy fallback_truthy : js.

(** ** The feedback request *)

(** The world after the text [t] became the feedback and its speech was
    requested. *)
Definition feedback_shown (t : string) (w : World) : World :=
  add_task (Http (tts_request t) ObsFeedbackSpeech)
    (upd (set_feedbackPlaying true)
      (upd (set_feedbackLoading false) (upd (set_feedbackText (Some t)) w))).

(** The success callback of the feedback request. *)
Lemma feedback_next_run res w :
  run (feedback_next res) w =
    (Normal tt,
     feedback_shown
       (or_string (res ≫= feedback) (clientSideFeedbackFallback (this w))) w).
Proof. by eval_handler. Qed.

(** The failure callback of the feedback request. *)
Lemma feedback_error_run w :
  run feedback_error w =
    (Normal tt, feedback_shown (clientSideFeedbackFallback (this w)) w).
Proof. by eval_handler. Qed.

(** ** Null bodies *)

(** A [null] body makes the observers of [summarize_cv],
    [generate_questions] and [transcribe_audio] throw a TypeError before
    they write anything: the world stays as it was, with [cvUploading]
    raised in the first two cases. *)
Theorem null_body_throws w :
  run (summarize_next None) w = (Throw TypeError, w) ∧
  run (questions_next None) w = (Throw TypeError, w) ∧
  run (transcribe_next None) w = (Throw TypeError, w).
Proof. done. Qed.

(** ** Recording *)

(** [stopRecording] on an inactive recorder, first edition: line 143 throws
    and nothing changes. *)
Lemma stopRecording_inactive_strict w r m :
  mediaRecorder (this w) = Some r →
  recorders w !! r = Some m →
  rec_state m = Inactive →
  run (stopRecording true) w = (Throw InvalidStateError, w).
Proof.
  intros Hr Hm Hs. destruct m; simpl in *; subst.
  by eval_handler_with Hr Hm.
Qed.

(** On a browser of the current edition the second call returns, lowers
    [recording] and assigns [onstop] again; no task is queued. *)
Lemma stopRecording_inactive_lenient w r m :
  mediaRecorder (this w) = Some r →
  recorders w !! r = Some m →
  rec_state m = Inactive →
  run (stopRecording false) w =
    (Normal tt, alter_recorder set_rec_onstop r (upd (set_recording false) w)).
Proof.
  intros Hr Hm Hs. destruct m; simpl in *; subst.
  by eval_handler_with Hr Hm.
Qed.

(** [stopRecording] on a recording recorder. *)
Lemma stopRecording_recording strict w r m :
  mediaRecorder (this w) = Some r →
  recorders w !! r = Some m →
  rec_state m = Recording →
  run (stopRecording strict) w =
    (Normal tt,
     alter_recorder set_rec_onstop r
       (upd (set_recording false)
         (add_task (RecorderStop r)
           (alter_recorder (set_rec_state Inactive) r w)))).
Proof.
  intros Hr Hm Hs. destruct m; simpl in *; subst.
  by eval_handler_with Hr Hm.
Qed.

(** Without a recorder [stopRecording] does nothing. *)
Lemma stopRecording_none strict w :
  mediaRecorder (this w) = None → run (stopRecording strict) w = (Normal tt, w).
Proof. intros Hr. eval_handler. by rewrite Hr. Qed.

(** Beyond the list of recorders the model reports a TypeError; no
    reachable world gets there ([FrontMachine.recorder_in_range]). *)
Lemma stopRecording_dangling strict w r :
  mediaRecorder (this w) = Some r →
  recorders w !! r = None →
  run (stopRecording strict) w = (Throw TypeError, w).
Proof. intros Hr Hm. by eval_handler_with Hr Hm. Qed.

(** The world after [getUserMedia] resolved and the recording started:
    a new recorder, recording, with its data handler, is the current one;
    the chunks and the results of the previous answer are cleared. *)
Definition recording_started (w : World) : World :=
  let r := length (recorders w) in
  upd (set_feedbackText None)
    (upd (set_transcriptionResult "")
      (upd (set_facialResult JNull)
        (upd (set_recording true)
          (alter_recorder (set_rec_state Recording) r
            (alter_recorder set_rec_ondataavailable r
              (upd (set_mediaRecorder (Some r))
                (add_recorder
                  {| rec_state := Inactive; rec_ondataavailable := false;
                     rec_onstop := false |}
                  (upd (set_recordedChunks []) w)))))))).

(** [startRecording] after the [await], in every world. *)
Lemma startRecording_resume_run preview w :
  run (startRecording_resume preview) w =
    if preview then (Normal tt, recording_started w) else (Throw TypeError, w).
Proof. by destruct preview. Qed.

(** The recorder that [recording_started] creates is recording and has
    its data handler but no stop handler yet. *)
Lemma recording_started_recorder w :
  recorders (recording_started w) !! length (recorders w)
  = Some {| rec_state := Recording; rec_ondataavailable := true;
            rec_onstop := false |}.
Proof.
  unfold recording_started, alter_recorder, add_recorder. simpl.
  rewrite !list_lookup_alter_eq, lookup_app_r, Nat.sub_diag by done. done.
Qed.

(** The task queued by [stop()] on a recorder with both handlers: a
    non-empty chunk is appended, and the recording made of all the chunks
    is sent to video analysis. *)
Definition recording_uploaded (data : option Blob) (w : World) : World :=
  let chunks :=
    match data with
    | Some d => if 0 <? blob_size d then recordedChunks (this w) ++ [d]
                else recordedChunks (this w)
    | None => recordedChunks (this w)
    end in
  let blob := new_Blob chunks "video/mp4" in
  add_task (Http (analyze_request blob) (ObsAnalyze blob))
    (upd (set_recordedChunks chunks) w).

Lemma upd_id_recordedChunks w :
  upd (set_recordedChunks (recordedChunks (this w))) w = w.
Proof. by destruct w as [[]]. Qed.

(** When the events of a stopped recorder fire and both handlers
    are assigned, the data gathered (if any) joins the chunks and the
    whole recording is posted to [analyze_video] as [interview.mp4]. *)
Theorem recorder_stopped_spec r data w st :
  recorders w !! r
    = Some {| rec_state := st; rec_ondataavailable := true; rec_onstop := true |} →
  run (recorder_stopped r data) w = (Normal tt, recording_uploaded data w).
Proof.
  intros Hm. unfold recorder_stopped. rewrite run_bind, run_gets, Hm.
  unfold recording_uploaded. eval_handler.
  destruct data as [d|]; simp_run; [destruct (0 <? blob_size d)|]; simp_run;
    by rewrite ?upd_id_recordedChunks.
Qed.

(** Without a stop handler nothing is uploaded. *)
Lemma recorder_stopped_no_onstop r w st :
  recorders w !! r
    = Some {| rec_state := st; rec_ondataavailable := true; rec_onstop := false |} →
  pending (exec (recorder_stopped r None) w) = pending w.
Proof.
  intros Hm. unfold exec, recorder_stopped. rewrite run_bind, run_gets, Hm.
  by eval_handler.
Qed.

(** ** Analysis, transcription, feedback *)

(** Whether video analysis succeeds or fails, the same recording
    goes on to transcription; only [facialResult] differs. *)
Theorem analyze_then_transcribe blob res w :
  run (analyze_next blob res) w =
    (Normal tt,
     add_task (Http (transcribe_request blob) ObsTranscribe)
       (upd (set_facialResult res) w)) ∧
  run (analyze_error blob) w =
    (Normal tt,
     add_task (Http (transcribe_request blob) ObsTranscribeAnyway)
       (upd (set_facialResult (JStr "Error analyzing video")) w)).
Proof. done. Qed.

(** The world after the transcription [t] was stored and the feedback
    requested. *)
Definition feedback_requested (t : string) (w : World) : World :=
  add_task
    (Http (feedback_request t (facialResult (this w))) ObsFeedback)
    (upd (set_feedbackText None)
      (upd (set_feedbackLoading true) (upd (set_transcriptionResult t) w))).

(** Whether transcription succeeds or fails, feedback is requested
    with the transcription stored (the text of the backend, the empty
    string if it sent none, the error text on failure) and the facial
    result as it is then. *)
Theorem transcribe_then_feedback r w :
  run (transcribe_next (Some r)) w =
    (Normal tt, feedback_requested (or_string (transcription r) "") w) ∧
  run transcribe_error w =
    (Normal tt, feedback_requested "Error transcribing audio" w).
Proof. done. Qed.

(** The observer registered after a failed analysis is a copy of the one
    registered after a successful one: the two run the same code. *)
Theorem transcribeAnyway_same :
  transcribeAnyway_next = transcribe_next ∧
  transcribeAnyway_error = transcribe_error.
Proof. done. Qed.

(** ** Questions *)

(** The world after question [q] was made current and its speech
    requested. *)
Definition question_asked (q : string) (w : World) : World :=
  add_task (Http (tts_request q) ObsQuestionSpeech)
    (upd (set_questionPlaying true) (upd (set_currentQuestion (Val q)) w)).

(** [playCurrentQuestion] in every world. *)
Lemma playCurrentQuestion_run w :
  run playCurrentQuestion w =
    match generatedQuestions (this w) !! currentQuestionIndex (this w) with
    | Some q => (Normal tt, question_asked q w)
    | None => (Normal tt, w)
    end.
Proof.
  unfold playCurrentQuestion. rewrite run_bind, run_gets.
  destruct (Nat.leb_spec (length (generatedQuestions (this w)))
              (currentQuestionIndex (this w))) as [Hge|Hlt].
  - by rewrite (proj2 (lookup_ge_None _ _) Hge).
  - destruct (lookup_lt_is_Some_2 _ _ Hlt) as [q E].
    unfold question_asked, post, index. simp_run. by rewrite !E.
Qed.

(** [onCVSelected] with no file does nothing; with a file it raises
    [cvUploading] and posts the file to [summarize_cv]. *)
Lemma onCVSelected_spec file w :
  run (onCVSelected file) w =
    match file with
    | Some f =>
        (Normal tt,
         add_task (Http (summarize_request f) ObsSummarize)
           (upd (set_cvUploading true) w))
    | None => (Normal tt, w)
    end.
Proof. by destruct file. Qed.

(** The summary stored is the text of the backend, or the empty string. *)
Lemma summarize_next_spec r w :
  run (summarize_next (Some r)) w =
    (Normal tt,
     add_task
       (Http (questions_request (or_string (summary r) "")) ObsQuestions)
       (upd (set_cvSummary (or_string (summary r) "")) w)).
Proof. done. Qed.

(** The world after the questions [qs] arrived, before the first one is
    played. *)
Definition questions_stored (qs : list string) (w : World) : World :=
  upd (set_interviewFinished false)
    (upd (set_cvUploading false)
      (upd (set_currentQuestion (index qs 0))
        (upd (set_currentQuestionIndex 0)
          (upd (set_generatedQuestions qs) w)))).

(** The success callback of the question request, on a body that is not
    [null]. *)
Lemma questions_next_run r w :
  run (questions_next (Some r)) w =
    match or_array (questions r) [] with
    | q :: qs => (Normal tt, question_asked q (questions_stored (q :: qs) w))
    | [] => (Normal tt, questions_stored [] w)
    end.
Proof.
  unfold questions_next. simp_run.
  destruct (or_array _ _) as [|q qs] eqn:E; simp_run; [done|].
  rewrite playCurrentQuestion_run. simpl. done.
Qed.

(** When the question request fails the list becomes the single
    text of line 73 and [cvUploading] is lowered; the index, the current
    question and [interviewFinished] keep the values of the previous
    interview. *)
Theorem questions_error_spec w :
  run questions_error w =
    (Normal tt,
     upd (set_cvUploading false)
       (upd (set_generatedQuestions ["Error generating questions"]) w)).
Proof. done. Qed.

(** The world after the move to question [q] at index [i]. *)
Definition moved_to (i : nat) (q : string) (w : World) : World :=
  question_asked q
    (upd (set_feedbackText None)
      (upd (set_transcriptionResult "")
        (upd (set_facialResult JNull)
          (upd (set_currentQuestion (Val q))
            (upd (set_currentQuestionIndex i) w))))).

(** [nextQuestion] in every world. *)
Lemma nextQuestion_run w :
  run nextQuestion w =
    match generatedQuestions (this w) !! S (currentQuestionIndex (this w)) with
    | Some q => (Normal tt, moved_to (S (currentQuestionIndex (this w))) q w)
    | None => (Normal tt, upd (set_interviewFinished true) w)
    end.
Proof.
  unfold nextQuestion. simp_run.
  destruct (_ !! _) as [q|] eqn:E.
  - pose proof (lookup_lt_Some _ _ _ E).
    rewrite bool_decide_eq_true_2 by lia. simp_run.
    rewrite playCurrentQuestion_run. simpl. rewrite E.
    unfold moved_to, index. by rewrite E.
  - apply lookup_ge_None in E.
    rewrite bool_decide_eq_false_2 by lia. done.
Qed.

(** ** The methods as functions of the world

    The three handlers whose branches depend on the world, written as one
    equation each; with the equations above they let a proof replace any
    handler by the world it leaves. *)

(** [stopRecording] in every world. *)
Lemma stopRecording_run strict w :
  run (stopRecording strict) w =
    match mediaRecorder (this w) with
    | None => (Normal tt, w)
    | Some r =>
        match recorders w !! r with
        | None => (Throw TypeError, w)
        | Some m =>
            match rec_state m with
            | Recording =>
                (Normal tt,
                 alter_recorder set_rec_onstop r
                   (upd (set_recording false)
                     (add_task (RecorderStop r)
                       (alter_recorder (set_rec_state Inactive) r w))))
            | Inactive =>
                if strict then (Throw InvalidStateError, w)
                else (Normal tt,
                      alter_recorder set_rec_onstop r
                        (upd (set_recording false) w))
            end
        end
    end.
Proof.
  destruct (mediaRecorder (this w)) as [r|] eqn:Hr;
    [|by apply stopRecording_none].
  destruct (recorders w !! r) as [m|] eqn:Hm;
    [|by eapply stopRecording_dangling].
  destruct (rec_state m) eqn:Hs.
  - destruct strict.
    + by eapply stopRecording_inactive_strict.
    + by eapply stopRecording_inactive_lenient.
  - by eapply stopRecording_recording.
Qed.

(** [playFeedback] in every world. *)
Lemma playFeedback_run w :
  run playFeedback w =
    match feedbackText (this w) with
    | Some text =>
        if truthy_string text
        then (Normal tt,
              add_task (Http (tts_request text) ObsFeedbackSpeech)
                (upd (set_feedbackPlaying true) w))
        else (Normal tt, w)
    | None => (Normal tt, w)
    end.
Proof.
  unfold playFeedback. rewrite run_bind, run_gets.
  destruct (feedbackText (this w)) as [text|]; [|done].
  by destruct (truthy_string text).
Qed.

(** The chunks after the [dataavailable] event. *)
Definition chunks_after (data : option Blob) (chunks : list Blob) : list Blob :=
  match data with
  | Some d => if 0 <? blob_size d then chunks ++ [d] else chunks
  | None => chunks
  end.

(** The events of a stopped recorder, in every world. *)
Lemma recorder_stopped_run r data w :
  run (recorder_stopped r data) w =
    match recorders w !! r with
    | None => (Normal tt, w)
    | Some m =>
        let w1 :=
          if rec_ondataavailable m
          then upd (set_recordedChunks
                      (chunks_after data (recordedChunks (this w)))) w
          else w in
        (Normal tt,
         if rec_onstop m
         then let blob := new_Blob (recordedChunks (this w1)) "video/mp4" in
              add_task (Http (analyze_request blob) (ObsAnalyze blob)) w1
         else w1)
    end.
Proof.
  unfold recorder_stopped. rewrite run_bind, run_gets.
  destruct (recorders w !! r) as [[st [] []]|]; simpl; [..|done];
    eval_handler; unfold chunks_after;
    destruct data as [d|]; simp_run; try destruct (0 <? blob_size d); simp_run;
    by rewrite ?upd_id_recordedChunks.
Qed.

Lemma recording_started_recorders w :
  recorders (recording_started w)
  = recorders w ++ [{| rec_state := Recording; rec_ondataavailable := true;
                       rec_onstop := false |}].
Proof.
  unfold recording_started. simpl.
  rewrite <-(Nat.add_0_r (length (recorders w))), !alter_app_r. done.
Qed.

(** ** Headline properties of the handlers *)

(** What both callbacks of the feedback request leave: a text that is
    not empty, shown, no longer loading, being played, its speech
    requested last. *)
Definition feedback_spoken (w : World) (r : completion unit * World) : Prop :=
  r.1 = Normal tt ∧
  ∃ t, feedbackText (this r.2) = Some t ∧ truthy_string t = true
       ∧ feedbackLoading (this r.2) = false
       ∧ feedbackPlaying (this r.2) = true
       ∧ pending r.2 = pending w ++ [Http (tts_request t) ObsFeedbackSpeech].

(** C8.  Whether the feedback request succeeds or fails, and whatever
    its body, the page ends up showing a feedback that is not empty and
    asks for its speech; the text of the backend is used when it is not
    empty, the client-side text otherwise. *)
Theorem feedback_always_spoken res w :
  feedback_spoken w (run (feedback_next res) w) ∧
  feedback_spoken w (run feedback_error w) ∧
  (∀ f t, res = Some f → feedback f = Some t → truthy_string t = true →
     feedbackText (this (exec (feedback_next res) w)) = Some t) ∧
  ((∀ t, res ≫= feedback = Some t → truthy_string t = false) →
     feedbackText (this (exec (feedback_next res) w))
     = Some (clientSideFeedbackFallback (this w))) ∧
  feedbackText (this (exec feedback_error w))
  = Some (clientSideFeedbackFallback (this w)).
Proof.
  unfold exec. rewrite feedback_next_run, feedback_error_run.
  split_and!.
  - split; [done|]. eexists. by rewrite feedback_text_truthy.
  - split; [done|]. eexists. by rewrite fallback_truthy.
  - intros f t -> Hf Ht. simpl. rewrite Hf. simpl. by rewrite Ht.
  - intros Hno. simpl. destruct (res ≫= feedback) as [t|]; [simpl|done].
    by rewrite (Hno t).
  - done.
Qed.

(** C38.  After a [stopRecording] that stopped the recorder, a second
    [stopRecording] throws an InvalidStateError on a browser of the first
    edition and returns on a current one; in both cases the component
    and the pending callbacks are as the first call left them, and no
    second upload is queued. *)
Theorem stopRecording_twice strict w r m :
  mediaRecorder (this w) = Some r →
  recorders w !! r = Some m →
  rec_state m = Recording →
  let w1 := exec (stopRecording strict) w in
  run (stopRecording true) w1 = (Throw InvalidStateError, w1) ∧
  outcome (stopRecording false) w1 = Normal tt ∧
  this (exec (stopRecording false) w1) = this w1 ∧
  pending (exec (stopRecording false) w1) = pending w1.
Proof.
  intros Hr Hm Hs w1. subst w1. unfold exec, outcome.
  rewrite (stopRecording_recording strict w r m) by done. simpl.
  set (w1 := alter_recorder _ _ _).
  assert (recorders w1 !! r
          = Some (set_rec_onstop (set_rec_state Inactive m))) as Hm1.
  { subst w1. simpl. by rewrite !list_lookup_alter_eq, Hm. }
  split; [by eapply stopRecording_inactive_strict|].
  by rewrite (stopRecording_inactive_lenient w1 r _ Hr Hm1).
Qed.

(** When the camera is granted and the preview element exists,
    [startRecording] creates a recorder that records and has the data
    handler, makes it the current one, raises [recording] and clears the
    chunks and the results of the previous answer; it registers no
    callback.  When the preview element is missing it throws a TypeError
    at line 121 and nothing changes. *)
Theorem startRecording_records w :
  let w' := exec (startRecording_resume true) w in
  (mediaRecorder (this w') = Some (length (recorders w)) ∧
   recorders w' = recorders w ++ [{| rec_state := Recording;
                                     rec_ondataavailable := true;
                                     rec_onstop := false |}] ∧
   recording (this w') = true ∧ recordedChunks (this w') = [] ∧
   facialResult (this w') = JNull ∧ transcriptionResult (this w') = "" ∧
   feedbackText (this w') = None ∧ pending w' = pending w) ∧
  run (startRecording_resume false) w = (Throw TypeError, w).
Proof.
  unfold exec. rewrite startRecording_resume_run.
  pose proof (recording_started_recorders w). done.
Qed.

(** The speech request that [playCurrentQuestion] registers is for
    the question at the current index, which becomes the current
    question; out of range nothing is registered.  The text sent is
    never ["undefined"]. *)
Theorem playCurrentQuestion_sends_question w t :
  t ∈ pending (exec playCurrentQuestion w) →
  t ∈ pending w ∨
  ∃ q, generatedQuestions (this w) !! currentQuestionIndex (this w) = Some q
       ∧ t = Http (tts_request q) ObsQuestionSpeech
       ∧ currentQuestion (this (exec playCurrentQuestion w)) = Val q.
Proof.
  unfold exec. rewrite playCurrentQuestion_run.
  destruct (_ !! _) as [q|]; simpl; [|by left].
  intros [?|Ht%list_elem_of_singleton]%elem_of_app; [by left|right; eauto].
Qed.

(** When the questions arrive the interview restarts at the first
    one: the list is the one received (empty if the body has none), the
    index is 0, the current question is the first (or [undefined]),
    [cvUploading] and [interviewFinished] are lowered, and the first
    question is played exactly when there is one. *)
Theorem questions_next_restarts r w :
  let qs := or_array (questions r) [] in
  let w' := exec (questions_next (Some r)) w in
  generatedQuestions (this w') = qs ∧
  currentQuestionIndex (this w') = 0 ∧
  currentQuestion (this w') = index qs 0 ∧
  cvUploading (this w') = false ∧
  interviewFinished (this w') = false ∧
  pending w' = pending w
    ++ match qs with
       | q :: _ => [Http (tts_request q) ObsQuestionSpeech]
       | [] => []
       end.
Proof.
  unfold exec. rewrite questions_next_run.
  destruct (or_array _ _) as [|q qs]; simpl; by rewrite ?app_nil_r.
Qed.

(** [nextQuestion] with a question left moves the index to it,
    makes it current, clears the results of the previous answer and asks
    for its speech; on the last question, or with no question, it only
    raises [interviewFinished]. *)
Theorem nextQuestion_advances w :
  let i := currentQuestionIndex (this w) in
  let qs := generatedQuestions (this w) in
  let w' := exec nextQuestion w in
  match qs !! S i with
  | Some q =>
      currentQuestionIndex (this w') = S i ∧
      currentQuestion (this w') = Val q ∧
      facialResult (this w') = JNull ∧ transcriptionResult (this w') = "" ∧
      feedbackText (this w') = None ∧ questionPlaying (this w') = true ∧
      interviewFinished (this w') = interviewFinished (this w) ∧
      pending w' = pending w ++ [Http (tts_request q) ObsQuestionSpeech]
  | None => w' = upd (set_interviewFinished true) w
  end.
Proof.
  unfold exec. rewrite nextQuestion_run. by destruct (_ !! _).
Qed.
