(* ===== verification/FrontMachine.v ===== *)
(** * FrontMachine: the interview page as a machine, and its invariants

    An event is a call of a public method by the page, or the browser
    running one of the callbacks it holds.  [front_step] removes the
    callback and runs the action of [Front] that the source attaches to
    it.  The instance [front_machine] makes the lemmas of [Machine]
    available.  [step_cases] splits a step into the cases of the source
    and [exec_specs] replaces each handler by the world it leaves; the
    files that reason about all steps ([FrontQueue], [FrontWire],
    [FrontInvariants], [FrontRefinement]) start from them. *)

From S2P Require Import Prelude JsString JsValue Action Machine Http Front FrontProps.

(** ** Definitions *)

(** What the user can do: the public methods of the class, with their
    arguments.  [strict] is the browser's behaviour on a second
    [stop()]. *)
Inductive user_event : Type :=
| SelectCV (file : option File)
| CallPlayCurrentQuestion
| CallStartRecording
| CallStopRecording (strict : bool)
| CallPlayFeedback
| CallNextQuestion.

(** What the browser can do with one callback: deliver the response of an
    HTTP call or its failure, end an audio playback, settle
    [getUserMedia], run the task queued by [stop()]. *)
Inductive browser_event : Type :=
| HttpNext (res : response)
| HttpError
| Ended
| MediaGranted (preview : bool)
| MediaRejected (e : js_error)
| RecorderStopped (data : option Blob).

Inductive front_event : Type :=
| User (u : user_event)
| Browser (i : nat) (b : browser_event).

(** The method each user event calls. *)
Definition user_action (u : user_event) : action World unit :=
  match u with
  | SelectCV file => onCVSelected file
  | CallPlayCurrentQuestion => playCurrentQuestion
  | CallStartRecording => startRecording
  | CallStopRecording strict => stopRecording strict
  | CallPlayFeedback => playFeedback
  | CallNextQuestion => nextQuestion
  end.

(** The [next] callback of each observer; [None] when the response is not
    one the endpoint produces. *)
Definition on_next (obs : observer) (res : response) : option (action World unit) :=
  match obs, res with
  | ObsSummarize, RSummary r => Some (summarize_next r)
  | ObsQuestions, RQuestions r => Some (questions_next r)
  | ObsQuestionSpeech, RSpeech b => Some (questionSpeech_next b)
  | ObsAnalyze blob, RFacial v => Some (analyze_next blob v)
  | ObsTranscribe, RTranscription r => Some (transcribe_next r)
  | ObsTranscribeAnyway, RTranscription r => Some (transcribeAnyway_next r)
  | ObsFeedback, RFeedback r => Some (feedback_next r)
  | ObsFeedbackSpeech, RSpeech b => Some (feedbackSpeech_next b)
  | _, _ => None
  end.

(** The [error] callback of each observer. *)
Definition on_error (obs : observer) : action World unit :=
  match obs with
  | ObsSummarize => summarize_error
  | ObsQuestions => questions_error
  | ObsQuestionSpeech => questionSpeech_error
  | ObsAnalyze blob => analyze_error blob
  | ObsTranscribe => transcribe_error
  | ObsTranscribeAnyway => transcribeAnyway_error
  | ObsFeedback => feedback_error
  | ObsFeedbackSpeech => feedbackSpeech_error
  end.

(** [audio.onended]. *)
Definition on_ended (a : audio) : action World unit :=
  match a with
  | QuestionAudio => questionAudio_ended
  | FeedbackAudio => feedbackAudio_ended
  end.

(** The action a callback runs on a browser event; [None] when the event
    is not one this callback can receive. *)
Definition callback (t : task) (b : browser_event) : option (action World unit) :=
  match t, b with
  | Http _ obs, HttpNext res => on_next obs res
  | Http _ obs, HttpError => Some (on_error obs)
  | Playing a, Ended => Some (on_ended a)
  | GetUserMedia, MediaGranted preview => Some (startRecording_resume preview)
  | GetUserMedia, MediaRejected e => Some (throw e)
  | RecorderStop r, RecorderStopped data => Some (recorder_stopped r data)
  | _, _ => None
  end.

(** The action of an event in a world, when the event can occur. *)
Definition front_action (e : front_event) (w : World) : option (action World unit) :=
  match e with
  | User u => Some (user_action u)
  | Browser i b => t ← pending w !! i; callback t b
  end.

(** The world in which the action of an event starts: a callback is
    removed from the pending ones before it runs. *)
Definition before (e : front_event) (w : World) : World :=
  match e with
  | User _ => w
  | Browser i _ => remove_task i w
  end.

(** One step: the world the handler leaves, whether it returned or
    threw. *)
Definition front_step (e : front_event) (w : World) : option World :=
  a ← front_action e w; Some (exec a (before e w)).

(** How the handler of an event ends. *)
Definition front_outcome (e : front_event) (w : World) : option (completion unit) :=
  a ← front_action e w; Some (outcome a (before e w)).

#[export] Instance front_machine : Machine :=
  {| state := World; event := front_event;
     initial := new_World; step := front_step |}.

(** ** The shape of a step *)

(** A step is a public method run in the world as it is, or a callback
    run after its removal from the pending ones. *)
Lemma front_step_cases e w w' :
  front_step e w = Some w' →
  (∃ u, e = User u ∧ w' = exec (user_action u) w) ∨
  (∃ i b t a, e = Browser i b ∧ pending w !! i = Some t
              ∧ callback t b = Some a ∧ w' = exec a (remove_task i w)).
Proof.
  unfold front_step. destruct e as [u|i b]; simpl.
  - intros [= <-]. left. by exists u.
  - destruct (pending w !! i) as [t|] eqn:Ht; simpl; [|done].
    destruct (callback t b) as [a|] eqn:Ha; simpl; [|done].
    intros [= <-]. right. by exists i, b, t, a.
Qed.

(** ** Proof automation for steps *)

(** Split a step into its cases: six public methods, and each callback
    on each event it can receive. *)
Ltac step_cases H :=
  let u := fresh "u" in let i := fresh "i" in let b := fresh "b" in
  let t := fresh "t" in let a := fresh "a" in
  let Ht := fresh "Ht" in let Ha := fresh "Ha" in
  apply front_step_cases in H
    as [(u & -> & ->)|(i & b & t & a & -> & Ht & Ha & ->)];
  [destruct u as [[?|]| | |?| |]
  |destruct t as [? obs|au| |?], b as [res| | |?|?|?];
     simpl in Ha; try discriminate;
     [destruct obs, res as [[?|]|[?|]|?|?|[?|]|[?|]];
        simpl in Ha; try discriminate
     |destruct obs|destruct au|..];
     injection Ha as <-].

(** Replace the handler of each case by the world it leaves. *)
Ltac exec_specs :=
  unfold user_action, on_error, on_ended, exec;
  rewrite ?playCurrentQuestion_run, ?nextQuestion_run, ?feedback_next_run,
    ?feedback_error_run, ?questions_next_run, ?startRecording_resume_run,
    ?stopRecording_run, ?playFeedback_run, ?recorder_stopped_run;
  repeat case_match; simpl.
