(* ===== verification/FrontQueue.v ===== *)
(** * FrontQueue: the callbacks of the interview page run out

    The only loop of the page is the browser's: it runs the callbacks the
    component registered, and a callback may register the next one
    ([summarize_cv] asks for the questions, the questions for the speech
    of the first, and so on; front.component.ts, lines 45-114 and
    146-260).  No callback registers one of its own kind or of an earlier
    stage, so each has a [rank], the number of callbacks its chain can
    still run, and the sum of the ranks of the pending callbacks, the
    [load], decreases each time the browser runs one.

    - Termination: left alone by the user, the page runs at most [load w]
      callbacks; a browser that delivers the oldest callback first,
      whatever it replies, empties the queue with that much fuel.
    - Bounds: a call of a public method adds at most six to the load, so
      that over any run the number of callbacks run is at most six times
      the number of method calls. *)

From S2P Require Import Prelude JsString JsValue Action Machine Http Front FrontProps FrontMachine.

(** ** Definitions *)

(** The length of the longest chain of callbacks that starts at [t]. *)
Definition rank (t : task) : nat :=
  match t with
  | Http _ ObsSummarize => 5
  | Http _ ObsQuestions => 4
  | Http _ ObsQuestionSpeech => 3
  | Playing QuestionAudio => 2
  | GetUserMedia => 1
  | RecorderStop _ => 6
  | Http _ (ObsAnalyze _) => 5
  | Http _ (ObsTranscribe | ObsTranscribeAnyway) => 4
  | Http _ ObsFeedback => 3
  | Http _ ObsFeedbackSpeech => 2
  | Playing FeedbackAudio => 1
  end.

(** The callbacks the pending ones can still run, themselves included. *)
Definition load (w : World) : nat := list_sum (rank <$> pending w).

(** The events that happen without the user. *)
Definition by_browser (e : front_event) : Prop :=
  match e with
  | Browser _ _ => True
  | User _ => False
  end.

(** One for a callback run, nothing for a method call. *)
Definition callbacks_run (e : front_event) : nat :=
  match e with
  | Browser _ _ => 1
  | User _ => 0
  end.

(** One for a method call, nothing for a callback. *)
Definition calls_made (e : front_event) : nat :=
  match e with
  | Browser _ _ => 0
  | User _ => 1
  end.

(** The callbacks run and the method calls made in a run. *)
Definition callbacks (es : list front_event) : nat := list_sum (callbacks_run <$> es).
Definition calls (es : list front_event) : nat := list_sum (calls_made <$> es).

(** A browser that runs the oldest callback first and answers it with
    [reply]. *)
Definition oldest_first (reply : task → browser_event) (w : World)
    : option front_event :=
  match pending w with
  | [] => None
  | t :: _ => Some (Browser 0 (reply t))
  end.

(** Every request succeeds with an empty body, the camera is granted and
    the recorder has no data. *)
Definition all_succeed (t : task) : browser_event :=
  match t with
  | Http _ ObsSummarize => HttpNext (RSummary (Some {| summary := None |}))
  | Http _ ObsQuestions => HttpNext (RQuestions (Some {| questions := None |}))
  | Http _ ObsQuestionSpeech | Http _ ObsFeedbackSpeech =>
      HttpNext (RSpeech {| blob_data := []; blob_type := "audio/mpeg" |})
  | Http _ (ObsAnalyze _) => HttpNext (RFacial JNull)
  | Http _ (ObsTranscribe | ObsTranscribeAnyway) =>
      HttpNext (RTranscription (Some {| transcription := None |}))
  | Http _ ObsFeedback => HttpNext (RFeedback None)
  | Playing _ => Ended
  | GetUserMedia => MediaGranted true
  | RecorderStop _ => RecorderStopped None
  end.

(** Every request fails and the camera is refused. *)
Definition all_fail (t : task) : browser_event :=
  match t with
  | Http _ _ => HttpError
  | Playing _ => Ended
  | GetUserMedia => MediaRejected NotAllowedError
  | RecorderStop _ => RecorderStopped None
  end.

(** [reply] answers each callback with an event it can receive. *)
Definition fits (reply : task → browser_event) : Prop :=
  ∀ t, is_Some (callback t (reply t)).

(** ** The load of a step *)

Lemma list_sum_delete (f : task → nat) l i t :
  l !! i = Some t → list_sum (f <$> delete i l) + f t = list_sum (f <$> l).
Proof.
  revert i; induction l as [|x l IH]; intros [|i]; csimpl; try done.
  - intros [= ->]. lia.
  - intros Hi. specialize (IH _ Hi). lia.
Qed.

Lemma list_sum_fmap_mul {A} (f : A → nat) k l :
  list_sum ((λ x, k * f x) <$> l) = k * list_sum (f <$> l).
Proof. induction l as [|x l IH]; csimpl; [lia|]. rewrite IH. lia. Qed.

Lemma load_add_task t w : load (add_task t w) = load w + rank t.
Proof. unfold load. simpl. rewrite fmap_app, list_sum_app. simpl. lia. Qed.

Lemma load_remove_task i t w :
  pending w !! i = Some t → load (remove_task i w) + rank t = load w.
Proof. apply list_sum_delete. Qed.

(** Running a callback takes at least one from the load: whatever it
    registers has a lower rank than the callback had. *)
Lemma load_browser_step e w w' :
  by_browser e → front_step e w = Some w' → load w' < load w.
Proof.
  intros He Hstep. step_cases Hstep; try done;
    pose proof (load_remove_task _ _ _ Ht) as Hload; simpl in Hload;
    exec_specs; unfold load in *; simpl in *;
    rewrite ?fmap_app, ?list_sum_app; simpl; lia.
Qed.

(** A method call adds at most six to the load. *)
Lemma load_user_step e w w' :
  ¬ by_browser e → front_step e w = Some w' → load w' ≤ load w + 6.
Proof.
  intros He Hstep. step_cases Hstep; try (by destruct He); exec_specs;
    unfold load; simpl; rewrite ?fmap_app, ?list_sum_app; simpl; lia.
Qed.

Lemma load_step e w w' :
  front_step e w = Some w' →
  callbacks_run e + load w' ≤ load w + 6 * calls_made e.
Proof.
  intros Hstep. destruct e as [u|i b]; simpl.
  - by apply load_user_step in Hstep; [|intros []].
  - apply load_browser_step in Hstep; [lia|done].
Qed.

(** ** The oldest-first browser *)

Lemma fits_all_succeed : fits all_succeed.
Proof. intros [rq []|[]| |r]; by eexists. Qed.

Lemma fits_all_fail : fits all_fail.
Proof. intros [rq []|[]| |r]; by eexists. Qed.

Lemma oldest_first_quiet reply w e : oldest_first reply w = Some e → by_browser e.
Proof. unfold oldest_first. destruct (pending w); by intros [= <-]. Qed.

Lemma oldest_first_enabled reply w e :
  fits reply → oldest_first reply w = Some e → is_Some (front_step e w).
Proof.
  intros Hfits. unfold oldest_first, front_step.
  destruct (pending w) as [|t l] eqn:E; intros [= <-]. simpl. rewrite E. simpl.
  destruct (Hfits t) as [a ->]. by eexists.
Qed.

Lemma oldest_first_None reply w : oldest_first reply w = None → pending w = [].
Proof. unfold oldest_first. by destruct (pending w). Qed.

(** ** Theorems *)

(** C5.  Termination of the callback loop: from any world, a browser that
    runs the oldest pending callback first, with whatever reply fits it,
    empties the queue; the load of the world is enough fuel, and no more
    callbacks than that are run. *)
Theorem callbacks_run_out reply w :
  fits reply →
  ∃ w', exec_events (M:=front_machine)
          (schedule (M:=front_machine) (oldest_first reply) (load w) w) w = Some w'
        ∧ pending w' = []
        ∧ length (schedule (M:=front_machine) (oldest_first reply) (load w) w) ≤ load w.
Proof.
  intros Hfits.
  destruct (schedule_ends (M:=front_machine) load by_browser load_browser_step
              (oldest_first reply) (oldest_first_quiet reply)
              (λ s e, oldest_first_enabled reply s e Hfits) (load w) w)
    as (w' & Hrun & Hnext & Hq); [done|].
  exists w'. split_and!; [done|by eapply oldest_first_None|].
  pose proof (exec_events_measure (M:=front_machine) load by_browser
                load_browser_step _ _ _ Hq Hrun). lia.
Qed.

(** Without the user the page runs at most [load w] callbacks: a run
    of browser events from [w], in any order and with any replies, is no
    longer than the load of [w], and what it leaves pending weighs that
    much less. *)
Theorem browser_run_bounded es w w' :
  Forall by_browser es → exec_events (M:=front_machine) es w = Some w' →
  length es + load w' ≤ load w.
Proof. apply (exec_events_measure (M:=front_machine)), load_browser_step. Qed.

(** C20.  No click starts more than six callbacks: over any run from the
    opening of the page, the callbacks run and the load left are at most
    six times the method calls made. *)
Theorem callbacks_per_call es w :
  exec_events (M:=front_machine) es new_World = Some w →
  callbacks es + load w ≤ 6 * calls es.
Proof.
  intros Hrun.
  pose proof (exec_events_potential (M:=front_machine) load callbacks_run
                (λ e, 6 * calls_made e) load_step es new_World w Hrun) as H.
  rewrite list_sum_fmap_mul in H. unfold callbacks, calls.
  by rewrite Nat.add_0_l in H.
Qed.
