(* ===== verification/FrontWire.v ===== *)
(** * FrontWire: what the feedback request carries

    [requestFeedback] sends the analysis of the face in the [facial]
    field of its form: the stored string as it is, or the JSON text of
    the stored value ([{}] in place of a falsy one; front.component.ts,
    lines 210-216).  The stored value is the body the [analyze_video]
    request returned, read by [HttpClient] with [JSON.parse], the string
    of the error branch (line 181), or [null] (lines 14, 133, 324).

    As long as the bodies delivered are well-formed (every body a reader
    returns is, [JsonText.parse_wf]), the field of every feedback request
    in flight is read back by [JSON.parse] as the value the page held.
    The encoding is not injective, though: a stored string and a stored
    value with that text are sent as the same field. *)

From S2P Require Import Prelude JsString JsValue JsonText Action Machine Http Front FrontProps FrontMachine.

(** ** Definitions *)

(** The analysis bodies the browser delivers are well-formed. *)
Definition wf_bodies (w : World) (e : front_event) : Prop :=
  match e with
  | Browser _ (HttpNext (RFacial v)) => wf_json v = true
  | _ => True
  end.

(** The request of a waiting feedback observer was built from a
    well-formed analysis. *)
Definition wire_ok (t : task) : Prop :=
  match t with
  | Http rq ObsFeedback =>
      ∃ tr v, rq = feedback_request tr v ∧ wf_json v = true
  | _ => True
  end.

(** The stored analysis is well-formed, and so was the one of each
    feedback request in flight. *)
Definition facial_ok (w : World) : Prop :=
  wf_json (facialResult (this w)) = true ∧ Forall wire_ok (pending w).

(** What the receiver reads in the [facial] field built from [v]. *)
Definition facial_read (v : json) (text : string) : Prop :=
  match v with
  | JStr s => text = s
  | _ => parse text = Some (or_else v (JObj []))
  end.

(** ** The invariant *)

Lemma facial_ok_step w e w' :
  facial_ok w → wf_bodies w e → front_step e w = Some w' → facial_ok w'.
Proof.
  unfold facial_ok. intros [H1 H2] Hok Hstep. step_cases Hstep; exec_specs;
    (split; [done|]);
    rewrite ?Forall_snoc; repeat split; auto using Forall_delete_sub;
    simpl; eauto.
Qed.

Lemma facial_ok_reachable : invariant_by front_machine wf_bodies facial_ok.
Proof.
  apply inductive_invariant. split; [by split; [|constructor]|].
  apply facial_ok_step.
Qed.

(** ** Theorems *)

(** C18.  As long as the analysis bodies delivered are well-formed JSON
    values, the [facial] field of every feedback request in flight was
    built from a well-formed value [v], and what [JSON.parse] reads in it
    is [v] again, or [{}] for a falsy [v]; a string [v] is sent as it
    is. *)
Theorem feedback_facial_read_back w rq :
  reachable_by front_machine wf_bodies w →
  Http rq ObsFeedback ∈ pending w →
  ∃ v text, form_get "facial" (req_form rq) = Some (facial_field v)
            ∧ field_text (facial_field v) = Some text ∧ facial_read v text.
Proof.
  intros [_ Hw]%facial_ok_reachable Hin.
  rewrite Forall_forall in Hw. destruct (Hw _ Hin) as (tr & v & -> & Hwf).
  pose proof (facial_field_read_back v Hwf) as Hread.
  exists v. destruct v; simpl in *; eauto.
Qed.

(** The field does not tell a stored string from a stored value with
    that text: an analysis that is the string ["[1]"] and one that is the
    array [[1]] are sent as the same field. *)
Theorem facial_text_ambiguous :
  JStr "[1]" ≠ JArr [JNum "1"] ∧
  field_text (facial_field (JStr "[1]")) = field_text (facial_field (JArr [JNum "1"])).
Proof. done. Qed.

(** Among the values that are not strings and not falsy the field is
    injective. *)
Theorem facial_text_injective v1 v2 :
  wf_json v1 = true → wf_json v2 = true →
  is_object v1 = true → is_object v2 = true →
  field_text (facial_field v1) = field_text (facial_field v2) → v1 = v2.
Proof.
  intros Hwf1 Hwf2 [[l1 ->]|[l1 ->]]%is_object_spec [[l2 ->]|[l2 ->]]%is_object_spec;
    intros H; (apply stringify_inj; [done|done|]);
    exact (Some_inj _ _ H).
Qed.
