(* ===== verification/FrontInvariants.v ===== *)
(** * FrontInvariants: what holds in every world the interview page reaches

    The invariants of [FrontMachine.front_machine]: they hold in every
    reachable world, for every order in which the browser delivers
    responses and every order in which the user clicks.  Two of them need
    an assumption on the backend, stated as a restriction of the events
    ([no_null_upload], [questions_succeed]); the runs of
    [FrontScenarios] show that they fail without it. *)

From S2P Require Import Prelude JsString JsValue Action Machine Http Front FrontProps FrontMachine.

(** ** Definitions *)

(** Some pending callback satisfies [P]. *)
Definition waiting (P : task → Prop) (w : World) : Prop := Exists P (pending w).

(** The callbacks that end with [questionPlaying] lowered: the observer of
    the question's speech request, then the end of its playback. *)
Definition question_speech (t : task) : Prop :=
  match t with
  | Http _ ObsQuestionSpeech | Playing QuestionAudio => True
  | _ => False
  end.

(** The callbacks that end with [feedbackPlaying] lowered. *)
Definition feedback_speech (t : task) : Prop :=
  match t with
  | Http _ ObsFeedbackSpeech | Playing FeedbackAudio => True
  | _ => False
  end.

(** The callbacks that lower [feedbackLoading]. *)
Definition feedback_reply (t : task) : Prop :=
  match t with
  | Http _ ObsFeedback => True
  | _ => False
  end.

(** The callbacks on the way to lowering [cvUploading]. *)
Definition upload_reply (t : task) : Prop :=
  match t with
  | Http _ ObsSummarize | Http _ ObsQuestions => True
  | _ => False
  end.

(** Every raised flag has a callback that will lower it. *)
Record flags_ok (w : World) : Prop := {
  question_playing_waits :
    questionPlaying (this w) = true → waiting question_speech w;
  feedback_loading_waits :
    feedbackLoading (this w) = true → waiting feedback_reply w;
  feedback_playing_waits :
    feedbackPlaying (this w) = true → waiting feedback_speech w;
}.

(** [cvUploading] has a callback that will lower it. *)
Definition upload_ok (w : World) : Prop :=
  cvUploading (this w) = true → waiting upload_reply w.

(** The recorder objects and the component agree. *)
Record recorders_ok (w : World) : Prop := {
  (** the current recorder exists *)
  recorder_in_range r :
    mediaRecorder (this w) = Some r → r < length (recorders w);
  (** [recording] is raised only while the current recorder records *)
  recording_current :
    recording (this w) = true →
    ∃ r m, mediaRecorder (this w) = Some r ∧ recorders w !! r = Some m
           ∧ rec_state m = Recording;
  (** a queued stop finds an inactive recorder with its stop handler *)
  stop_has_handler r :
    RecorderStop r ∈ pending w →
    ∃ m, recorders w !! r = Some m ∧ rec_state m = Inactive
         ∧ rec_onstop m = true;
  (** every recorder has its data handler *)
  data_handlers :
    Forall (λ m, rec_ondataavailable m = true) (recorders w);
}.

(** The index is 0 or designates a question. *)
Definition index_ok (w : World) : Prop :=
  currentQuestionIndex (this w) = 0
  ∨ currentQuestionIndex (this w) < length (generatedQuestions (this w)).

(** The request of a pending observer is the one its call site builds. *)
Definition task_ok (t : task) : Prop :=
  match t with
  | Http rq ObsSummarize => ∃ f, rq = summarize_request f
  | Http rq ObsQuestions => ∃ s, rq = questions_request s
  | Http rq ObsQuestionSpeech => ∃ q, rq = tts_request q
  | Http rq (ObsAnalyze blob) => rq = analyze_request blob
  | Http rq (ObsTranscribe | ObsTranscribeAnyway) =>
      ∃ blob, rq = transcribe_request blob
  | Http rq ObsFeedback => ∃ t v, rq = feedback_request t v
  | Http rq ObsFeedbackSpeech =>
      ∃ t, rq = tts_request t ∧ truthy_string t = true
  | _ => True
  end.

Definition requests_ok (w : World) : Prop := Forall task_ok (pending w).

(** The feedback shown is never the empty string. *)
Definition feedback_ok (w : World) : Prop :=
  ∀ s, feedbackText (this w) = Some s → truthy_string s = true.

(** The interview is finished only on the last question. *)
Definition finished_ok (w : World) : Prop :=
  interviewFinished (this w) = true →
  length (generatedQuestions (this w)) ≤ S (currentQuestionIndex (this w)).

(** The environment never answers the two upload requests with a [null]
    body. *)
Definition no_null_upload (w : World) (e : front_event) : Prop :=
  match e with
  | Browser _ (HttpNext (RSummary None))
  | Browser _ (HttpNext (RQuestions None)) => False
  | _ => True
  end.

(** The question request never fails. *)
Definition questions_succeed (w : World) (e : front_event) : Prop :=
  match e with
  | Browser i HttpError =>
      ∀ rq, pending w !! i ≠ Some (Http rq ObsQuestions)
  | _ => True
  end.

(** ** Frame lemmas for [waiting] *)

Lemma waiting_add_task P t w : waiting P (add_task t w) ↔ waiting P w ∨ P t.
Proof. apply Exists_snoc. Qed.

Lemma waiting_upd P f w : waiting P (upd f w) ↔ waiting P w.
Proof. done. Qed.

Lemma waiting_add_recorder P m w : waiting P (add_recorder m w) ↔ waiting P w.
Proof. done. Qed.

Lemma waiting_alter_recorder P f r w :
  waiting P (alter_recorder f r w) ↔ waiting P w.
Proof. done. Qed.

(** Running a callback that [P] does not describe leaves the ones that
    [P] describes. *)
Lemma waiting_remove_task P i t w :
  pending w !! i = Some t → ¬ P t → waiting P w → waiting P (remove_task i w).
Proof. apply Exists_delete_other. Qed.

#[export] Hint Rewrite waiting_add_task waiting_upd waiting_add_recorder
  waiting_alter_recorder : front.

(** A goal [waiting P w'] where [w'] is the world of a case: the callback
    that satisfies [P] is the one just registered, or one that was
    waiting before and is not the one that ran. *)
Ltac solve_waiting :=
  unfold waiting in *; simpl;
  rewrite ?Exists_app, ?Exists_cons, ?Exists_nil;
  first
    [ by auto
    | right; simpl; by auto
    | left; by auto
    | eapply Exists_delete_other; [eassumption|simpl; tauto|by auto]
    | left; eapply Exists_delete_other; [eassumption|simpl; tauto|by auto] ].

(** ** Flags *)

Lemma flags_ok_initial : flags_ok new_World.
Proof. by split. Qed.

Lemma flags_ok_step w e w' : flags_ok w → front_step e w = Some w' → flags_ok w'.
Proof.
  intros [H1 H2 H3] Hstep. step_cases Hstep; exec_specs;
    split; simpl; intros Hflag; try discriminate; solve_waiting.
Qed.

(** The speech fallback that line 266 leaves commented out would keep
    the flags sound: with a synthesiser that speaks, the utterance waits
    and will lower [feedbackPlaying]; without one, or when it throws, the
    flag stays as it is or is lowered. *)
Lemma flags_ok_webspeech synth text w :
  flags_ok w → flags_ok (exec (playFeedbackWithWebSpeech synth text) w).
Proof.
  intros [H1 H2 H3]. destruct synth as [[]|]; split; simpl; intros Hflag;
    try discriminate; solve_waiting.
Qed.

Lemma flags_ok_reachable : invariant front_machine flags_ok.
Proof.
  apply inductive_invariant. split; [apply flags_ok_initial|].
  intros s e s' Hs _. by apply flags_ok_step.
Qed.

(** The bounds that list lookups of the context give. *)
Ltac lookup_bounds :=
  repeat match goal with
  | H : _ !! _ = None |- _ => apply lookup_ge_None in H
  | H : _ !! _ = Some _ |- _ => apply lookup_lt_Some in H
  end.

(** ** The upload flag *)

Lemma upload_ok_step w e w' :
  upload_ok w → no_null_upload w e → front_step e w = Some w' → upload_ok w'.
Proof.
  unfold upload_ok. intros H1 Hok Hstep. step_cases Hstep; exec_specs;
    try done; intros Hflag; try discriminate; solve_waiting.
Qed.

(** C11.  As long as no upload request is answered with a [null] body, a
    raised [cvUploading] has a pending upload callback: the spinner
    cannot stay up with nothing in flight. *)
Theorem upload_ok_invariant : invariant_by front_machine no_null_upload upload_ok.
Proof.
  apply inductive_invariant. split; [done|]. apply upload_ok_step.
Qed.

(** ** The feedback text *)

Lemma feedback_ok_step w e w' :
  feedback_ok w → front_step e w = Some w' → feedback_ok w'.
Proof.
  unfold feedback_ok. intros H1 Hstep. step_cases Hstep; exec_specs;
    intros txt Htxt; simplify_eq;
    auto using feedback_text_truthy, fallback_truthy, or_string_truthy.
Qed.

Lemma feedback_ok_reachable : invariant front_machine feedback_ok.
Proof.
  apply inductive_invariant. split; [done|].
  intros s e s' Hs _. by apply feedback_ok_step.
Qed.

(** ** The end of the interview *)

Lemma finished_ok_step w e w' :
  finished_ok w → front_step e w = Some w' → finished_ok w'.
Proof.
  unfold finished_ok. intros H1 Hstep. step_cases Hstep; exec_specs;
    intros Hs; try discriminate; auto; lookup_bounds; simpl in *; try lia.
  all: specialize (H1 Hs); lia.
Qed.

(** C13.  [interviewFinished] is raised only while the index is on the
    last question (or there is no question): the page never announces
    the end with questions left. *)
Theorem finished_ok_invariant : invariant front_machine finished_ok.
Proof.
  apply inductive_invariant. split; [done|].
  intros s e s' Hs _. by apply finished_ok_step.
Qed.

(** ** The index *)

Lemma index_ok_step w e w' :
  index_ok w → questions_succeed w e → front_step e w = Some w' → index_ok w'.
Proof.
  unfold index_ok. intros H1 Hok Hstep. step_cases Hstep; exec_specs;
    try (by edestruct Hok); lookup_bounds; simpl in *; auto; lia.
Qed.

(** C12.  As long as the question request does not fail, the index is 0
    or designates a question of the list. *)
Theorem index_ok_invariant :
  invariant_by front_machine questions_succeed index_ok.
Proof.
  apply inductive_invariant. split; [by left|]. apply index_ok_step.
Qed.

(** ** Recorders *)

Lemma recorders_ok_frame w w' :
  recorders_ok w →
  mediaRecorder (this w') = mediaRecorder (this w) →
  (recording (this w') = true → recording (this w) = true) →
  recorders w' = recorders w →
  (∀ r, RecorderStop r ∈ pending w' → RecorderStop r ∈ pending w) →
  recorders_ok w'.
Proof.
  intros [H1 H2 H3 H4] Hm Hr Hrs Hp.
  split; rewrite ?Hm, ?Hrs; auto.
Qed.

(** A change of one recorder that keeps it inactive and keeps its stop
    handler keeps what a queued stop needs. *)
Lemma stop_handler_alter (f : MediaRecorder → MediaRecorder) r r0
    (l : list MediaRecorder) :
  (∀ m, rec_onstop m = true → rec_onstop (f m) = true) →
  (∀ m, rec_state m = Inactive → rec_state (f m) = Inactive) →
  (∃ m, l !! r0 = Some m ∧ rec_state m = Inactive ∧ rec_onstop m = true) →
  ∃ m, alter f r l !! r0 = Some m ∧ rec_state m = Inactive ∧ rec_onstop m = true.
Proof.
  intros Hon Hst (m & Hm & ? & ?).
  destruct (decide (r = r0)) as [->|Hne].
  - rewrite list_lookup_alter_eq, Hm. simpl. exists (f m). auto.
  - rewrite list_lookup_alter_ne by done. exists m. auto.
Qed.

Lemma recorders_ok_stop w r m :
  recorders_ok w →
  recorders w !! r = Some m →
  recorders_ok
    (alter_recorder set_rec_onstop r
       (upd (set_recording false)
          (add_task (RecorderStop r)
             (alter_recorder (set_rec_state Inactive) r w)))).
Proof.
  intros [H1 H2 H3 H4] Hr. split; simpl.
  - intros r0 ?. rewrite !length_alter. auto.
  - done.
  - intros r0 [Hin|[= ->]%list_elem_of_singleton]%elem_of_app.
    + do 2 (apply stop_handler_alter; [by intros []..|]); auto.
    + rewrite !list_lookup_alter_eq, Hr. simpl. by eexists.
  - apply Forall_alter; [apply Forall_alter; [done|]|]; by intros [].
Qed.

Lemma recorders_ok_stop_again w r :
  recorders_ok w →
  recorders_ok (alter_recorder set_rec_onstop r (upd (set_recording false) w)).
Proof.
  intros [H1 H2 H3 H4]. split; simpl.
  - intros r0 ?. rewrite !length_alter. auto.
  - done.
  - intros r0 Hin. apply stop_handler_alter; [by intros []..|]; auto.
  - apply Forall_alter; [done|]; by intros [].
Qed.

Lemma recorders_ok_started w :
  recorders_ok w → recorders_ok (recording_started w).
Proof.
  intros [H1 H2 H3 H4].
  split; rewrite ?recording_started_recorders.
  - simpl. intros r [= <-]. rewrite length_app. simpl. lia.
  - intros _. eexists _, _. split; [done|].
    by rewrite lookup_app_r, Nat.sub_diag.
  - simpl. intros r0 Hin. destruct (H3 r0 Hin) as (m0 & Hm0 & Hst & Hon).
    pose proof (lookup_lt_Some _ _ _ Hm0).
    rewrite lookup_app_l by lia. by eexists.
  - apply Forall_app. split; [done|]. by repeat constructor.
Qed.

(** The callbacks of a case are those that were pending, less the one
    that ran, plus the ones the handler registered. *)
Ltac frame_pending :=
  simpl; intros ?; rewrite ?elem_of_app, ?list_elem_of_singleton;
  intros; destruct_or?; simplify_eq; eauto using elem_of_delete_sub.

Lemma recorders_ok_step w e w' :
  recorders_ok w → front_step e w = Some w' → recorders_ok w'.
Proof.
  intros Hok Hstep. step_cases Hstep; exec_specs;
    first
      [ by eapply (recorders_ok_frame _ _ Hok); [done|done|done|frame_pending]
      | apply recorders_ok_started;
        by eapply (recorders_ok_frame _ _ Hok); [done|done|done|frame_pending]
      | by eauto using recorders_ok_stop, recorders_ok_stop_again ].
Qed.

Lemma recorders_ok_reachable : invariant front_machine recorders_ok.
Proof.
  apply inductive_invariant. split.
  - split; simpl; [done|done|by intros ? ?%elem_of_nil|done].
  - intros s e s' Hs _. by apply recorders_ok_step.
Qed.

(** ** Requests *)

Lemma requests_ok_step w e w' :
  requests_ok w → front_step e w = Some w' → requests_ok w'.
Proof.
  unfold requests_ok. intros H1 Hstep. step_cases Hstep; exec_specs;
    rewrite ?Forall_snoc; repeat split; auto using Forall_delete_sub;
    simpl; eauto using feedback_text_truthy, fallback_truthy, or_string_truthy.
Qed.

Lemma requests_ok_reachable : invariant front_machine requests_ok.
Proof.
  apply inductive_invariant. split; [by constructor|].
  intros s e s' Hs _. by apply requests_ok_step.
Qed.

(** ** What holds in every reachable world *)

(** C2.  In every world the page can reach, whatever the order of the
    clicks and of the responses, a raised [questionPlaying],
    [feedbackLoading] or [feedbackPlaying] has a pending callback that
    lowers it: the speech request or the playback for the two playing
    flags, the feedback request for the loading flag. *)
Theorem raised_flag_has_callback w :
  reachable front_machine w →
  (questionPlaying (this w) = true →
     ∃ i t, pending w !! i = Some t ∧ question_speech t) ∧
  (feedbackLoading (this w) = true →
     ∃ i t, pending w !! i = Some t ∧ feedback_reply t) ∧
  (feedbackPlaying (this w) = true →
     ∃ i t, pending w !! i = Some t ∧ feedback_speech t).
Proof.
  intros [H1 H2 H3]%flags_ok_reachable.
  repeat split; intros Hflag;
    [apply H1 in Hflag|apply H2 in Hflag|apply H3 in Hflag];
    apply Exists_exists in Hflag as (t & [i Hi]%list_elem_of_lookup_1 & Ht);
    eauto.
Qed.

(** When nothing is pending, nothing is playing or loading. *)
Theorem quiescent_idle w :
  reachable front_machine w →
  pending w = [] →
  questionPlaying (this w) = false ∧ feedbackLoading (this w) = false
  ∧ feedbackPlaying (this w) = false.
Proof.
  intros [H1 H2 H3]%flags_ok_reachable Hp. unfold waiting in *.
  rewrite Hp in *. repeat split; apply not_true_is_false; intros Hflag;
    [apply H1 in Hflag|apply H2 in Hflag|apply H3 in Hflag];
    by apply Exists_nil in Hflag.
Qed.

(** C4.  [recording] is raised only while the recorder the component
    holds is recording. *)
Theorem recording_flag_sound w :
  reachable front_machine w →
  recording (this w) = true →
  ∃ r m, mediaRecorder (this w) = Some r ∧ recorders w !! r = Some m
         ∧ rec_state m = Recording.
Proof. intros Hw%recorders_ok_reachable. apply Hw. Qed.

(** C3.  The task queued by [stop()] always finds the [onstop] handler
    that line 146 assigns after the call, and the data handler: when it
    runs, the data joins the chunks and the recording is posted to
    [analyze_video]. *)
Theorem stop_always_uploads w i r data :
  reachable front_machine w →
  pending w !! i = Some (RecorderStop r) →
  front_step (Browser i (RecorderStopped data)) w
  = Some (recording_uploaded data (remove_task i w)).
Proof.
  intros [_ _ H3 H4]%recorders_ok_reachable Hi.
  destruct (H3 r) as (m & Hm & Hst & Hon); [by eapply list_elem_of_lookup_2|].
  pose proof (Forall_lookup_1 _ _ _ _ H4 Hm) as Hdata. simpl in Hdata.
  unfold front_step. simpl. rewrite Hi. simpl. f_equal.
  unfold exec. rewrite recorder_stopped_run. simpl. rewrite Hm, Hdata, Hon.
  unfold recording_uploaded, chunks_after. simpl. done.
Qed.

(** C35.  The feedback the page shows is never the empty string: every
    text stored in [feedbackText] is spoken. *)
Theorem feedback_text_never_empty w s :
  reachable front_machine w → feedbackText (this w) = Some s → s ≠ "".
Proof.
  intros Hw%feedback_ok_reachable Hs ->. by apply Hw in Hs.
Qed.

(** C36.  Every request in flight goes to the interview backend and is
    the one its call site builds; every question request carries the
    key compiled into the page, whoever uses it. *)
Theorem requests_go_to_backend w rq obs :
  reachable front_machine w →
  Http rq obs ∈ pending w →
  String.prefix backend (req_url rq) = true ∧
  (obs = ObsQuestions →
     form_get "api_key" (req_form rq) = Some (FText api_key)).
Proof.
  intros Hw%requests_ok_reachable Hin. unfold requests_ok in Hw.
  rewrite Forall_forall in Hw. apply Hw in Hin.
  destruct obs; simpl in Hin; destruct_all; subst; split; done.
Qed.
