(* ===== verification/FrontDefects.v ===== *)
(** * FrontDefects: what the interview page never undoes

    The defects of [FrontComponent], each stated for every world and
    every run rather than for one run: a recorder is stopped by
    [stopRecording] only, so every grant of the camera that no stop
    answers leaves one more recorder recording; a failed question
    request keeps the index and the question of the interview before; a
    [null] body in answer to an upload request leaves [cvUploading]
    raised until another CV is chosen.  [FrontScenarios] holds a run
    that reaches each of them. *)

From S2P Require Import Prelude JsString JsValue Action Machine Http Front FrontProps FrontMachine FrontInvariants.

(** ** Definitions *)

(** One for a recorder that records. *)
Definition live (m : MediaRecorder) : nat :=
  match rec_state m with
  | Recording => 1
  | Inactive => 0
  end.

(** The number of recorders that are recording. *)
Definition live_recorders (w : World) : nat := list_sum (live <$> recorders w).

(** One for a grant of the camera with the preview element in the
    document. *)
Definition granted (e : front_event) : nat :=
  match e with
  | Browser _ (MediaGranted true) => 1
  | _ => 0
  end.

(** One for a call of [stopRecording]. *)
Definition stops (e : front_event) : nat :=
  match e with
  | User (CallStopRecording _) => 1
  | _ => 0
  end.

(** The user chooses a CV. *)
Definition selects (e : front_event) : bool :=
  match e with
  | User (SelectCV (Some _)) => true
  | _ => false
  end.

(** [cvUploading] is raised and no callback waits that would lower it. *)
Definition upload_stuck (w : World) : Prop :=
  cvUploading (this w) = true ∧ ¬ waiting upload_reply w.

(** The [null] body of the endpoint an upload observer waits for. *)
Definition null_body (obs : observer) : option response :=
  match obs with
  | ObsSummarize => Some (RSummary None)
  | ObsQuestions => Some (RQuestions None)
  | _ => None
  end.

(** ** Recorders *)

Lemma live_alter f r l m :
  l !! r = Some m →
  list_sum (live <$> alter f r l) + live m = list_sum (live <$> l) + live (f m).
Proof.
  revert r; induction l as [|x l IH]; intros [|r]; try done.
  - intros [= ->]. csimpl. lia.
  - intros Hr. specialize (IH _ Hr). csimpl in *. lia.
Qed.

Lemma live_alter_same f r l :
  (∀ m, live (f m) = live m) →
  list_sum (live <$> alter f r l) = list_sum (live <$> l).
Proof.
  intros Hf. revert r; induction l as [|x l IH]; intros [|r]; csimpl;
    by rewrite ?Hf, ?IH.
Qed.

(** Stopping a recorder that records leaves one less. *)
Lemma live_alter_stop r l m :
  l !! r = Some m → rec_state m = Recording →
  S (list_sum (live <$> alter (set_rec_state Inactive) r l))
  = list_sum (live <$> l).
Proof.
  intros Hr Hm. pose proof (live_alter (set_rec_state Inactive) r l m Hr) as Hl.
  replace (live m) with 1 in Hl by (unfold live; by rewrite Hm).
  replace (live (set_rec_state Inactive m)) with 0 in Hl by done. lia.
Qed.

(** The recorder [startRecording] creates is one more that records. *)
Lemma live_recording_started w :
  live_recorders (recording_started w) = S (live_recorders w).
Proof.
  unfold live_recorders, recording_started, alter_recorder, add_recorder. simpl.
  rewrite !alter_app_r_alt by done. rewrite Nat.sub_diag. simpl.
  rewrite fmap_app, list_sum_app. simpl. lia.
Qed.

(** A step changes the number of recorders that record by the grant it
    is, less at most the stop it is. *)
Lemma live_step e w w' :
  front_step e w = Some w' →
  live_recorders w + granted e ≤ live_recorders w' + stops e ∧
  live_recorders w' ≤ live_recorders w + granted e.
Proof.
  intros Hstep. step_cases Hstep; exec_specs;
    rewrite ?live_recording_started; unfold live_recorders; simpl;
    rewrite ?live_alter_same by done; try lia.
  match goal with
  | Hr : recorders w !! _ = Some _, Hm : rec_state _ = Recording |- _ =>
      pose proof (live_alter_stop _ _ _ Hr Hm)
  end. lia.
Qed.

(** ** The upload flag *)

Lemma waiting_lookup P i t w : pending w !! i = Some t → P t → waiting P w.
Proof. intros Hi Ht. apply Exists_exists. eauto using list_elem_of_lookup_2. Qed.

Lemma upload_stuck_step e w w' :
  upload_stuck w → selects e = false → front_step e w = Some w' →
  upload_stuck w'.
Proof.
  intros [Hflag Hnone] He Hstep.
  step_cases Hstep; exec_specs; try discriminate He;
    try (by destruct Hnone; eapply waiting_lookup);
    (split; [done|]); unfold waiting in *; simpl;
    rewrite ?Exists_app, ?Exists_cons, ?Exists_nil; simpl;
    first [tauto | by intros ?%Exists_delete_sub
          | intros [?%Exists_delete_sub|?]; tauto].
Qed.

Lemma upload_stuck_run es w w' :
  upload_stuck w → Forall (λ e, selects e = false) es →
  exec_events (M:=front_machine) es w = Some w' → upload_stuck w'.
Proof.
  intros Hw Hes; revert w Hw; induction Hes as [|e es He Hes IH];
    intros w Hw; simpl.
  - by intros [= <-].
  - destruct (front_step e w) as [w1|] eqn:E; [|done].
    eauto using upload_stuck_step.
Qed.

(** ** Headline properties *)

(** C17.  Recorders are stopped by [stopRecording] and by nothing else:
    over any run, from any world, the recorders that record at the end
    are at least those that recorded at the start plus the grants of the
    camera less the calls of [stopRecording], and at most those at the
    start plus the grants.  A run with two grants and no stop, such as a
    [nextQuestion] during an answer, ends with two more recorders
    recording than it started with. *)
Theorem recorders_leak es w w' :
  exec_events (M:=front_machine) es w = Some w' →
  live_recorders w + list_sum (granted <$> es)
  ≤ live_recorders w' + list_sum (stops <$> es) ∧
  live_recorders w' ≤ live_recorders w + list_sum (granted <$> es).
Proof.
  revert w; induction es as [|e es IH]; intros w; csimpl.
  - intros [= <-]. lia.
  - destruct (front_step e w) as [w1|] eqn:E; [|done]. intros Hrun.
    specialize (IH _ Hrun). apply live_step in E. lia.
Qed.

(** C30.  Whenever the question request fails, in whatever world, the
    list becomes the one placeholder text while the index, the question
    shown and [interviewFinished] stay those of the interview before.
    After an advance the index is then past the end of the list: the
    index invariant fails and [playCurrentQuestion] does nothing. *)
Theorem questions_error_keeps_index w i rq :
  pending w !! i = Some (Http rq ObsQuestions) →
  ∃ w', front_step (Browser i HttpError) w = Some w' ∧
    generatedQuestions (this w') = ["Error generating questions"] ∧
    currentQuestionIndex (this w') = currentQuestionIndex (this w) ∧
    currentQuestion (this w') = currentQuestion (this w) ∧
    interviewFinished (this w') = interviewFinished (this w) ∧
    (0 < currentQuestionIndex (this w) →
       ¬ index_ok w' ∧ run playCurrentQuestion w' = (Normal tt, w')).
Proof.
  intros Hi. eexists. unfold front_step. simpl. rewrite Hi. simpl.
  split; [done|]. split_and!; [done..|]. intros Hpos. split.
  - unfold index_ok. simpl. lia.
  - rewrite playCurrentQuestion_run. simpl.
    by destruct (currentQuestionIndex (this w)); [lia|].
Qed.

(** C28.  A [null] body in answer to an upload request, when no other
    upload callback waits, throws in the callback and leaves
    [cvUploading] raised with no callback that would lower it; whatever
    the browser delivers and whatever the user does afterwards, short of
    choosing another CV, the flag stays raised. *)
Theorem null_upload_sticks w i rq obs res :
  pending w !! i = Some (Http rq obs) → null_body obs = Some res →
  cvUploading (this w) = true →
  ¬ Exists upload_reply (delete i (pending w)) →
  ∃ w1, front_step (Browser i (HttpNext res)) w = Some w1 ∧
    front_outcome (Browser i (HttpNext res)) w = Some (Throw TypeError) ∧
    ∀ es w', Forall (λ e, selects e = false) es →
      exec_events (M:=front_machine) es w1 = Some w' →
      cvUploading (this w') = true ∧ ¬ waiting upload_reply w'.
Proof.
  intros Hi Hres Hflag Hnone. exists (remove_task i w).
  assert (front_step (Browser i (HttpNext res)) w = Some (remove_task i w)
          ∧ front_outcome (Browser i (HttpNext res)) w = Some (Throw TypeError))
    as [Hstep Hout].
  { unfold front_step, front_outcome. simpl. rewrite Hi.
    by destruct obs; simplify_eq/=. }
  split; [done|]. split; [done|]. intros es w'. by apply upload_stuck_run.
Qed.
