(* ===== verification/FrontRefinement.v ===== *)
(** * FrontRefinement: the interview page implements a sequential pipeline

    The abstract machine [interview_machine] is the interview as a user
    who waits for the page sees it: one phase at a time, from the upload
    of the CV through the question, the recording and the analysis to
    the spoken feedback.  Its state is the phase, the position in the
    list of questions, the number of questions and whether a feedback is
    shown; it knows nothing of texts, blobs and requests.

    [disciplined] describes that user and the backend the page was
    written for: methods are called only while nothing is pending and
    nothing is recorded ([stopRecording] only while recording), no body
    is [null] where the page reads a property of it, and the preview
    element exists.

    [front_refines_interview] is the simulation: on disciplined runs
    every step of [front_machine] is the step of [interview_machine] on
    the abstract event, through [view].  The invariants of the abstract
    machine then hold of the page: one callback at a time, one recorder
    at a time, each flag raised in its phases only. *)

From S2P Require Import Prelude JsString JsValue Action Machine Http Front FrontProps FrontMachine FrontInvariants.

(** ** The abstract machine *)

(** The phases of an interview.  In [PQuiet] the page waits for the
    user; in [PRecording] it waits for [stopRecording]; in every other
    phase it waits for the browser. *)
Inductive phase : Type :=
| PQuiet
| PSummarizing
| PGenerating
| PQuestionSpeech
| PQuestionAudio
| PCamera
| PRecording
| PStopping
| PAnalyzing
| PTranscribing
| PFeedback
| PFeedbackSpeech
| PFeedbackAudio.

Record Interview : Type := {
  current : phase;
  position : nat;
  count : nat;
  has_feedback : bool;
}.

(** What happens, without its data. *)
Inductive interview_event : Type :=
| AUpload
| APlayQuestion
| AStartRecording
| AStop
| APlayFeedback
| ANext
| ASummary
| AQuestions (n : nat)
| ASpeech
| AFacial
| ATranscript
| AAdvice
| AFailure
| AEnded
| AGranted
| ARejected
| AFired.

(** The interview in phase [p], the rest unchanged. *)
Definition goto (p : phase) (a : Interview) : Interview :=
  {| current := p; position := position a; count := count a;
     has_feedback := has_feedback a |}.

(** The interview in phase [p] with the feedback withdrawn or shown. *)
Definition goto_with (p : phase) (adv : bool) (a : Interview) : Interview :=
  {| current := p; position := position a; count := count a;
     has_feedback := adv |}.

(** The pipeline.  [None]: the event does not occur in this phase. *)
Definition interview_step (e : interview_event) (a : Interview) : option Interview :=
  match current a, e with
  | PQuiet, AUpload => Some (goto PSummarizing a)
  | PQuiet, APlayQuestion =>
      Some (if position a <? count a then goto PQuestionSpeech a else a)
  | PQuiet, AStartRecording => Some (goto PCamera a)
  | PQuiet, APlayFeedback =>
      Some (if has_feedback a then goto PFeedbackSpeech a else a)
  | PQuiet, ANext =>
      Some (if S (position a) <? count a
            then {| current := PQuestionSpeech; position := S (position a);
                    count := count a; has_feedback := false |}
            else a)
  | PSummarizing, ASummary => Some (goto PGenerating a)
  | PSummarizing, AFailure => Some (goto PQuiet a)
  | PGenerating, AQuestions n =>
      Some {| current := if 0 <? n then PQuestionSpeech else PQuiet;
              position := 0; count := n; has_feedback := has_feedback a |}
  | PGenerating, AFailure =>
      Some {| current := PQuiet; position := position a; count := 1;
              has_feedback := has_feedback a |}
  | PQuestionSpeech, ASpeech => Some (goto PQuestionAudio a)
  | PQuestionSpeech, AFailure => Some (goto PCamera a)
  | PQuestionAudio, AEnded => Some (goto PCamera a)
  | PCamera, AGranted => Some (goto_with PRecording false a)
  | PCamera, ARejected => Some (goto PQuiet a)
  | PRecording, AStop => Some (goto PStopping a)
  | PStopping, AFired => Some (goto PAnalyzing a)
  | PAnalyzing, (AFacial | AFailure) => Some (goto PTranscribing a)
  | PTranscribing, (ATranscript | AFailure) => Some (goto_with PFeedback false a)
  | PFeedback, (AAdvice | AFailure) => Some (goto_with PFeedbackSpeech true a)
  | PFeedbackSpeech, ASpeech => Some (goto PFeedbackAudio a)
  | PFeedbackSpeech, AFailure => Some (goto PQuiet a)
  | PFeedbackAudio, AEnded => Some (goto PQuiet a)
  | _, _ => None
  end.

Definition new_Interview : Interview :=
  {| current := PQuiet; position := 0; count := 0; has_feedback := false |}.

#[export] Instance interview_machine : Machine :=
  {| state := Interview; event := interview_event;
     initial := new_Interview; step := interview_step |}.

(** ** From the page to the pipeline *)

(** The phase in which a callback is awaited. *)
Definition task_phase (t : task) : phase :=
  match t with
  | Http _ ObsSummarize => PSummarizing
  | Http _ ObsQuestions => PGenerating
  | Http _ ObsQuestionSpeech => PQuestionSpeech
  | Http _ (ObsAnalyze _) => PAnalyzing
  | Http _ (ObsTranscribe | ObsTranscribeAnyway) => PTranscribing
  | Http _ ObsFeedback => PFeedback
  | Http _ ObsFeedbackSpeech => PFeedbackSpeech
  | Playing QuestionAudio => PQuestionAudio
  | Playing FeedbackAudio => PFeedbackAudio
  | GetUserMedia => PCamera
  | RecorderStop _ => PStopping
  end.

(** The phase of a world: that of the oldest pending callback, and with
    none pending, recording or quiet. *)
Definition phase_of (w : World) : phase :=
  match pending w with
  | t :: _ => task_phase t
  | [] => if recording (this w) then PRecording else PQuiet
  end.

(** The interview a world shows. *)
Definition view (w : World) : Interview :=
  {| current := phase_of w;
     position := currentQuestionIndex (this w);
     count := length (generatedQuestions (this w));
     has_feedback := truthy_text (feedbackText (this w)) |}.

(** The abstract event of an event of the page.  Choosing no file is
    invisible. *)
Definition abs_event (e : front_event) : option interview_event :=
  match e with
  | User (SelectCV (Some _)) => Some AUpload
  | User (SelectCV None) => None
  | User CallPlayCurrentQuestion => Some APlayQuestion
  | User CallStartRecording => Some AStartRecording
  | User (CallStopRecording _) => Some AStop
  | User CallPlayFeedback => Some APlayFeedback
  | User CallNextQuestion => Some ANext
  | Browser _ (HttpNext (RSummary _)) => Some ASummary
  | Browser _ (HttpNext (RQuestions r)) =>
      Some (AQuestions (length (or_array (r ≫= questions) [])))
  | Browser _ (HttpNext (RSpeech _)) => Some ASpeech
  | Browser _ (HttpNext (RFacial _)) => Some AFacial
  | Browser _ (HttpNext (RTranscription _)) => Some ATranscript
  | Browser _ (HttpNext (RFeedback _)) => Some AAdvice
  | Browser _ HttpError => Some AFailure
  | Browser _ Ended => Some AEnded
  | Browser _ (MediaGranted _) => Some AGranted
  | Browser _ (MediaRejected _) => Some ARejected
  | Browser _ (RecorderStopped _) => Some AFired
  end.

(** The runs considered: the user calls a method only while the page is
    quiet, and [stopRecording] only while it records; no body is [null]
    where a property of it is read; the preview element exists. *)
Definition disciplined (w : World) (e : front_event) : Prop :=
  match e with
  | User (CallStopRecording _) => recording (this w) = true
  | User _ => pending w = [] ∧ recording (this w) = false
  | Browser _ (HttpNext (RSummary None))
  | Browser _ (HttpNext (RQuestions None))
  | Browser _ (HttpNext (RTranscription None))
  | Browser _ (MediaGranted false) => False
  | Browser _ _ => True
  end.

(** The flag each phase raises. *)
Definition uploading (p : phase) : bool :=
  match p with PSummarizing | PGenerating => true | _ => false end.

Definition asking (p : phase) : bool :=
  match p with PQuestionSpeech | PQuestionAudio => true | _ => false end.

Definition advising (p : phase) : bool :=
  match p with PFeedback => true | _ => false end.

Definition speaking (p : phase) : bool :=
  match p with PFeedbackSpeech | PFeedbackAudio => true | _ => false end.

Definition recording_in (p : phase) : bool :=
  match p with PRecording => true | _ => false end.

(** The callbacks pending in a phase: none while the page waits for the
    user, the one of the phase otherwise. *)
Definition awaits (p : phase) (l : list task) : Prop :=
  match l with
  | [] => p = PQuiet ∨ p = PRecording
  | [t] => p = task_phase t
  | _ => False
  end.

(** The refinement relation: the world [w] shows the interview [a].  The
    callback pending is the one of the phase (so there is at most one),
    the position, the number of questions and the presence of a feedback
    are those of the component, each flag is raised exactly in its
    phases, and a recorder records only in the recording phase, where it
    is the current one. *)
Record shows (w : World) (a : Interview) : Prop := {
  sh_pending : awaits (current a) (pending w);
  sh_position : position a = currentQuestionIndex (this w);
  sh_count : count a = length (generatedQuestions (this w));
  sh_feedback : has_feedback a = truthy_text (feedbackText (this w));
  sh_uploading : cvUploading (this w) = uploading (current a);
  sh_asking : questionPlaying (this w) = asking (current a);
  sh_advising : feedbackLoading (this w) = advising (current a);
  sh_speaking : feedbackPlaying (this w) = speaking (current a);
  sh_recording : recording (this w) = recording_in (current a);
  sh_live r m :
    recorders w !! r = Some m → rec_state m = Recording →
    recording (this w) = true ∧ mediaRecorder (this w) = Some r;
  sh_recorders : recorders_ok w;
}.

(** An event of the page for each event of the pipeline: the method
    call, or the delivery to the oldest callback of a reply with the
    least content. *)
Definition realize (e : interview_event) : front_event :=
  match e with
  | AUpload =>
      User (SelectCV (Some {| file_name := "";
                              file_content := {| blob_data := []; blob_type := "" |} |}))
  | APlayQuestion => User CallPlayCurrentQuestion
  | AStartRecording => User CallStartRecording
  | AStop => User (CallStopRecording false)
  | APlayFeedback => User CallPlayFeedback
  | ANext => User CallNextQuestion
  | ASummary => Browser 0 (HttpNext (RSummary (Some {| summary := None |})))
  | AQuestions n =>
      Browser 0 (HttpNext (RQuestions (Some {| questions := Some (replicate n "") |})))
  | ASpeech => Browser 0 (HttpNext (RSpeech {| blob_data := []; blob_type := "" |}))
  | AFacial => Browser 0 (HttpNext (RFacial JNull))
  | ATranscript =>
      Browser 0 (HttpNext (RTranscription (Some {| transcription := None |})))
  | AAdvice => Browser 0 (HttpNext (RFeedback None))
  | AFailure => Browser 0 HttpError
  | AEnded => Browser 0 Ended
  | AGranted => Browser 0 (MediaGranted true)
  | ARejected => Browser 0 (MediaRejected NotAllowedError)
  | AFired => Browser 0 (RecorderStopped None)
  end.

(** The events that bring the pipeline back to [PQuiet] from a phase:
    the user stops a recording, and every request fails. *)
Definition settle (p : phase) : list interview_event :=
  match p with
  | PQuiet => []
  | PSummarizing | PGenerating | PFeedbackSpeech => [AFailure]
  | PQuestionSpeech => [AFailure; ARejected]
  | PQuestionAudio => [AEnded; ARejected]
  | PCamera => [ARejected]
  | PRecording => [AStop; AFired; AFailure; AFailure; AFailure; AFailure]
  | PStopping => [AFired; AFailure; AFailure; AFailure; AFailure]
  | PAnalyzing => [AFailure; AFailure; AFailure; AFailure]
  | PTranscribing => [AFailure; AFailure; AFailure]
  | PFeedback => [AFailure; AFailure]
  | PFeedbackAudio => [AEnded]
  end.

(** ** Facts of the relation *)

(** A callback that is pending is the only one, and the phase is its
    phase. *)
Lemma shows_lookup w a i t :
  shows w a → pending w !! i = Some t →
  i = 0 ∧ pending w = [t] ∧ current a = task_phase t.
Proof.
  intros [Hp _ _ _ _ _ _ _ _ _ _]. revert Hp.
  destruct (pending w) as [|t0 [|??]], i as [|i]; simpl; try done.
  by intros -> [= ->].
Qed.

(** While the page records nothing is pending. *)
Lemma shows_recording w a :
  shows w a → recording (this w) = true →
  pending w = [] ∧ current a = PRecording.
Proof.
  intros [Hp _ _ _ _ _ _ _ Hr _ _] Hrec. rewrite Hrec in Hr. revert Hp.
  destruct (pending w) as [|t [|??]]; simpl; [by destruct (current a)| |done].
  intros Hc. rewrite Hc in Hr. by destruct t as [? []|[]| |].
Qed.

Lemma shows_quiet w a :
  shows w a → pending w = [] → recording (this w) = false →
  current a = PQuiet.
Proof.
  intros [Hp _ _ _ _ _ _ _ Hr _ _] Hl Hrec. rewrite Hl in Hp.
  rewrite Hrec in Hr. simpl in Hp. destruct Hp as [Hc|Hc]; rewrite Hc in *; done.
Qed.

(** The interview shown is the view of the world. *)
Lemma shows_view w a : shows w a → a = view w.
Proof.
  intros HR. pose proof HR as [Hp Hpos Hcnt Hadv _ _ _ _ Hr _ _].
  destruct a as [p pos cnt adv]; unfold view, phase_of; simpl in *; subst.
  f_equal. destruct (pending w) as [|t [|??]] eqn:E; simpl in Hp; [|done..].
  destruct (recording (this w)) eqn:Er.
  - by destruct (shows_recording _ _ HR Er).
  - by apply (shows_quiet _ _ HR E Er).
Qed.

Lemma shows_initial : shows new_World new_Interview.
Proof.
  split; simpl; try done; [by left|].
  split; simpl; try done. by intros r ?%elem_of_nil.
Qed.

(** ** The steps that touch the recorders *)

(** Once the current recorder is stopped no recorder records. *)
Lemma stopped_none_live (rs : list MediaRecorder) r r' m' :
  (∀ r0 m0, rs !! r0 = Some m0 → rec_state m0 = Recording → r0 = r) →
  alter set_rec_onstop r (alter (set_rec_state Inactive) r rs) !! r' = Some m' →
  rec_state m' = Inactive.
Proof.
  intros Hlive. destruct (decide (r = r')) as [->|Hne].
  - rewrite !list_lookup_alter_eq. destruct (rs !! r'); simpl; [|done].
    by intros [= <-].
  - rewrite !list_lookup_alter_ne by done. intros Hm.
    destruct (rec_state m') eqn:E; [done|]. by destruct (Hne (eq_sym (Hlive _ _ Hm E))).
Qed.

Lemma sim_stop strict w a :
  shows w a → recording (this w) = true →
  ∃ a', interview_step AStop a = Some a' ∧
        shows (exec (user_action (CallStopRecording strict)) w) a'.
Proof.
  intros HR Hrec. destruct (shows_recording _ _ HR Hrec) as [Hl Hc].
  pose proof HR as [Hp Hpos Hcnt Hadv Hu Ha Hld Hs Hr Hlive Hok].
  destruct (recording_current _ Hok Hrec) as (r & m & Hcur & Hm & Hst).
  exists (goto PStopping a). unfold interview_step. rewrite Hc. split; [done|].
  unfold exec. simpl. rewrite (stopRecording_recording strict w r m) by done.
  rewrite Hc in *. split; simpl; rewrite ?Hl; try done.
  - intros r' m' Hm' E. eapply stopped_none_live in Hm'; [congruence|].
    intros r0 m0 H0 E0. destruct (Hlive _ _ H0 E0). congruence.
  - by eapply recorders_ok_stop.
Qed.

Lemma sim_granted w a :
  shows w a → pending w = [GetUserMedia] →
  ∃ a', interview_step AGranted a = Some a' ∧
        shows (exec (startRecording_resume true) (remove_task 0 w)) a'.
Proof.
  intros HR Hl. destruct (shows_lookup w a 0 GetUserMedia HR) as (_ & _ & Hc);
    [by rewrite Hl|].
  destruct HR as [Hp Hpos Hcnt Hadv Hu Ha Hld Hs Hr Hlive Hok].
  exists (goto_with PRecording false a). unfold interview_step. rewrite Hc.
  split; [done|]. unfold exec. rewrite startRecording_resume_run.
  cbn [snd]. rewrite Hc in *.
  split; try (simpl; rewrite ?Hl; simpl; by auto).
  - intros r m Hm E. split; [done|]. simpl. f_equal.
    rewrite recording_started_recorders in Hm. simpl in Hm.
    apply lookup_app_Some in Hm as [Hm|[? Hm]].
    + destruct (Hlive _ _ Hm E). simpl in Hr. congruence.
    + apply list_lookup_singleton_Some in Hm as [? _]. simpl in *. lia.
  - apply recorders_ok_started. eapply recorders_ok_frame; [done..|].
    simpl. rewrite Hl. by intros r ?%elem_of_nil.
Qed.

Lemma sim_fired w a r data :
  shows w a → pending w = [RecorderStop r] →
  ∃ a', interview_step AFired a = Some a' ∧
        shows (exec (recorder_stopped r data) (remove_task 0 w)) a'.
Proof.
  intros HR Hl. destruct (shows_lookup w a 0 (RecorderStop r) HR) as (_ & _ & Hc);
    [by rewrite Hl|].
  destruct HR as [Hp Hpos Hcnt Hadv Hu Ha Hld Hs Hr Hlive Hok].
  destruct (stop_has_handler _ Hok r) as (m & Hm & Hst & Hon);
    [rewrite Hl; apply list_elem_of_here|].
  pose proof (Forall_lookup_1 _ _ _ _ (data_handlers _ Hok) Hm) as Hdata.
  exists (goto PAnalyzing a). unfold interview_step. rewrite Hc.
  split; [done|]. unfold exec. rewrite recorder_stopped_run. simpl in *.
  rewrite Hm, Hdata, Hon. rewrite Hc in *.
  split; simpl; rewrite ?Hl; try done.
  eapply recorders_ok_frame; [done..|]. simpl. rewrite Hl. simpl.
  by intros r0 [=]%list_elem_of_singleton.
Qed.

(** ** The other steps *)

(** The phase and the pending callbacks of a case. *)
Ltac phase_facts HR :=
  match goal with
  | H : pending _ !! _ = Some _ |- _ =>
      destruct (shows_lookup _ _ _ _ HR H) as (-> & ? & ?)
  | H1 : pending _ = [], H2 : recording _ = false |- _ =>
      pose proof (shows_quiet _ _ HR H1 H2)
  | _ => idtac
  end.

(** Decide the tests of the abstract step from the case at hand. *)
Ltac case_facts :=
  repeat match goal with
  | H : ?l !! ?i = Some _ |- context [?i <? length ?l] =>
      rewrite (ltb_lookup_Some _ _ _ H)
  | H : ?l !! ?i = None |- context [?i <? length ?l] =>
      rewrite (ltb_lookup_None _ _ H)
  | H : feedbackText ?c = _ |- context [feedbackText ?c] => rewrite H; simpl
  | H : truthy_string ?s = _ |- context [truthy_string ?s] => rewrite H
  end;
  rewrite ?fallback_truthy, ?or_string_truthy by apply fallback_truthy.

Lemma shows_step w a e w' :
  shows w a → disciplined w e → front_step e w = Some w' →
  match abs_event e with
  | Some e' => ∃ a', interview_step e' a = Some a' ∧ shows w' a'
  | None => shows w' a
  end.
Proof.
  intros HR Hd Hstep.
  assert (recorders_ok w') as Hrec'
    by (eapply recorders_ok_step; [apply HR|done]).
  revert Hrec'. step_cases Hstep; simpl in Hd;
    try match type of Hd with
        | context [match ?b with _ => _ end] => destruct b
        end;
    try done; destruct_and?; phase_facts HR; cbn [abs_event];
    try (intros _; by first [apply sim_stop|apply sim_granted|apply sim_fired]).
  all: destruct w as [c0 l0 rs0], a as [p pos cnt adv],
         HR as [Hp Hpos Hcnt Hadv Hu Ha Hl Hs Hr Hlive _];
    simpl in *; subst; simpl in *.
  all: exec_specs; simpl in *.
  all: intros Hrec'.
  all: try (eexists; split; [unfold interview_step; simpl; case_facts; reflexivity|]).
  all: try (split; simpl; case_facts; by auto).
Qed.

(** ** The refinement *)

(** The page implements the pipeline on disciplined runs. *)
Lemma front_simulation :
  simulation front_machine interview_machine disciplined shows abs_event.
Proof. split; [apply shows_initial|]. intros c e c' a. apply shows_step. Qed.

(** A world of a disciplined run shows its view. *)
Lemma disciplined_shows w :
  reachable_by front_machine disciplined w → shows w (view w).
Proof.
  intros Hw.
  destruct (simulation_reachable _ _ _ _ _ w front_simulation Hw)
    as (a & _ & HR).
  by rewrite <-(shows_view _ _ HR).
Qed.

(** C1.  Every disciplined run of the interview page is, event by
    event, a run of the pipeline: the abstract events of the run lead
    the pipeline from its initial state to the view of the world the
    page reaches, and that world shows it. *)
Theorem front_refines_interview es w :
  permitted (M:=front_machine) disciplined es new_World →
  exec_events (M:=front_machine) es new_World = Some w →
  exec_events (M:=interview_machine) (abs_events front_machine interview_machine abs_event es) new_Interview
    = Some (view w)
  ∧ shows w (view w).
Proof.
  intros Hok Hrun.
  destruct (simulation_exec_events _ _ _ _ _ es _ _ _ front_simulation Hok
              shows_initial Hrun) as (a & Ha & HR).
  by rewrite <-(shows_view _ _ HR).
Qed.

(** On disciplined runs at most one callback is pending: the
    page never waits for two things at once. *)
Theorem disciplined_one_callback :
  invariant_by front_machine disciplined (λ w, length (pending w) ≤ 1).
Proof.
  intros w [Hp _ _ _ _ _ _ _ _ _ _]%disciplined_shows.
  destruct (pending w) as [|t [|??]]; simpl in *; [lia|lia|done].
Qed.

(** C25.  On disciplined runs at most one recorder records, the one the
    component holds, and only while [recording] is raised. *)
Theorem disciplined_one_recorder :
  invariant_by front_machine disciplined (λ w,
    ∀ r m, recorders w !! r = Some m → rec_state m = Recording →
      recording (this w) = true ∧ mediaRecorder (this w) = Some r).
Proof. intros w HR%disciplined_shows. apply HR. Qed.

(** C24.  On disciplined runs each flag is raised exactly in its
    phases: [cvUploading] while the summary or the questions are
    awaited, [questionPlaying] while the question is synthesised or
    played, [recording] between the grant of the camera and
    [stopRecording], [feedbackLoading] while the feedback is awaited,
    [feedbackPlaying] while it is synthesised or played. *)
Theorem disciplined_flags :
  invariant_by front_machine disciplined (λ w,
    cvUploading (this w) = uploading (phase_of w) ∧
    questionPlaying (this w) = asking (phase_of w) ∧
    recording (this w) = recording_in (phase_of w) ∧
    feedbackLoading (this w) = advising (phase_of w) ∧
    feedbackPlaying (this w) = speaking (phase_of w)).
Proof. by intros w [_ _ _ _ ? ? ? ? ? _ _]%disciplined_shows. Qed.

(** ** The pipeline asks nothing the page cannot do *)

Lemma abs_realize e : abs_event (realize e) = Some e.
Proof. destruct e; simpl; try done. by rewrite length_replicate. Qed.

(** The callbacks pending in each phase. *)
Lemma awaits_inv p l :
  awaits p l →
  match p with
  | PQuiet | PRecording => l = []
  | _ => ∃ t, l = [t] ∧ task_phase t = p
  end.
Proof.
  destruct l as [|t [|??]]; simpl; [by intros [-> | ->]| |done].
  intros ->. destruct t as [? []|[]| |]; simpl; eauto.
Qed.

(** The event that realises a step of the pipeline is disciplined and
    can occur. *)
Lemma realize_enabled w a e a' :
  shows w a → interview_step e a = Some a' →
  disciplined w (realize e) ∧ is_Some (front_step (realize e) w).
Proof.
  intros [Hp _ _ _ _ _ _ _ Hr _ _] Hstep. apply awaits_inv in Hp.
  unfold front_step. destruct a as [p pos cnt adv]; simpl in *.
  destruct p, e; simpl in Hstep; try discriminate; simpl;
    try destruct Hp as ([? []|[]| |] & -> & [=]); subst; simpl;
    rewrite ?Hp; eauto.
Qed.

Lemma front_complete :
  complete front_machine interview_machine disciplined shows abs_event.
Proof.
  intros w a e a' HR Hstep.
  destruct (realize_enabled w a e a' HR Hstep) as [Hd [w' Hw']].
  exists (realize e), w'. split; [apply abs_realize|]. do 2 (split; [done|]).
  pose proof (shows_step w a _ w' HR Hd Hw') as Hsim.
  rewrite abs_realize in Hsim. destruct Hsim as (a'' & Ha'' & HR').
  simpl in Hstep. congruence.
Qed.

(** C22.  Every run of the pipeline is the image of a disciplined run of
    the page: the pipeline describes nothing the page cannot do, so the
    two have the same runs up to the data of the events. *)
Theorem interview_runs_realized aes a :
  exec_events (M:=interview_machine) aes new_Interview = Some a →
  ∃ es w,
    permitted (M:=front_machine) disciplined es new_World ∧
    exec_events (M:=front_machine) es new_World = Some w ∧
    abs_events front_machine interview_machine abs_event es = aes ∧
    a = view w.
Proof.
  intros Hrun.
  destruct (complete_exec_events _ _ _ _ _ aes _ _ _ front_complete
              shows_initial Hrun) as (es & w & Hes & Hw & Habs & _ & HR).
  exists es, w. eauto using shows_view.
Qed.

(** From every phase the events of [settle] lead the pipeline to
    [PQuiet]. *)
Lemma settle_quiet a :
  ∃ a', exec_events (M:=interview_machine) (settle (current a)) a = Some a'
        ∧ current a' = PQuiet.
Proof. destruct a as [[] pos cnt adv]; simpl; eauto. Qed.

(** C21.  The page never gets stuck on a disciplined run: from every
    world it reaches, at most six further events (the user stops the
    recording, the requests under way fail) bring it to a world where
    nothing is pending and nothing is recorded, from which the user can
    go on. *)
Theorem page_can_settle w :
  reachable_by front_machine disciplined w →
  ∃ es w',
    length es ≤ 6 ∧
    permitted (M:=front_machine) disciplined es w ∧
    exec_events (M:=front_machine) es w = Some w' ∧
    pending w' = [] ∧ recording (this w') = false.
Proof.
  intros HR%disciplined_shows.
  destruct (settle_quiet (view w)) as (a' & Hrun & Hq).
  destruct (complete_exec_events _ _ _ _ _ _ _ _ _ front_complete HR Hrun)
    as (es & w' & Hes & Hw' & _ & Hlen & [Hp _ _ _ _ _ _ _ Hr _ _]).
  exists es, w'. rewrite Hq in *. apply awaits_inv in Hp.
  repeat split; try done. rewrite Hlen. simpl. by destruct (phase_of w); simpl; lia.
Qed.
