(* ===== verification/FrontScenarios.v ===== *)
(** * FrontScenarios: runs of the interview page, evaluated

    Concrete files, responses and event lists, and the worlds they lead
    to, computed by the kernel from [FrontMachine.front_step].  The first
    run is a whole interview of two questions.  The others are the
    shortest runs that reach a world the page should not reach; each is
    paired with the invariant that the world escapes or confirms, and
    is the witness of the theorem of [FrontDefects] that states the
    defect for every world.  The last parts apply the theorems of
    [FrontInvariants], [FrontProps], [FrontRefinement], [FrontQueue],
    [FrontWire] and [FrontDefects] that have hypotheses to the worlds of
    these runs. *)

From S2P Require Import Prelude JsString JsValue JsonText Action Machine Http Front FrontProps FrontMachine FrontInvariants FrontDefects FrontQueue FrontWire FrontRefinement.

(** ** Data *)

Definition cv : File :=
  {| file_name := "cv.pdf";
     file_content := {| blob_data := [37; 80; 68; 70]%N;
                        blob_type := "application/pdf" |} |}.

Definition speech : Blob := {| blob_data := [73; 68; 51]%N; blob_type := "audio/mpeg" |}.

Definition take1 : Blob := {| blob_data := [1; 2; 3]%N; blob_type := "video/webm" |}.

Definition take2 : Blob := {| blob_data := [4; 5]%N; blob_type := "video/webm" |}.

Definition happy : json :=
  JObj [("dominant_emotion", JStr "happy"); ("emotion", JObj [("happy", JNum "0.93")])].

Definition summary_ok : response := RSummary (Some {| summary := Some "Backend developer" |}).

Definition two_questions : response :=
  RQuestions (Some {| questions := Some ["Tell me about yourself."; "Why this role?"] |}).

Definition said (text : string) : response :=
  RTranscription (Some {| transcription := Some text |}).

Definition advice (text : string) : response :=
  RFeedback (Some {| feedback := Some text |}).

(** The events of one answer, from the speech of the question to the end
    of the spoken feedback, with every callback run as soon as it is
    registered. *)
Definition answer (take : Blob) (facial : json) (text fb : string) : list front_event :=
  [ Browser 0 (HttpNext (RSpeech speech));
    Browser 0 Ended;
    Browser 0 (MediaGranted true);
    User (CallStopRecording false);
    Browser 0 (RecorderStopped (Some take));
    Browser 0 (HttpNext (RFacial facial));
    Browser 0 (HttpNext (said text));
    Browser 0 (HttpNext (advice fb));
    Browser 0 (HttpNext (RSpeech speech));
    Browser 0 Ended ].

(** A CV is chosen and both upload requests succeed. *)
Definition upload : list front_event :=
  [ User (SelectCV (Some cv));
    Browser 0 (HttpNext summary_ok);
    Browser 0 (HttpNext two_questions) ].

(** A whole interview: two questions answered, then the end. *)
Definition interview : list front_event :=
  upload
  ++ answer take1 happy "I build services in Go." "Give an example."
  ++ [User CallNextQuestion]
  ++ answer take2 JNull "" ""
  ++ [User CallNextQuestion].

(** The world at the end of a run (the initial world if the run cannot
    happen). *)
Definition world_after (es : list front_event) : World :=
  state_after (M:=front_machine) es.

(** The second question is reached, then a new CV is chosen and the
    question request fails. *)
Definition failed_regeneration : list front_event :=
  upload
  ++ answer take1 happy "I build services in Go." "Give an example."
  ++ [ User CallNextQuestion;
       User (SelectCV (Some cv));
       Browser 1 (HttpNext summary_ok);
       Browser 1 HttpError ].

(** The user moves to the next question while the first answer is being
    recorded. *)
Definition next_while_recording : list front_event :=
  upload
  ++ [ Browser 0 (HttpNext (RSpeech speech));
       Browser 0 Ended;
       Browser 0 (MediaGranted true);
       User CallNextQuestion;
       Browser 0 (HttpNext (RSpeech speech));
       Browser 0 Ended;
       Browser 0 (MediaGranted true) ].

(** The summary request is answered with the body [null]. *)
Definition null_summary : list front_event :=
  [ User (SelectCV (Some cv));
    Browser 0 (HttpNext (RSummary None)) ].

(** The backend returns no question. *)
Definition no_question : list front_event :=
  [ User (SelectCV (Some cv));
    Browser 0 (HttpNext summary_ok);
    Browser 0 (HttpNext (RQuestions (Some {| questions := None |}))) ].

(** The first question is being answered: the recorder records. *)
Definition answering : list front_event :=
  upload
  ++ [ Browser 0 (HttpNext (RSpeech speech));
       Browser 0 Ended;
       Browser 0 (MediaGranted true) ].

(** The answer was stopped; the events of the recorder have not fired. *)
Definition stopped : list front_event :=
  answering ++ [User (CallStopRecording false)].

(** The analysis of the first answer fails. *)
Definition analysis_failed : list front_event :=
  stopped
  ++ [ Browser 0 (RecorderStopped (Some take1));
       Browser 0 HttpError ].

(** The analysis and the transcription of the first answer have come and
    the feedback is being asked for. *)
Definition awaiting_feedback : list front_event :=
  stopped
  ++ [ Browser 0 (RecorderStopped (Some take1));
       Browser 0 (HttpNext (RFacial happy));
       Browser 0 (HttpNext (said "I build services in Go.")) ].

(** The feedback of the first answer is being spoken. *)
Definition feedback_playing : list front_event :=
  stopped
  ++ [ Browser 0 (RecorderStopped (Some take1));
       Browser 0 (HttpNext (RFacial happy));
       Browser 0 (HttpNext (said "I build services in Go."));
       Browser 0 (HttpNext (advice "Give an example.")) ].

(** ** Runs are reachable *)

Lemma world_after_reachable_by ok es :
  permitted (M:=front_machine) ok es new_World →
  is_Some (exec_events (M:=front_machine) es new_World) →
  reachable_by front_machine ok (world_after es).
Proof. apply (state_after_reachable_by (M:=front_machine)). Qed.

Lemma world_after_reachable es :
  is_Some (exec_events (M:=front_machine) es new_World) →
  reachable front_machine (world_after es).
Proof. apply (state_after_reachable (M:=front_machine)). Qed.

(** ** A whole interview *)

(** The interview of two questions, each callback run as soon as
    it is registered, ends with [interviewFinished] raised on the second
    question, every flag lowered, nothing pending and no recorder left
    recording; the empty second answer gets the client-side feedback. *)
Theorem interview_completes :
  let w := world_after interview in
  is_Some (exec_events (M:=front_machine) interview new_World) ∧
  interviewFinished (this w) = true ∧
  currentQuestionIndex (this w) = 1 ∧
  currentQuestion (this w) = Val "Why this role?" ∧
  feedbackText (this w)
    = Some "No speech detected. Try speaking more clearly and a bit louder." ∧
  (recording (this w) || questionPlaying (this w) || feedbackLoading (this w)
   || feedbackPlaying (this w) || cvUploading (this w)) = false ∧
  pending w = [] ∧ live_recorders w = 0.
Proof. split; [run_happens|by vm_compute]. Qed.

(** When the analysis fails the recording is transcribed anyway, by
    the observer of the error branch; once the text has come the
    feedback is asked for with it and with the error text as the facial
    result. *)
Theorem analysis_failure_transcribes :
  let blob := {| blob_data := [1; 2; 3]%N; blob_type := "video/mp4" |} in
  pending (world_after analysis_failed)
  = [Http (transcribe_request blob) ObsTranscribeAnyway] ∧
  pending (world_after (analysis_failed ++ [Browser 0 (HttpNext (said "Hello."))]))
  = [Http (feedback_request "Hello." (JStr "Error analyzing video")) ObsFeedback].
Proof. by vm_compute. Qed.

(** ** The runs behind the findings *)

(** A question request that fails after an interview has advanced
    leaves the index past the end of the new one-element list, and the
    current question of the previous interview on the page: the index
    invariant needs the assumption that the request succeeds. *)
Theorem stale_index_reachable :
  let w := world_after failed_regeneration in
  reachable front_machine w ∧
  generatedQuestions (this w) = ["Error generating questions"] ∧
  currentQuestionIndex (this w) = 1 ∧
  currentQuestion (this w) = Val "Why this role?" ∧
  ¬ index_ok w.
Proof.
  split; [apply world_after_reachable; run_happens|].
  repeat split; try by vm_compute.
  intros [H|H]; vm_compute in H; [discriminate|lia].
Qed.

(** [nextQuestion] does not stop the recorder: moving on while an
    answer is being recorded leaves that recorder recording for ever and
    starts a second one after the next question is spoken. *)
Theorem two_live_recorders_reachable :
  let w := world_after next_while_recording in
  reachable front_machine w ∧ live_recorders w = 2 ∧
  mediaRecorder (this w) = Some 1 ∧ pending w = [].
Proof.
  split; [apply world_after_reachable; run_happens|by vm_compute].
Qed.

(** A [null] body in answer to [summarize_cv] leaves [cvUploading]
    raised with nothing pending: the upload invariant needs the
    assumption that no such body arrives. *)
Theorem spinner_stuck_reachable :
  let w := world_after null_summary in
  reachable front_machine w ∧ cvUploading (this w) = true ∧ pending w = [] ∧
  front_outcome (Browser 0 (HttpNext (RSummary None)))
    (world_after [User (SelectCV (Some cv))]) = Some (Throw TypeError) ∧
  ¬ upload_ok w.
Proof.
  split; [apply world_after_reachable; run_happens|].
  repeat split; try by vm_compute.
  intros H. unfold upload_ok, waiting in H. vm_compute in H.
  specialize (H eq_refl). by apply Exists_nil in H.
Qed.

(** When the backend returns no question, [currentQuestion] holds
    [undefined], a value outside its declared type [string | null]. *)
Theorem undefined_question_reachable :
  let w := world_after no_question in
  reachable front_machine w ∧ generatedQuestions (this w) = [] ∧
  currentQuestion (this w) = Undefined ∧ pending w = [].
Proof.
  split; [apply world_after_reachable; run_happens|by vm_compute].
Qed.

(** ** The theorems at concrete worlds *)

Lemma answering_reachable : reachable front_machine (world_after answering).
Proof. apply world_after_reachable; run_happens. Defined.

Lemma stopped_reachable : reachable front_machine (world_after stopped).
Proof. apply world_after_reachable; run_happens. Defined.

Lemma feedback_playing_reachable :
  reachable front_machine (world_after feedback_playing).
Proof. apply world_after_reachable; run_happens. Defined.

Lemma interview_reachable : reachable front_machine (world_after interview).
Proof. apply world_after_reachable; run_happens. Defined.

Lemma raised_flag_has_callback_witness :
  let w := world_after feedback_playing in
  reachable front_machine w ∧ feedbackPlaying (this w) = true ∧
  ∃ i t, pending w !! i = Some t ∧ feedback_speech t.
Proof.
  split; [exact feedback_playing_reachable|]. split; [by vm_compute|].
  apply (raised_flag_has_callback _ feedback_playing_reachable). by vm_compute.
Defined.

Lemma quiescent_idle_witness :
  let w := world_after interview in
  reachable front_machine w ∧ pending w = [] ∧
  questionPlaying (this w) = false ∧ feedbackLoading (this w) = false
  ∧ feedbackPlaying (this w) = false.
Proof.
  split; [exact interview_reachable|]. split; [by vm_compute|].
  apply (quiescent_idle _ interview_reachable). by vm_compute.
Defined.

Lemma recording_flag_sound_witness :
  let w := world_after answering in
  reachable front_machine w ∧ recording (this w) = true ∧
  ∃ r m, mediaRecorder (this w) = Some r ∧ recorders w !! r = Some m
         ∧ rec_state m = Recording.
Proof.
  split; [exact answering_reachable|]. split; [by vm_compute|].
  apply (recording_flag_sound _ answering_reachable). by vm_compute.
Defined.

Lemma stop_always_uploads_witness :
  let w := world_after stopped in
  reachable front_machine w ∧ pending w !! 0 = Some (RecorderStop 0) ∧
  front_step (Browser 0 (RecorderStopped (Some take1))) w
  = Some (recording_uploaded (Some take1) (remove_task 0 w)).
Proof.
  split; [exact stopped_reachable|]. split; [by vm_compute|].
  apply (stop_always_uploads _ 0 0 (Some take1) stopped_reachable).
  by vm_compute.
Defined.

Lemma feedback_text_never_empty_witness :
  let w := world_after feedback_playing in
  reachable front_machine w ∧ feedbackText (this w) = Some "Give an example." ∧
  "Give an example." ≠ "".
Proof.
  split; [exact feedback_playing_reachable|]. split; [by vm_compute|].
  apply (feedback_text_never_empty _ _ feedback_playing_reachable).
  by vm_compute.
Defined.

Lemma requests_go_to_backend_witness :
  let w := world_after [User (SelectCV (Some cv)); Browser 0 (HttpNext summary_ok)] in
  let rq := questions_request "Backend developer" in
  reachable front_machine w ∧ Http rq ObsQuestions ∈ pending w ∧
  String.prefix backend (req_url rq) = true ∧
  (ObsQuestions = ObsQuestions →
     form_get "api_key" (req_form rq) = Some (FText api_key)).
Proof.
  assert (reachable front_machine
            (world_after [User (SelectCV (Some cv)); Browser 0 (HttpNext summary_ok)]))
    as Hr by (apply world_after_reachable; run_happens).
  assert (Http (questions_request "Backend developer") ObsQuestions
          ∈ pending (world_after [User (SelectCV (Some cv));
                                  Browser 0 (HttpNext summary_ok)])) as Hin
    by (vm_compute; apply list_elem_of_here).
  split; [exact Hr|]. split; [exact Hin|].
  exact (requests_go_to_backend _ _ _ Hr Hin).
Defined.

Lemma upload_ok_invariant_witness :
  let w := world_after [User (SelectCV (Some cv))] in
  reachable_by front_machine no_null_upload w ∧ upload_ok w.
Proof.
  assert (reachable_by front_machine no_null_upload
            (world_after [User (SelectCV (Some cv))])) as Hr
    by (apply world_after_reachable_by; [by vm_compute|run_happens]).
  split; [exact Hr|]. exact (upload_ok_invariant _ Hr).
Defined.

Lemma finished_ok_invariant_witness :
  let w := world_after interview in
  reachable front_machine w ∧ finished_ok w.
Proof.
  split; [exact interview_reachable|].
  exact (finished_ok_invariant _ interview_reachable).
Defined.

Lemma index_ok_invariant_witness :
  let w := world_after interview in
  reachable_by front_machine questions_succeed w ∧
  currentQuestionIndex (this w) = 1 ∧ index_ok w.
Proof.
  assert (reachable_by front_machine questions_succeed (world_after interview))
    as Hr by (apply world_after_reachable_by; [by vm_compute|run_happens]).
  split; [exact Hr|]. split; [by vm_compute|]. exact (index_ok_invariant _ Hr).
Defined.

Lemma recorder_stopped_spec_witness :
  let w := world_after stopped in
  recorders w !! 0
    = Some {| rec_state := Inactive; rec_ondataavailable := true;
              rec_onstop := true |} ∧
  run (recorder_stopped 0 (Some take1)) w
  = (Normal tt, recording_uploaded (Some take1) w).
Proof.
  split; [by vm_compute|].
  apply (recorder_stopped_spec 0 (Some take1) _ Inactive). by vm_compute.
Defined.

Lemma stopRecording_twice_witness :
  let w := world_after answering in
  let w1 := exec (stopRecording false) w in
  (mediaRecorder (this w) = Some 0 ∧
   recorders w !! 0
     = Some {| rec_state := Recording; rec_ondataavailable := true;
               rec_onstop := false |}) ∧
  run (stopRecording true) w1 = (Throw InvalidStateError, w1) ∧
  outcome (stopRecording false) w1 = Normal tt ∧
  this (exec (stopRecording false) w1) = this w1 ∧
  pending (exec (stopRecording false) w1) = pending w1.
Proof.
  split; [by vm_compute|].
  apply (stopRecording_twice false (world_after answering) 0
           {| rec_state := Recording; rec_ondataavailable := true;
              rec_onstop := false |}); by vm_compute.
Defined.

Lemma playCurrentQuestion_sends_question_witness :
  let w := world_after no_question in
  let w0 := upd (set_generatedQuestions ["Why this role?"]) w in
  let t := Http (tts_request "Why this role?") ObsQuestionSpeech in
  t ∈ pending (exec playCurrentQuestion w0) ∧
  (t ∈ pending w0 ∨
   ∃ q, generatedQuestions (this w0) !! currentQuestionIndex (this w0) = Some q
        ∧ t = Http (tts_request q) ObsQuestionSpeech
        ∧ currentQuestion (this (exec playCurrentQuestion w0)) = Val q).
Proof.
  assert (Http (tts_request "Why this role?") ObsQuestionSpeech
          ∈ pending (exec playCurrentQuestion
               (upd (set_generatedQuestions ["Why this role?"])
                  (world_after no_question)))) as Hin
    by (vm_compute; apply list_elem_of_here).
  split; [exact Hin|].
  exact (playCurrentQuestion_sends_question _ _ Hin).
Defined.

(** ** The refinement at the worlds of these runs *)

Lemma answering_disciplined :
  reachable_by front_machine disciplined (world_after answering).
Proof. apply world_after_reachable_by; [run_permitted|run_happens]. Defined.

Lemma front_refines_interview_witness :
  exec_events (M:=interview_machine)
    (abs_events front_machine interview_machine abs_event interview) new_Interview
    = Some (view (world_after interview))
  ∧ shows (world_after interview) (view (world_after interview)).
Proof.
  apply (front_refines_interview interview (world_after interview));
    [run_permitted|by vm_compute].
Defined.

Lemma disciplined_one_callback_witness :
  reachable_by front_machine disciplined (world_after answering)
  ∧ length (pending (world_after answering)) ≤ 1.
Proof.
  split; [exact answering_disciplined|].
  exact (disciplined_one_callback _ answering_disciplined).
Defined.

Lemma disciplined_one_recorder_witness :
  reachable_by front_machine disciplined (world_after answering)
  ∧ ∀ r m, recorders (world_after answering) !! r = Some m →
      rec_state m = Recording →
      recording (this (world_after answering)) = true
      ∧ mediaRecorder (this (world_after answering)) = Some r.
Proof.
  split; [exact answering_disciplined|].
  exact (disciplined_one_recorder _ answering_disciplined).
Defined.

Lemma disciplined_flags_witness :
  let w := world_after answering in
  reachable_by front_machine disciplined w
  ∧ phase_of w = PRecording
  ∧ cvUploading (this w) = uploading (phase_of w)
  ∧ questionPlaying (this w) = asking (phase_of w)
  ∧ recording (this w) = recording_in (phase_of w)
  ∧ feedbackLoading (this w) = advising (phase_of w)
  ∧ feedbackPlaying (this w) = speaking (phase_of w).
Proof.
  split; [exact answering_disciplined|]. split; [by vm_compute|].
  exact (disciplined_flags _ answering_disciplined).
Defined.

Lemma interview_runs_realized_witness :
  ∃ es w,
    permitted (M:=front_machine) disciplined es new_World ∧
    exec_events (M:=front_machine) es new_World = Some w ∧
    abs_events front_machine interview_machine abs_event es
      = [AUpload; ASummary; AQuestions 2] ∧
    {| current := PQuestionSpeech; position := 0; count := 2; has_feedback := false |}
      = view w.
Proof.
  exact (interview_runs_realized [AUpload; ASummary; AQuestions 2] _ eq_refl).
Defined.

Lemma page_can_settle_witness :
  reachable_by front_machine disciplined (world_after answering)
  ∧ ∃ es w',
      length es ≤ 6 ∧
      permitted (M:=front_machine) disciplined es (world_after answering) ∧
      exec_events (M:=front_machine) es (world_after answering) = Some w' ∧
      pending w' = [] ∧ recording (this w') = false.
Proof.
  split; [exact answering_disciplined|].
  exact (page_can_settle _ answering_disciplined).
Defined.

(** ** The theorems of [FrontQueue] and [FrontWire] on these runs *)

(** After the stop of the first answer six callbacks are still to run,
    and the browser that answers each with success runs them out. *)
Lemma callbacks_run_out_witness :
  load (world_after stopped) = 6 ∧
  ∃ w', exec_events (M:=front_machine)
          (schedule (M:=front_machine) (oldest_first all_succeed)
             (load (world_after stopped)) (world_after stopped))
          (world_after stopped) = Some w'
        ∧ pending w' = []
        ∧ length (schedule (M:=front_machine) (oldest_first all_succeed)
                    (load (world_after stopped)) (world_after stopped))
          ≤ load (world_after stopped).
Proof.
  split; [by vm_compute|].
  apply (callbacks_run_out all_succeed (world_after stopped) fits_all_succeed).
Defined.

(** The whole interview: five method calls, twenty callbacks. *)
Lemma callbacks_per_call_witness :
  calls interview = 5 ∧ callbacks interview = 20 ∧
  callbacks interview + load (world_after interview) ≤ 6 * calls interview.
Proof.
  split; [by vm_compute|]. split; [by vm_compute|].
  apply (callbacks_per_call interview (world_after interview)). by vm_compute.
Defined.

Lemma browser_run_bounded_witness :
  let es := [ Browser 0 (RecorderStopped (Some take1));
              Browser 0 (HttpNext (RFacial happy)) ] in
  length es + load (world_after (stopped ++ es)) ≤ load (world_after stopped).
Proof.
  apply (browser_run_bounded
           [ Browser 0 (RecorderStopped (Some take1));
             Browser 0 (HttpNext (RFacial happy)) ]
           (world_after stopped)); [by repeat constructor|by vm_compute].
Defined.

(** The feedback request of the first answer carries the analysis, and
    the receiver reads it back. *)
Lemma feedback_facial_read_back_witness :
  let w := world_after awaiting_feedback in
  let rq := feedback_request "I build services in Go." happy in
  pending w = [Http rq ObsFeedback] ∧
  ∃ v text, form_get "facial" (req_form rq) = Some (facial_field v)
            ∧ field_text (facial_field v) = Some text ∧ facial_read v text.
Proof.
  split; [by vm_compute|].
  apply (feedback_facial_read_back (world_after awaiting_feedback)).
  - apply world_after_reachable_by; [by vm_compute|run_happens].
  - vm_compute. left.
Defined.

(** ** The theorems of [FrontDefects] on these runs *)

(** The run in which the user moves on during an answer has two grants
    and no stop: two recorders record at its end. *)
Lemma recorders_leak_witness :
  list_sum (granted <$> next_while_recording) = 2 ∧
  list_sum (stops <$> next_while_recording) = 0 ∧
  2 ≤ live_recorders (world_after next_while_recording) ∧
  live_recorders (world_after next_while_recording) ≤ 2.
Proof.
  split; [done|]. split; [done|].
  apply (recorders_leak next_while_recording new_World
           (world_after next_while_recording)).
  by vm_compute.
Defined.

(** The question request of the second upload fails on the second
    question. *)
Lemma questions_error_keeps_index_witness :
  let w := world_after (removelast failed_regeneration) in
  ∃ w', front_step (Browser 1 HttpError) w = Some w' ∧
    generatedQuestions (this w') = ["Error generating questions"] ∧
    currentQuestionIndex (this w') = currentQuestionIndex (this w) ∧
    currentQuestion (this w') = currentQuestion (this w) ∧
    interviewFinished (this w') = interviewFinished (this w) ∧
    (0 < currentQuestionIndex (this w) →
       ¬ index_ok w' ∧ run playCurrentQuestion w' = (Normal tt, w')).
Proof.
  apply (questions_error_keeps_index
           (world_after (removelast failed_regeneration)) 1
           (questions_request "Backend developer")).
  by vm_compute.
Defined.

(** The summary request of the first upload is answered with [null]. *)
Lemma null_upload_sticks_witness :
  let w := world_after [User (SelectCV (Some cv))] in
  ∃ w1, front_step (Browser 0 (HttpNext (RSummary None))) w = Some w1 ∧
    front_outcome (Browser 0 (HttpNext (RSummary None))) w
    = Some (Throw TypeError) ∧
    ∀ es w', Forall (λ e, selects e = false) es →
      exec_events (M:=front_machine) es w1 = Some w' →
      cvUploading (this w') = true ∧ ¬ waiting upload_reply w'.
Proof.
  apply (null_upload_sticks (world_after [User (SelectCV (Some cv))]) 0
           (summarize_request cv) ObsSummarize (RSummary None));
    [by vm_compute..|].
  vm_compute. by intros ?%Exists_nil.
Defined.
