(* ===== verification/Quiz.v ===== *)
(** * Quiz: the quiz page and the two services

    [QuizService] (quiz.service.ts) and [AiService] (ai.service.ts) build
    requests and nothing else; each method is the request it posts.
    [QuizPage] is [QuizComponent] (quiz/quiz.component.ts): its seven
    fields, its four methods and the five callbacks it registers.

    The bodies the quiz backend returns are declared [any], so a response
    is any JSON value, and the fields assigned from one ([quizId],
    [questions], [result], [error]) hold whatever it held: [option json],
    with [None] for [undefined], where the property may be missing.

    The world of the page is the component and the observers waiting for
    a reply.  The user selects a file, calls a method or types an answer;
    the browser delivers a reply to one of the observers. *)

From stdpp Require Import gmap.
From S2P Require Import Prelude JsString JsValue Action Machine Http.

(** ** The services *)

Module QuizService.

(** [base] (quiz.service.ts, line 7). *)
Definition base : string := "http://localhost:5000".

(** [generateQuizFromFile(file)] (lines 11-15). *)
Definition generateQuizFromFile (file : File) : request :=
  {| req_url := base +:+ "/generate-quiz";
     req_body := FormBody (append "file" (FFile (file_content file) (file_name file)) []);
     req_response := AsJson |}.

(** [generateQuizFromText(text)] (lines 17-21). *)
Definition generateQuizFromText (text : string) : request :=
  {| req_url := base +:+ "/generate-quiz";
     req_body := FormBody (append "text" (FText text) []);
     req_response := AsJson |}.

(** [submitQuiz(quizId, answers)] (lines 23-25). *)
Definition submitQuiz (quizId : json) (answers : list json) : request :=
  {| req_url := base +:+ "/submit-quiz";
     req_body := JsonBody (JObj [("quiz_id", quizId); ("answers", JArr answers)]);
     req_response := AsJson |}.

End QuizService.

Module AiService.

(** [baseUrl] (ai.service.ts, line 9). *)
Definition baseUrl : string := "http://localhost:5000".

(** [getNextQuestion(state)] (lines 13-16): the state is the body. *)
Definition getNextQuestion (state : json) : request :=
  {| req_url := baseUrl +:+ "/next_question";
     req_body := JsonBody state;
     req_response := AsJson |}.

(** [submitAnswer(answer, context)] (lines 18-20).  A context that is
    [undefined] leaves no property in the JSON text. *)
Definition submitAnswer (answer : string) (context : option json) : request :=
  {| req_url := baseUrl +:+ "/submit_answer";
     req_body := JsonBody (JObj (("answer", JStr answer) ::
                   match context with
                   | Some c => [("context", c)]
                   | None => []
                   end));
     req_response := AsJson |}.

End AiService.

(** ** The component *)

Module QuizPage.

(** The fields of [QuizComponent] (quiz.component.ts, lines 9-16).  [j]
    is declared and never assigned. *)
Record QuizComponent : Type := {
  selectedFile : option File;
  quizId : option json;
  questions : option json;
  userAnswers : gmap string json;
  result : json;
  loading : bool;
  error : json;
  j : option json;
}.

(** One setter per assigned field: [set_f v c] is [c] after
    [this.f = v]. *)
Definition set_selectedFile (v : option File) (c : QuizComponent) : QuizComponent :=
  {| selectedFile := v; quizId := quizId c; questions := questions c;
     userAnswers := userAnswers c; result := result c; loading := loading c;
     error := error c; j := j c |}.

Definition set_quizId (v : option json) (c : QuizComponent) : QuizComponent :=
  {| selectedFile := selectedFile c; quizId := v; questions := questions c;
     userAnswers := userAnswers c; result := result c; loading := loading c;
     error := error c; j := j c |}.

Definition set_questions (v : option json) (c : QuizComponent) : QuizComponent :=
  {| selectedFile := selectedFile c; quizId := quizId c; questions := v;
     userAnswers := userAnswers c; result := result c; loading := loading c;
     error := error c; j := j c |}.

Definition set_userAnswers (v : gmap string json) (c : QuizComponent) : QuizComponent :=
  {| selectedFile := selectedFile c; quizId := quizId c; questions := questions c;
     userAnswers := v; result := result c; loading := loading c;
     error := error c; j := j c |}.

Definition set_result (v : json) (c : QuizComponent) : QuizComponent :=
  {| selectedFile := selectedFile c; quizId := quizId c; questions := questions c;
     userAnswers := userAnswers c; result := v; loading := loading c;
     error := error c; j := j c |}.

Definition set_loading (v : bool) (c : QuizComponent) : QuizComponent :=
  {| selectedFile := selectedFile c; quizId := quizId c; questions := questions c;
     userAnswers := userAnswers c; result := result c; loading := v;
     error := error c; j := j c |}.

Definition set_error (v : json) (c : QuizComponent) : QuizComponent :=
  {| selectedFile := selectedFile c; quizId := quizId c; questions := questions c;
     userAnswers := userAnswers c; result := result c; loading := loading c;
     error := v; j := j c |}.

(** The component as its initialisers leave it (lines 9-16). *)
Definition new_QuizComponent : QuizComponent :=
  {| selectedFile := None; quizId := Some JNull; questions := Some (JArr []);
     userAnswers := ∅; result := JNull; loading := false; error := JNull;
     j := None |}.

(** The [subscribe] blocks of the component, by the method that
    registers them. *)
Inductive observer : Type :=
| ObsGenerateFile
| ObsGenerateText
| ObsSubmit.

(** The component and the observers waiting for a reply, oldest
    first. *)
Record World : Type := {
  this : QuizComponent;
  pending : list (request * observer);
}.

Definition new_World : World := {| this := new_QuizComponent; pending := [] |}.

(** [this.f = v], as a change of the world. *)
Definition upd (f : QuizComponent → QuizComponent) (w : World) : World :=
  {| this := f (this w); pending := pending w |}.

(** [service.method(...).subscribe(obs)]: the request leaves and the
    observer waits. *)
Definition post (rq : request) (obs : observer) : action World unit :=
  assign (λ w, {| this := this w; pending := pending w ++ [(rq, obs)] |}).

(** The observer at position [i] is about to be called. *)
Definition remove_pending (i : nat) (w : World) : World :=
  {| this := this w; pending := delete i (pending w) |}.

(** [v.k] where [v] came from JSON: a TypeError on [null], the property
    or [undefined] otherwise. *)
Definition read_prop (k : string) (v : json) : action World (option json) :=
  match v with
  | JNull => throw TypeError
  | _ => mret (get_prop k v)
  end.

(** [o || d] where [o] may be [undefined]. *)
Definition or_default (o : option json) (d : json) : json :=
  match o with
  | Some v => or_else v d
  | None => d
  end.

(** [o ?? d]: [d] when [o] is [undefined] or [null]. *)
Definition nullish_or (o : option json) (d : json) : json :=
  match o with
  | None | Some JNull => d
  | Some v => v
  end.

(** [!o] is false. *)
Definition truthy_opt (o : option json) : bool :=
  match o with
  | Some v => truthy v
  | None => false
  end.

(** The receiver of [.map(...)] (line 60): an array, or a TypeError. *)
Definition array_of (o : option json) : action World (list json) :=
  match o with
  | Some (JArr items) => mret items
  | _ => throw TypeError
  end.

(** [onFileSelected(event)] (lines 19-22), on the files of the input. *)
Definition onFileSelected (files : list File) : action World unit :=
  match head files with
  | Some f => assign (upd (set_selectedFile (Some f)))
  | None => mret tt
  end.

(** The [next] callback of [uploadAndGenerate] (lines 28-34). *)
Definition uploadAndGenerate_next (res : json) : action World unit :=
  quiz_id ← read_prop "quiz_id" res;
  assign (upd (set_quizId quiz_id)) ;;
  qs ← read_prop "questions" res;
  assign (upd (set_questions qs)) ;;
  assign (upd (set_userAnswers ∅)) ;;
  assign (upd (set_result JNull)) ;;
  assign (upd (set_loading false)).

(** [err?.error?.error] (line 36), on the body of the failed reply. *)
Definition error_of (body : json) : option json :=
  match body with
  | JNull => None
  | v => get_prop "error" v
  end.

(** The [error] callback of [uploadAndGenerate] (lines 35-38). *)
Definition uploadAndGenerate_error (body : json) : action World unit :=
  assign (upd (set_error (or_default (error_of body)
                            (JStr "Erreur lors de la génération")))) ;;
  assign (upd (set_loading false)).

(** [uploadAndGenerate()] (lines 24-40). *)
Definition uploadAndGenerate : action World unit :=
  f ← gets (selectedFile ∘ this);
  match f with
  | None => assign (upd (set_error (JStr "Select a file first")))
  | Some file =>
      assign (upd (set_loading true)) ;;
      post (QuizService.generateQuizFromFile file) ObsGenerateFile
  end.

(** The [next] callback of [generateFromText] (lines 46-52). *)
Definition generateFromText_next (res : json) : action World unit :=
  quiz_id ← read_prop "quiz_id" res;
  assign (upd (set_quizId quiz_id)) ;;
  qs ← read_prop "questions" res;
  assign (upd (set_questions qs)) ;;
  assign (upd (set_userAnswers ∅)) ;;
  assign (upd (set_result JNull)) ;;
  assign (upd (set_loading false)).

(** The [error] callback of [generateFromText] (line 53). *)
Definition generateFromText_error : action World unit :=
  assign (upd (set_error (JStr "Erreur"))) ;;
  assign (upd (set_loading false)).

(** [generateFromText(text)] (lines 43-55). *)
Definition generateFromText (text : string) : action World unit :=
  assign (upd (set_loading true)) ;;
  post (QuizService.generateQuizFromText text) ObsGenerateText.

(** The answer object of one question as it goes on the wire (line 61):
    [JSON.stringify] leaves out an [id] that is [undefined]. *)
Definition answer_object (id : option json) (answer : json) : json :=
  JObj (match id with
        | Some v => [("id", v)]
        | None => []
        end ++ [("answer", answer)]).

(** The callback of [.map] (lines 60-62).  The property key of
    [userAnswers[q.id]] is [q.id] converted to a string. *)
Definition answer_of (q : json) : action World json :=
  id ← read_prop "id" q;
  answers ← gets (userAnswers ∘ this);
  mret (answer_object id (nullish_or (answers !! template id) (JStr ""))).

(** The [next] callback of [submit] (line 64). *)
Definition submit_next (res : json) : action World unit :=
  assign (upd (set_result res)).

(** The [error] callback of [submit] (line 65). *)
Definition submit_error : action World unit :=
  assign (upd (set_error (JStr "Erreur lors de la soumission"))).

(** [submit()] (lines 57-67). *)
Definition submit : action World unit :=
  id ← gets (quizId ∘ this);
  if truthy_opt id then
    qs ← gets (questions ∘ this);
    items ← array_of qs;
    answers ← mapM answer_of items;
    post (QuizService.submitQuiz (default JNull id) answers) ObsSubmit
  else mret tt.

(** The two-way binding of an answer field of the template:
    [userAnswers[qid] = v]. *)
Definition setAnswer (qid : string) (v : json) : action World unit :=
  answers ← gets (userAnswers ∘ this);
  assign (upd (set_userAnswers (<[qid := v]> answers))).

(** ** The page as a machine *)

(** What the user does. *)
Inductive user_event : Type :=
| SelectFile (files : list File)
| CallUploadAndGenerate
| CallGenerateFromText (text : string)
| TypeAnswer (qid : string) (v : json)
| CallSubmit.

(** What the browser delivers to a waiting observer: the body of the
    reply, or the body of the failure. *)
Inductive browser_event : Type :=
| HttpNext (res : json)
| HttpError (body : json).

(** An event: the user's, or the browser's for the observer at a
    position of [pending]. *)
Inductive quiz_event : Type :=
| User (u : user_event)
| Browser (i : nat) (b : browser_event).

Definition user_action (u : user_event) : action World unit :=
  match u with
  | SelectFile files => onFileSelected files
  | CallUploadAndGenerate => uploadAndGenerate
  | CallGenerateFromText text => generateFromText text
  | TypeAnswer qid v => setAnswer qid v
  | CallSubmit => submit
  end.

(** The callback of an observer for a delivery. *)
Definition callback (obs : observer) (b : browser_event) : action World unit :=
  match obs, b with
  | ObsGenerateFile, HttpNext res => uploadAndGenerate_next res
  | ObsGenerateFile, HttpError body => uploadAndGenerate_error body
  | ObsGenerateText, HttpNext res => generateFromText_next res
  | ObsGenerateText, HttpError _ => generateFromText_error
  | ObsSubmit, HttpNext res => submit_next res
  | ObsSubmit, HttpError _ => submit_error
  end.

(** The handler an event runs and the world it runs in; [None] when no
    observer waits at that position. *)
Definition quiz_action (e : quiz_event) (w : World) : option (action World unit * World) :=
  match e with
  | User u => Some (user_action u, w)
  | Browser i b =>
      '(_, obs) ← pending w !! i;
      Some (callback obs b, remove_pending i w)
  end.

(** One event.  A handler that throws keeps the writes it made. *)
Definition quiz_step (e : quiz_event) (w : World) : option World :=
  '(m, w') ← quiz_action e w;
  Some (exec m w').

(** How the handler of the event ends. *)
Definition quiz_outcome (e : quiz_event) (w : World) : option (completion unit) :=
  '(m, w') ← quiz_action e w;
  Some (outcome m w').

#[export] Instance quiz_machine : Machine :=
  {| state := World; event := quiz_event; initial := new_World; step := quiz_step |}.

End QuizPage.
