(* ===== verification/QuizProps.v ===== *)
(** * QuizProps: what the quiz page does

    The behaviour of each method and callback of [QuizComponent] on every
    branch, the invariants of the page over all interleavings of the
    user's actions and the replies, and runs of the page on concrete
    data. *)

From stdpp Require Import gmap.
From S2P Require Import Prelude JsString JsValue Action Machine Http Quiz.
Import QuizPage.

(** ** Specifications *)

(** [v] is not [null]. *)
Definition not_null (v : json) : bool :=
  match v with
  | JNull => false
  | _ => true
  end.

(** The answer sent for the question [q] when the answers typed are
    [answers]. *)
Definition answer_for (answers : gmap string json) (q : json) : json :=
  let id := get_prop "id" q in
  answer_object id (nullish_or (answers !! template id) (JStr "")).

(** The request [submit] sends for a component whose [quizId] is truthy;
    [None] when building it throws. *)
Definition submit_request (c : QuizComponent) : option request :=
  match questions c with
  | Some (JArr items) =>
      if forallb not_null items
      then Some (QuizService.submitQuiz (default JNull (quizId c))
                   (answer_for (userAnswers c) <$> items))
      else None
  | _ => None
  end.

(** One for a reply delivered, nothing for an action of the user. *)
Definition replied (e : quiz_event) : nat :=
  match e with
  | Browser _ _ => 1
  | User _ => 0
  end.

(** One for an action of the user, nothing for a reply. *)
Definition acted (e : quiz_event) : nat :=
  match e with
  | Browser _ _ => 0
  | User _ => 1
  end.

(** The world after a request has left. *)
Definition sent (rq : request) (obs : observer) (w : World) : World :=
  {| this := this w; pending := pending w ++ [(rq, obs)] |}.

(** The component after a quiz has arrived in the reply [res]. *)
Definition loaded (res : json) (c : QuizComponent) : QuizComponent :=
  set_loading false (set_result JNull (set_userAnswers ∅
    (set_questions (get_prop "questions" res)
      (set_quizId (get_prop "quiz_id" res) c)))).

(** An observer of one of the two generation requests waits. *)
Definition generating (w : World) : Prop :=
  Exists (λ t, t.2 ≠ ObsSubmit) (pending w).

(** The spinner is shown only while a generation request is under
    way. *)
Definition loading_ok (w : World) : Prop :=
  loading (this w) = true → generating w.

(** The message shown is absent or not empty. *)
Definition error_ok (w : World) : Prop :=
  error (this w) = JNull ∨ truthy (error (this w)) = true.

(** A request is the one its observer was registered with: a generation
    request, or a submission that names a quiz and gives every answer
    object an [answer]. *)
Definition request_for (t : request * observer) : Prop :=
  match t.2 with
  | ObsGenerateFile => ∃ file, t.1 = QuizService.generateQuizFromFile file
  | ObsGenerateText => ∃ text, t.1 = QuizService.generateQuizFromText text
  | ObsSubmit =>
      ∃ id answers, t.1 = QuizService.submitQuiz id answers ∧
        truthy id = true ∧
        Forall (λ a, is_Some (get_prop "answer" a)) answers
  end.

Definition quiz_requests_ok (w : World) : Prop := Forall request_for (pending w).

(** The environment never answers a generation request with [null]. *)
Definition no_null_quiz (w : World) (e : quiz_event) : Prop :=
  ∀ i, e = Browser i (HttpNext JNull) → snd <$> pending w !! i = Some ObsSubmit.

(** ** Handlers *)

Ltac eval_quiz :=
  unfold uploadAndGenerate_next, uploadAndGenerate_error, uploadAndGenerate,
    generateFromText_next, generateFromText_error, generateFromText,
    submit_next, submit_error, submit, setAnswer, onFileSelected, answer_of,
    post in *;
  simp_run.

Lemma read_prop_run k v w :
  run (read_prop k v) w =
    (if not_null v then Normal (get_prop k v) else Throw TypeError, w).
Proof. by destruct v. Qed.

#[export] Hint Rewrite read_prop_run : js.

Lemma answer_of_run q w :
  run (answer_of q) w =
    (if not_null q then Normal (answer_for (userAnswers (this w)) q)
     else Throw TypeError, w).
Proof. eval_quiz. by destruct q. Qed.

Lemma mapM_answer_of_run items w :
  run (mapM answer_of items) w =
    (if forallb not_null items
     then Normal (answer_for (userAnswers (this w)) <$> items)
     else Throw TypeError, w).
Proof.
  induction items as [|q items IH]; [done|].
  cbn [mapM forallb]. rewrite run_bind, answer_of_run.
  destruct (not_null q); [|done]. rewrite run_bind, IH.
  by destruct (forallb not_null items).
Qed.

Lemma array_of_run o w :
  run (array_of o) w =
    match o with
    | Some (JArr items) => (Normal items, w)
    | _ => (Throw TypeError, w)
    end.
Proof. by destruct o as [[]|]. Qed.

#[export] Hint Rewrite array_of_run mapM_answer_of_run : js.

Lemma submit_run w :
  run submit w =
    if truthy_opt (quizId (this w)) then
      match submit_request (this w) with
      | Some rq => (Normal tt, sent rq ObsSubmit w)
      | None => (Throw TypeError, w)
      end
    else (Normal tt, w).
Proof.
  unfold submit, submit_request. simp_run.
  destruct (truthy_opt _); [|done]. simp_run.
  destruct (questions (this w)) as [[]|]; simp_run; try done.
  by destruct (forallb not_null items).
Qed.

Lemma generate_next_run res w :
  run (uploadAndGenerate_next res) w =
    if not_null res then (Normal tt, upd (loaded res) w)
    else (Throw TypeError, w).
Proof. eval_quiz. by destruct res. Qed.

Lemma generateFromText_next_run res w :
  run (generateFromText_next res) w =
    if not_null res then (Normal tt, upd (loaded res) w)
    else (Throw TypeError, w).
Proof. apply generate_next_run. Qed.

Lemma uploadAndGenerate_run w :
  run uploadAndGenerate w =
    match selectedFile (this w) with
    | Some file =>
        (Normal tt, sent (QuizService.generateQuizFromFile file) ObsGenerateFile
                      (upd (set_loading true) w))
    | None => (Normal tt, upd (set_error (JStr "Select a file first")) w)
    end.
Proof. eval_quiz. by destruct (selectedFile (this w)). Qed.

Lemma or_default_truthy o d : truthy d = true → truthy (or_default o d) = true.
Proof.
  intros Hd. destruct o as [v|]; simpl; [|done].
  by rewrite truthy_or_else, Hd, orb_true_r.
Qed.

Lemma answer_for_answer answers q : is_Some (get_prop "answer" (answer_for answers q)).
Proof.
  unfold answer_for, answer_object. destruct (get_prop "id" q); simpl; eauto.
Qed.

Lemma submit_request_for c rq :
  truthy_opt (quizId c) = true → submit_request c = Some rq →
  request_for (rq, ObsSubmit).
Proof.
  unfold submit_request. intros Hid Hrq. repeat case_match; simplify_eq.
  eexists _, _. split; [done|]. split.
  - by destruct (quizId c).
  - apply Forall_fmap, Forall_forall. intros q _. apply answer_for_answer.
Qed.

(** ** Steps *)

(** A step is a method call in the world as it is, or a callback in the
    world without its observer. *)
Lemma quiz_step_cases e w w' :
  quiz_step e w = Some w' →
  (∃ u, e = User u ∧ w' = exec (user_action u) w) ∨
  (∃ i b rq obs, e = Browser i b ∧ pending w !! i = Some (rq, obs) ∧
     w' = exec (callback obs b) (remove_pending i w)).
Proof.
  unfold quiz_step. destruct e as [u|i b]; simpl.
  - intros [= <-]. left. eauto.
  - destruct (pending w !! i) as [[rq obs]|] eqn:E; simpl; [|done].
    intros [= <-]. right. by eexists _, _, _, _.
Qed.

(** Split a step into the eleven handlers, each replaced by the world it
    leaves. *)
Ltac quiz_cases H :=
  let u := fresh "u" in let i := fresh "i" in let b := fresh "b" in
  let rq := fresh "rq" in let obs := fresh "obs" in let Hi := fresh "Hi" in
  apply quiz_step_cases in H
    as [(u & -> & ->)|(i & b & rq & obs & -> & Hi & ->)];
  [destruct u|destruct obs, b as [res|body]];
  unfold exec; simpl;
  rewrite ?submit_run, ?generate_next_run, ?generateFromText_next_run,
    ?uploadAndGenerate_run;
  unfold onFileSelected;
  repeat case_match; simpl.

Lemma no_null_quiz_not_null w i res rq obs :
  no_null_quiz w (Browser i (HttpNext res)) → pending w !! i = Some (rq, obs) →
  obs ≠ ObsSubmit → not_null res = true.
Proof.
  intros Hnull Hi Hobs. destruct res; try done.
  specialize (Hnull _ eq_refl). rewrite Hi in Hnull. naive_solver.
Qed.

Lemma loading_ok_step w e w' :
  loading_ok w → no_null_quiz w e → quiz_step e w = Some w' → loading_ok w'.
Proof.
  unfold loading_ok, generating. intros Hok Hnull Hstep.
  quiz_cases Hstep; try done; intros Hl;
    rewrite ?Exists_app, ?Exists_cons; try (by auto);
    try (by eapply Exists_delete_other; [done|simpl; tauto|auto]);
    by erewrite no_null_quiz_not_null in * by done.
Qed.

Lemma error_ok_step w e w' :
  error_ok w → quiz_step e w = Some w' → error_ok w'.
Proof.
  unfold error_ok. intros Hok Hstep. quiz_cases Hstep; auto.
  right. by apply or_default_truthy.
Qed.

Lemma error_kept_step w e w' :
  truthy (error (this w)) = true → quiz_step e w = Some w' →
  truthy (error (this w')) = true.
Proof.
  intros Hok Hstep. quiz_cases Hstep; auto. by apply or_default_truthy.
Qed.

Lemma quiz_requests_ok_step w e w' :
  quiz_requests_ok w → quiz_step e w = Some w' → quiz_requests_ok w'.
Proof.
  unfold quiz_requests_ok. intros Hok Hstep. quiz_cases Hstep;
    rewrite ?Forall_app, ?Forall_singleton;
    repeat split; eauto using Forall_delete_sub;
    try (by eexists);
    eapply submit_request_for; eauto.
Qed.

(** A reply takes its observer away and registers none; an action of the
    user registers at most one. *)
Lemma waiting_step e w w' :
  quiz_step e w = Some w' →
  replied e + length (pending w') ≤ length (pending w) + acted e.
Proof.
  intros Hstep. quiz_cases Hstep; rewrite ?length_app; simpl; try lia.
  all: rewrite length_delete by (by eexists); apply lookup_lt_Some in Hi; lia.
Qed.

Lemma quiz_requests_invariant_by ok : invariant_by quiz_machine ok quiz_requests_ok.
Proof.
  apply inductive_invariant. split; [by constructor|].
  intros w e w' Hw _. by apply quiz_requests_ok_step.
Qed.

(** ** Headline properties *)

(** C10.  When a quiz is loaded and its questions are an array without a
    [null], [submit] returns having posted one answer per question, in
    the order of the questions: the question's [id] with the answer typed
    under that id, or [""] when none or [null] was. *)
Theorem submit_sends_answers w items :
  truthy_opt (quizId (this w)) = true →
  questions (this w) = Some (JArr items) →
  forallb not_null items = true →
  ∃ answers,
    run submit w =
      (Normal tt,
       sent (QuizService.submitQuiz (default JNull (quizId (this w))) answers)
         ObsSubmit w) ∧
    length answers = length items ∧
    ∀ i q, items !! i = Some q →
      answers !! i =
        Some (answer_object (get_prop "id" q)
                (nullish_or (userAnswers (this w) !! template (get_prop "id" q))
                   (JStr ""))).
Proof.
  intros Hid Hqs Hnn. exists (answer_for (userAnswers (this w)) <$> items).
  rewrite submit_run, Hid. unfold submit_request. rewrite Hqs, Hnn.
  split; [done|]. split; [by rewrite length_fmap|].
  intros i q Hq. by rewrite list_lookup_fmap, Hq.
Qed.

(** [submit] throws exactly when a quiz id is set and the questions
    are not an array or hold a [null]; it then leaves the page as it was
    and sends nothing.  Without a quiz id it returns at once. *)
Theorem submit_throws w :
  (outcome submit w = Throw TypeError ↔
     truthy_opt (quizId (this w)) = true ∧ submit_request (this w) = None) ∧
  (returns (outcome submit w) = false ∨ truthy_opt (quizId (this w)) = false →
     exec submit w = w).
Proof.
  unfold outcome, exec. rewrite submit_run.
  destruct (truthy_opt _), (submit_request _); simpl; intuition congruence.
Qed.

(** A reply that is not [null] loads the quiz: the id and the
    questions are the properties of the reply, missing ones included, the
    answers are emptied, the result is cleared and the spinner stops; the
    message and the waiting observers stay.  Both generation callbacks
    do the same. *)
Theorem generate_next_loads res w :
  not_null res = true →
  let w' := exec (uploadAndGenerate_next res) w in
  exec (generateFromText_next res) w = w' ∧
  quizId (this w') = get_prop "quiz_id" res ∧
  questions (this w') = get_prop "questions" res ∧
  userAnswers (this w') = ∅ ∧ result (this w') = JNull ∧
  loading (this w') = false ∧ error (this w') = error (this w) ∧
  selectedFile (this w') = selectedFile (this w) ∧ pending w' = pending w.
Proof.
  intros Hres. unfold exec.
  by rewrite generateFromText_next_run, generate_next_run, Hres.
Qed.

(** A [null] reply makes either generation callback throw at its
    first statement: no field changes, so a spinner that was shown stays
    shown. *)
Theorem generate_next_null w :
  run (uploadAndGenerate_next JNull) w = (Throw TypeError, w) ∧
  run (generateFromText_next JNull) w = (Throw TypeError, w).
Proof. by rewrite generateFromText_next_run, generate_next_run. Qed.

(** C14.  On every run in which no generation request is answered with
    [null], the spinner is shown only while an observer of a generation
    request is waiting. *)
Theorem loading_ok_invariant : invariant_by quiz_machine no_null_quiz loading_ok.
Proof.
  apply inductive_invariant. split; [done|]. apply loading_ok_step.
Qed.

(** The message field is [null] or holds a truthy value on every
    run: the template never shows an empty message. *)
Theorem error_ok_invariant : invariant quiz_machine error_ok.
Proof.
  apply inductive_invariant. split; [by left|]. intros ?????.
  by eapply error_ok_step.
Qed.

(** C37.  No method or callback clears the message: once one is shown it
    is shown after every further run, successful replies included. *)
Theorem error_never_cleared (es : list quiz_event) (w w' : World) :
  truthy (error (this w)) = true →
  exec_events (M:=quiz_machine) es w = Some w' →
  truthy (error (this w')) = true.
Proof.
  apply (exec_events_stable (M:=quiz_machine)
           (λ w : World, truthy (error (this w)) = true)).
  intros ???. apply error_kept_step.
Qed.

(** On every run each waiting observer was registered with the
    request of its method: the two generation requests, or a submission
    that names a truthy quiz id and whose answer objects all have an
    [answer]. *)
Theorem quiz_requests_invariant : invariant quiz_machine quiz_requests_ok.
Proof.
  apply inductive_invariant. split; [by constructor|]. intros ?????.
  by eapply quiz_requests_ok_step.
Qed.

(** C34.  Every reply answers a call: over any run of the quiz page the
    replies delivered and the observers still waiting are at most the
    actions of the user, and no callback of the page starts a request. *)
Theorem replies_per_call (es : list quiz_event) (w : World) :
  exec_events (M:=quiz_machine) es new_World = Some w →
  list_sum (replied <$> es) + length (pending w) ≤ list_sum (acted <$> es).
Proof.
  intros Hrun.
  by apply (exec_events_potential (M:=quiz_machine) (λ w, length (pending w))
              replied acted waiting_step es new_World w).
Qed.
