(* ===== verification/QuizDefects.v ===== *)
(** * QuizDefects: what the quiz page never undoes

    The defects of [QuizComponent], each stated for every world and every
    run rather than for one run: a [null] reply to a generation request
    leaves the spinner turning until another quiz is asked for; a reply
    that names a quiz without questions that can be answered is loaded,
    and [submit] then throws; a score that arrives after another quiz
    was loaded is shown beside that quiz.  [QuizScenarios] holds a run
    that reaches each of them. *)

From stdpp Require Import gmap.
From S2P Require Import Prelude JsString JsValue Action Machine Http Quiz QuizProps.
Import QuizPage.

(** ** Definitions *)

(** The user asks for a quiz. *)
Definition generates (e : quiz_event) : bool :=
  match e with
  | User CallUploadAndGenerate | User (CallGenerateFromText _) => true
  | _ => false
  end.

(** The spinner turns and no generation request is under way. *)
Definition quiz_stuck (w : World) : Prop :=
  loading (this w) = true ∧ ¬ generating w.

(** The questions of a reply cannot be answered: they are missing, not
    an array, or an array that holds a [null]. *)
Definition unanswerable (res : json) : Prop :=
  ∀ items, get_prop "questions" res = Some (JArr items) →
           forallb not_null items = false.

(** ** The spinner *)

Lemma generating_lookup w i rq obs :
  pending w !! i = Some (rq, obs) → obs ≠ ObsSubmit → generating w.
Proof.
  intros Hi Hobs. apply Exists_exists. exists (rq, obs).
  eauto using list_elem_of_lookup_2.
Qed.

Lemma quiz_stuck_step e w w' :
  quiz_stuck w → generates e = false → quiz_step e w = Some w' → quiz_stuck w'.
Proof.
  intros [Hflag Hnone] He Hstep.
  quiz_cases Hstep; try discriminate He;
    try (by destruct Hnone; eapply generating_lookup);
    (split; [done|]); unfold generating in *; simpl;
    rewrite ?Exists_app, ?Exists_cons, ?Exists_nil; simpl;
    first [tauto | by intros ?%Exists_delete_sub
          | intros [?%Exists_delete_sub|?]; tauto].
Qed.

Lemma quiz_stuck_run es w w' :
  quiz_stuck w → Forall (λ e, generates e = false) es →
  exec_events (M:=quiz_machine) es w = Some w' → quiz_stuck w'.
Proof.
  intros Hw Hes; revert w Hw; induction Hes as [|e es He Hes IH];
    intros w Hw; simpl.
  - by intros [= <-].
  - destruct (quiz_step e w) as [w1|] eqn:E; [|done].
    eauto using quiz_stuck_step.
Qed.

(** ** Headline properties *)

(** C29.  A [null] reply to a generation request, when no other
    generation request is under way, throws in the callback, shows no
    message and leaves the spinner turning; whatever arrives and
    whatever the user does afterwards, short of asking for another quiz,
    the spinner keeps turning. *)
Theorem null_quiz_sticks w i rq obs :
  pending w !! i = Some (rq, obs) → obs ≠ ObsSubmit →
  loading (this w) = true →
  ¬ Exists (λ t, t.2 ≠ ObsSubmit) (delete i (pending w)) →
  ∃ w1, quiz_step (Browser i (HttpNext JNull)) w = Some w1 ∧
    quiz_outcome (Browser i (HttpNext JNull)) w = Some (Throw TypeError) ∧
    error (this w1) = error (this w) ∧
    ∀ es w', Forall (λ e, generates e = false) es →
      exec_events (M:=quiz_machine) es w1 = Some w' →
      loading (this w') = true ∧ ¬ generating w'.
Proof.
  intros Hi Hobs Hflag Hnone. exists (remove_pending i w).
  assert (quiz_step (Browser i (HttpNext JNull)) w = Some (remove_pending i w)
          ∧ quiz_outcome (Browser i (HttpNext JNull)) w = Some (Throw TypeError))
    as [Hstep Hout].
  { unfold quiz_step, quiz_outcome. simpl. rewrite Hi. by destruct obs. }
  split; [done|]. split; [done|]. split; [done|].
  intros es w'. by apply quiz_stuck_run.
Qed.

(** C32.  A reply that names a quiz but whose questions are missing, not
    an array, or hold a [null] is loaded like any other: the spinner
    stops and no message is shown.  From then on [submit] throws a
    TypeError, sends nothing and shows nothing, however often it is
    called. *)
Theorem submit_after_bad_reply w i rq obs res :
  pending w !! i = Some (rq, obs) → obs ≠ ObsSubmit →
  truthy_opt (get_prop "quiz_id" res) = true → unanswerable res →
  ∃ w1, quiz_step (Browser i (HttpNext res)) w = Some w1 ∧
    quiz_outcome (Browser i (HttpNext res)) w = Some (Normal tt) ∧
    loading (this w1) = false ∧ error (this w1) = error (this w) ∧
    quiz_outcome (User CallSubmit) w1 = Some (Throw TypeError) ∧
    quiz_step (User CallSubmit) w1 = Some w1.
Proof.
  intros Hi Hobs Hid Hqs.
  assert (not_null res = true) as Hres by (by destruct res).
  exists (upd (loaded res) (remove_pending i w)).
  assert (submit_request (loaded res (this w)) = None) as Hreq.
  { unfold submit_request. simpl.
    destruct (get_prop "questions" res) as [[]|] eqn:E; try done.
    by rewrite (Hqs _ E). }
  unfold quiz_step, quiz_outcome, exec, outcome. simpl. rewrite Hi. simpl.
  rewrite submit_run. simpl. rewrite Hid, Hreq.
  destruct obs; [..|done]; simpl;
    rewrite ?generate_next_run, ?generateFromText_next_run, Hres; done.
Qed.

(** C31.  The score of a submission is shown beside whatever quiz is
    loaded when it arrives.  In every world the page reaches, when a
    quiz arrives while a submission is under way and the score of the
    submission arrives after it, the page shows that score as the result
    of the new quiz, with its answers empty: the callback of [submit]
    does not compare the quiz it was sent for with the quiz loaded. *)
Theorem late_score_shown w i j rq rq' obs res score :
  reachable quiz_machine w → i < j →
  pending w !! i = Some (rq, ObsSubmit) →
  pending w !! j = Some (rq', obs) → obs ≠ ObsSubmit →
  not_null res = true →
  ∃ id answers w',
    rq = QuizService.submitQuiz id answers ∧
    exec_events (M:=quiz_machine)
      [Browser j (HttpNext res); Browser i (HttpNext score)] w = Some w' ∧
    result (this w') = score ∧
    quizId (this w') = get_prop "quiz_id" res ∧
    questions (this w') = get_prop "questions" res ∧
    userAnswers (this w') = ∅.
Proof.
  intros Hw Hij Hi Hj Hobs Hres.
  pose proof (quiz_requests_invariant_by _ w Hw) as Hrq.
  unfold quiz_requests_ok in Hrq. rewrite Forall_forall in Hrq.
  destruct (Hrq (rq, ObsSubmit)) as (id & answers & Heq & _);
    [by eapply list_elem_of_lookup_2|]. simpl in Heq. subst rq.
  exists id, answers. eexists. split; [done|].
  simpl. unfold quiz_step at 1. simpl. rewrite Hj. simpl.
  assert (exec (callback obs (HttpNext res)) (remove_pending j w)
          = upd (loaded res) (remove_pending j w)) as ->.
  { unfold exec. destruct obs; [..|done]; simpl;
      by rewrite ?generate_next_run, ?generateFromText_next_run, Hres. }
  unfold quiz_step. simpl. rewrite list_lookup_delete_lt, Hi by done. done.
Qed.
