(* ===== verification/QuizWire.v ===== *)
(** * QuizWire: what a submission carries

    [submit] posts the object [{ quiz_id, answers }] (quiz.service.ts,
    line 24), which [HttpClient] sends as JSON text.  The quiz id and the
    ids of the questions come from the reply that loaded the quiz, the
    answers from what the user typed.  As long as the replies delivered
    and the answers typed are well-formed values, the body of every
    submission in flight is read back by its receiver as the object
    posted. *)

From stdpp Require Import gmap.
From S2P Require Import Prelude JsString JsValue JsonText Action Machine Http Quiz QuizProps.
Import QuizPage.

(** ** Definitions *)

(** A property that may be missing is well-formed when it is there. *)
Definition wf_opt (o : option json) : Prop :=
  match o with
  | Some v => wf_json v = true
  | None => True
  end.

(** The replies delivered and the answers typed are well-formed. *)
Definition wf_inputs (w : World) (e : quiz_event) : Prop :=
  match e with
  | Browser _ (HttpNext res) => wf_json res = true
  | User (TypeAnswer _ v) => wf_json v = true
  | _ => True
  end.

(** The JSON body of a request, if it has one, is well-formed. *)
Definition body_ok (t : request * observer) : Prop :=
  match req_body t.1 with
  | JsonBody v => wf_json v = true
  | FormBody _ => True
  end.

(** What the component holds and what it has sent is well-formed. *)
Record quiz_wf (w : World) : Prop := {
  wf_quizId : wf_opt (quizId (this w));
  wf_questions : wf_opt (questions (this w));
  wf_userAnswers : map_Forall (λ _ v, wf_json v = true) (userAnswers (this w));
  wf_pending : Forall body_ok (pending w);
}.

(** ** The answers *)

Lemma wf_answer_object id a :
  wf_opt id → wf_json a = true → wf_json (answer_object id a) = true.
Proof.
  intros Hid Ha. destruct id as [v|]; simpl in *; by rewrite ?Hid, Ha.
Qed.

Lemma wf_answer_for answers q :
  map_Forall (λ _ v, wf_json v = true) answers → wf_json q = true →
  wf_json (answer_for answers q) = true.
Proof.
  intros Hans Hq. apply wf_answer_object.
  - destruct (get_prop "id" q) as [v|] eqn:E; [|done].
    by eapply wf_json_get_prop.
  - destruct (answers !! _) as [[]|] eqn:E; simpl; try done;
      by apply (Hans _ _ E).
Qed.

(** The request [submit] builds from well-formed fields has a well-formed
    body. *)
Lemma submit_request_wf c rq :
  wf_opt (quizId c) → wf_opt (questions c) →
  map_Forall (λ _ v, wf_json v = true) (userAnswers c) →
  submit_request c = Some rq → body_ok (rq, ObsSubmit).
Proof.
  unfold submit_request, body_ok. intros Hid Hqs Hans Hrq.
  destruct (questions c) as [[| | | |items|]|] eqn:Eq; try done.
  destruct (forallb not_null items); simplify_eq. simpl.
  apply andb_true_iff. split; [by destruct (quizId c)|].
  rewrite andb_true_r. apply forallb_Forall, Forall_fmap, Forall_forall.
  intros q Hq. apply wf_answer_for; [done|]. by eapply wf_json_elem.
Qed.

Lemma wf_opt_get_prop k v : wf_json v = true → wf_opt (get_prop k v).
Proof.
  intros Hv. destruct (get_prop k v) as [x|] eqn:E; [|done].
  by eapply wf_json_get_prop.
Qed.

(** ** The invariant *)

Lemma quiz_wf_step w e w' :
  quiz_wf w → wf_inputs w e → quiz_step e w = Some w' → quiz_wf w'.
Proof.
  intros [H1 H2 H3 H4] Hin Hstep. quiz_cases Hstep; split; simpl;
    rewrite ?Forall_app, ?Forall_singleton;
    eauto using Forall_delete_sub, submit_request_wf;
    try done;
    by (apply map_Forall_insert_2 || apply wf_opt_get_prop).
Qed.

Lemma quiz_wf_reachable : invariant_by quiz_machine wf_inputs quiz_wf.
Proof.
  apply inductive_invariant. split; [|apply quiz_wf_step].
  split; simpl; try done.
Qed.

(** ** Theorems *)

(** C19.  As long as the replies delivered and the answers typed are
    well-formed JSON values, the body of every submission in flight is
    the object [{ quiz_id, answers }] built by [submitQuiz], and its
    receiver reads that object back from the text [HttpClient] sends. *)
Theorem submission_read_back w rq :
  reachable_by quiz_machine wf_inputs w → (rq, ObsSubmit) ∈ pending w →
  ∃ id answers,
    rq = QuizService.submitQuiz id answers ∧
    body_text (req_body rq) ≫= parse
    = Some (JObj [("quiz_id", id); ("answers", JArr answers)]).
Proof.
  intros Hw Hin.
  pose proof (quiz_wf_reachable w Hw) as [_ _ _ Hb].
  pose proof (quiz_requests_invariant_by _ w Hw) as Hrq.
  unfold quiz_requests_ok in Hrq. rewrite Forall_forall in Hb, Hrq.
  destruct (Hrq _ Hin) as (id & answers & Heq & _). simpl in Heq. subst rq.
  exists id, answers. split; [done|].
  apply body_text_read_back, (Hb _ Hin).
Qed.

