(* ===== verification/QuizRefinement.v ===== *)
(** * QuizRefinement: the quiz page implements a quiz session

    [session_machine] is the quiz page as a user who waits for each reply
    sees it: a session is idle, generating a quiz or submitting answers,
    and remembers whether a file is chosen, whether a quiz is loaded and
    can be answered, whether a score is shown and whether a message is
    shown.  It knows nothing of files, texts, ids and requests.

    [session_of] reads the session off a world of the page; it is a
    function, so the refinement is a commuting square: on [orderly] runs
    (the user acts only while nothing waits, no generation request is
    answered with [null]) the session of the world after an event is the
    step of the session before it.  The spinner then shows exactly while
    a quiz is generated, and at most one observer waits. *)

From stdpp Require Import gmap.
From S2P Require Import Prelude JsString JsValue Action Machine Http Quiz QuizProps.
Import QuizPage.

(** ** The abstract machine *)

Inductive stage : Type := Idle | Generating | Submitting.

#[export] Instance stage_eq_dec : EqDecision stage.
Proof. solve_decision. Defined.

Record Session : Type := {
  at_stage : stage;
  chosen : bool;
  quiz : bool;
  answerable : bool;
  scored : bool;
  message : bool;
}.

(** What a reply holds, as far as the session can tell: a falsy value
    ([null], [false], [0], [""]), which has no property, or a truthy one
    that may name a quiz and may hold questions that can be answered. *)
Inductive Reply : Type :=
| Falsy
| Truthy (named answered : bool).

Definition names_quiz (r : Reply) : bool :=
  match r with
  | Truthy named _ => named
  | Falsy => false
  end.

Definition has_questions (r : Reply) : bool :=
  match r with
  | Truthy _ answered => answered
  | Falsy => false
  end.

Definition is_truthy (r : Reply) : bool :=
  match r with
  | Truthy _ _ => true
  | Falsy => false
  end.

Inductive session_event : Type :=
| SChoose (some : bool)
| SGenerateFile
| SGenerateText
| SType
| SSubmit
| SReply (r : Reply)
| SFailure.

Definition new_Session : Session :=
  {| at_stage := Idle; chosen := false; quiz := false; answerable := true;
     scored := false; message := false |}.

(** The session at stage [s], the rest unchanged. *)
Definition at_ (s : stage) (a : Session) : Session :=
  {| at_stage := s; chosen := chosen a; quiz := quiz a;
     answerable := answerable a; scored := scored a; message := message a |}.

(** The session with a message shown. *)
Definition warned (a : Session) : Session :=
  {| at_stage := Idle; chosen := chosen a; quiz := quiz a;
     answerable := answerable a; scored := scored a; message := true |}.

(** The session.  [None]: the event does not occur at this stage. *)
Definition session_step (e : session_event) (a : Session) : option Session :=
  match at_stage a, e with
  | Idle, SChoose some =>
      Some {| at_stage := Idle; chosen := chosen a || some; quiz := quiz a;
              answerable := answerable a; scored := scored a;
              message := message a |}
  | Idle, SGenerateFile => Some (if chosen a then at_ Generating a else warned a)
  | Idle, SGenerateText => Some (at_ Generating a)
  | Idle, SType => Some a
  | Idle, SSubmit =>
      Some (if quiz a && answerable a then at_ Submitting a else a)
  | Generating, SReply r =>
      Some {| at_stage := Idle; chosen := chosen a; quiz := names_quiz r;
              answerable := has_questions r; scored := false;
              message := message a |}
  | Submitting, SReply r =>
      Some {| at_stage := Idle; chosen := chosen a; quiz := quiz a;
              answerable := answerable a; scored := is_truthy r;
              message := message a |}
  | (Generating | Submitting), SFailure => Some (warned a)
  | _, _ => None
  end.

#[export] Instance session_machine : Machine :=
  {| state := Session; event := session_event;
     initial := new_Session; step := session_step |}.

(** ** From the page to the session *)

(** The questions are an array without a [null]: [submit] can build its
    answers. *)
Definition can_answer (qs : option json) : bool :=
  match qs with
  | Some (JArr items) => forallb not_null items
  | _ => false
  end.

(** The stage at which the observers wait. *)
Definition stage_of (l : list (request * observer)) : stage :=
  match l with
  | [] => Idle
  | (_, ObsSubmit) :: _ => Submitting
  | (_, (ObsGenerateFile | ObsGenerateText)) :: _ => Generating
  end.

(** The session a world of the page shows. *)
Definition session_of (w : World) : Session :=
  {| at_stage := stage_of (pending w);
     chosen := bool_decide (is_Some (selectedFile (this w)));
     quiz := truthy_opt (quizId (this w));
     answerable := can_answer (questions (this w));
     scored := truthy (result (this w));
     message := truthy (error (this w)) |}.

(** What the session sees of a reply. *)
Definition reply_of (res : json) : Reply :=
  if truthy res
  then Truthy (truthy_opt (get_prop "quiz_id" res))
              (can_answer (get_prop "questions" res))
  else Falsy.

(** What the session sees of an event. *)
Definition session_event_of (e : quiz_event) : option session_event :=
  Some match e with
       | User (SelectFile files) => SChoose (bool_decide (is_Some (head files)))
       | User CallUploadAndGenerate => SGenerateFile
       | User (CallGenerateFromText _) => SGenerateText
       | User (TypeAnswer _ _) => SType
       | User CallSubmit => SSubmit
       | Browser _ (HttpNext res) => SReply (reply_of res)
       | Browser _ (HttpError _) => SFailure
       end.

(** The user acts only while nothing waits, and no generation request is
    answered with [null]. *)
Definition orderly (w : World) (e : quiz_event) : Prop :=
  match e with
  | User _ => pending w = []
  | Browser i (HttpNext res) =>
      ∀ rq obs, pending w !! i = Some (rq, obs) → obs ≠ ObsSubmit → not_null res = true
  | Browser _ (HttpError _) => True
  end.

(** ** From the session back to the page *)

(** A reply that the session sees as [r]. *)
Definition body_for (r : Reply) : json :=
  match r with
  | Falsy => JStr ""
  | Truthy named answered =>
      JObj ((if named then [("quiz_id", JStr "q1")] else []) ++
            (if answered then [("questions", JArr [])] else []))
  end.

(** An event of the page that the session sees as [e']. *)
Definition event_for (e' : session_event) : quiz_event :=
  match e' with
  | SChoose some =>
      User (SelectFile
              (if some
               then [{| file_name := "cv.pdf";
                        file_content := {| blob_data := []; blob_type := "" |} |}]
               else []))
  | SGenerateFile => User CallUploadAndGenerate
  | SGenerateText => User (CallGenerateFromText "")
  | SType => User (TypeAnswer "" JNull)
  | SSubmit => User CallSubmit
  | SReply r => Browser 0 (HttpNext (body_for r))
  | SFailure => Browser 0 (HttpError JNull)
  end.

(** At most one observer waits, and the spinner turns exactly while a
    quiz is generated. *)
Record tidy (w : World) : Prop := {
  tidy_pending : length (pending w) ≤ 1;
  tidy_loading :
    loading (this w) = bool_decide (stage_of (pending w) = Generating);
}.

(** The world [w] shows the session [a]. *)
Definition quiz_shows (w : World) (a : Session) : Prop :=
  a = session_of w ∧ tidy w.

(** Answers are submitted, and a score is shown, only for a quiz that is
    loaded and can be answered. *)
Definition score_ok (a : Session) : Prop :=
  at_stage a = Submitting ∨ scored a = true → quiz a && answerable a = true.

(** ** Lemmas *)

Lemma single_pending {A} (l : list A) i x :
  length l ≤ 1 → l !! i = Some x → l = [x] ∧ i = 0.
Proof. destruct l as [|y [|]], i; naive_solver (simpl in *; lia). Qed.

Lemma can_answer_submit_request c :
  can_answer (questions c) = bool_decide (is_Some (submit_request c)).
Proof.
  unfold submit_request, can_answer.
  destruct (questions c) as [[]|]; try done.
  destruct (forallb _ _); [by rewrite bool_decide_eq_true_2|done].
Qed.

Lemma falsy_get_prop k v : truthy v = false → get_prop k v = None.
Proof. by destruct v. Qed.

Lemma names_quiz_reply_of res :
  names_quiz (reply_of res) = truthy_opt (get_prop "quiz_id" res).
Proof.
  unfold reply_of. destruct (truthy res) eqn:E; [done|].
  by rewrite falsy_get_prop.
Qed.

Lemma has_questions_reply_of res :
  has_questions (reply_of res) = can_answer (get_prop "questions" res).
Proof.
  unfold reply_of. destruct (truthy res) eqn:E; [done|].
  by rewrite falsy_get_prop.
Qed.

Lemma is_truthy_reply_of res : is_truthy (reply_of res) = truthy res.
Proof. unfold reply_of. by destruct (truthy res). Qed.

Lemma reply_of_body_for r : reply_of (body_for r) = r.
Proof. by destruct r as [|[] []]. Qed.

Lemma session_event_for e' : session_event_of (event_for e') = Some e'.
Proof.
  destruct e' as [[]| | | | |r|]; unfold session_event_of, event_for;
    by rewrite ?reply_of_body_for.
Qed.

(** Rewrite with the equations a case analysis left. *)
Ltac use_cases :=
  repeat match goal with
         | H : ?x = _ |- context [?x] => rewrite H
         end.

(** Split a step of a tidy world on an orderly event into its handlers:
    the user's with nothing waiting, the callbacks with their observer
    alone. *)
Ltac orderly_cases Hw Hok Hstep :=
  destruct Hw as [Hlen Hload]; quiz_cases Hstep; simpl in Hok;
  try match goal with
      | Hi : pending _ !! _ = Some _ |- _ =>
          destruct (single_pending _ _ _ Hlen Hi) as [Hp ->]
      end;
  try match goal with
      | H : not_null _ = false |- _ =>
          by erewrite Hok in H by (eassumption || done)
      end.

Lemma tidy_step w e w' :
  tidy w → orderly w e → quiz_step e w = Some w' → tidy w'.
Proof.
  intros Hw Hok Hstep. orderly_cases Hw Hok Hstep.
  all: split; simpl; rewrite ?Hok, ?Hp in *; simpl; try done; lia.
Qed.

Lemma session_of_step w e w' :
  tidy w → orderly w e → quiz_step e w = Some w' →
  (session_event_of e ≫= λ e', session_step e' (session_of w))
  = Some (session_of w').
Proof.
  intros Hw Hok Hstep. orderly_cases Hw Hok Hstep.
  all: unfold session_step, session_of; simpl; rewrite ?Hok, ?Hp; simpl.
  all: rewrite ?names_quiz_reply_of, ?has_questions_reply_of, ?is_truthy_reply_of.
  all: rewrite ?can_answer_submit_request; use_cases; simpl.
  all: unfold warned; simpl.
  all: rewrite ?orb_true_r, ?orb_false_r, ?or_default_truthy by done; try done.
Qed.

Lemma quiz_shows_initial : quiz_shows new_World new_Session.
Proof. by split; [|split; simpl; [lia|]]. Qed.

(** An event of the session can be delivered to a world that shows
    it. *)
Lemma session_step_enabled w e' a' :
  tidy w → session_step e' (session_of w) = Some a' →
  orderly w (event_for e') ∧ is_Some (quiz_step (event_for e') w).
Proof.
  intros [Hlen _]. unfold session_step, quiz_step. simpl.
  destruct (pending w) as [|[rq []] [|]] eqn:Hp, e' as [| | | | |[|[] []]|];
    simpl in *; rewrite ?Hp; try done; try lia.
  all: split; [|by eexists].
  all: intros ?? [= <- <-] ?; done.
Qed.

(** ** The refinement *)

Lemma quiz_simulation :
  simulation quiz_machine session_machine orderly quiz_shows session_event_of.
Proof.
  split; [apply quiz_shows_initial|].
  intros w e w' a [-> Hw] Hok Hstep.
  pose proof (session_of_step _ _ _ Hw Hok Hstep) as Ha.
  destruct (session_event_of e) as [e'|]; [|done].
  exists (session_of w'). split; [done|]. split; [done|].
  by eapply tidy_step.
Qed.

Lemma quiz_complete :
  complete quiz_machine session_machine orderly quiz_shows session_event_of.
Proof.
  intros w a e' a' [-> Hw] Hstep.
  destruct (session_step_enabled _ _ _ Hw Hstep) as [Hok [w' Hw']].
  pose proof (session_of_step _ _ _ Hw Hok Hw') as Ha.
  rewrite session_event_for in Ha. simpl in *.
  exists (event_for e'), w'.
  split; [apply session_event_for|]. split; [done|]. split; [done|].
  split; [congruence|by eapply tidy_step].
Qed.

(** C6.  On every orderly run of the quiz page (the user acts only while
    no request waits, no generation request is answered with [null]) the
    page behaves as the quiz session: the session sees the events of the
    run as a run of its own, which ends in the session the page shows;
    at most one request waits and the spinner turns exactly while a quiz
    is generated. *)
Theorem quiz_refines_session es w :
  permitted (M:=quiz_machine) orderly es new_World →
  exec_events (M:=quiz_machine) es new_World = Some w →
  exec_events (M:=session_machine)
    (abs_events quiz_machine session_machine session_event_of es) new_Session
  = Some (session_of w) ∧
  length (pending w) ≤ 1 ∧
  (loading (this w) = true ↔ at_stage (session_of w) = Generating).
Proof.
  intros Hes Hrun.
  destruct (simulation_exec_events _ _ _ _ _ es _ _ _ quiz_simulation
              Hes quiz_shows_initial Hrun) as (a & Ha & -> & Hlen & Hload).
  split; [done|]. split; [done|]. rewrite Hload. apply bool_decide_eq_true.
Qed.

(** C23.  Every run of the quiz session is the image of an orderly run of
    the page: the session describes nothing the page cannot do. *)
Theorem session_runs_realized aes a :
  exec_events (M:=session_machine) aes new_Session = Some a →
  ∃ es w,
    permitted (M:=quiz_machine) orderly es new_World ∧
    exec_events (M:=quiz_machine) es new_World = Some w ∧
    abs_events quiz_machine session_machine session_event_of es = aes ∧
    a = session_of w.
Proof.
  intros Hrun.
  destruct (complete_exec_events _ _ _ _ _ aes _ _ _ quiz_complete
              quiz_shows_initial Hrun) as (es & w & Hes & Hw & Habs & _ & HR).
  exists es, w. by destruct HR.
Qed.

Lemma score_ok_step a e a' :
  score_ok a → session_step e a = Some a' → score_ok a'.
Proof.
  unfold score_ok, session_step. destruct a as [[] c q n r m], e; simpl;
    intros Hok [= <-]; repeat case_match; simpl in *; intuition congruence.
Qed.

Lemma score_ok_invariant : invariant session_machine score_ok.
Proof.
  apply inductive_invariant. split; [by intros [|]|].
  intros a e a' Ha _. by apply score_ok_step.
Qed.

(** C26.  On an orderly run the quiz page submits answers, and shows a
    score, only while a quiz with a truthy id is loaded whose questions
    are an array without a [null]: the property of the session carries
    over to the page. *)
Theorem score_has_quiz w :
  reachable_by quiz_machine orderly w →
  (∃ rq, pending w = [(rq, ObsSubmit)]) ∨ truthy (result (this w)) = true →
  truthy_opt (quizId (this w)) = true ∧ is_Some (submit_request (this w)).
Proof.
  intros Hw Hs.
  apply (simulation_invariant quiz_machine session_machine _ _ _
           score_ok (score_ok ∘ session_of)
           quiz_simulation score_ok_invariant) in Hw; [|by intros ?? [-> _]].
  unfold compose, score_ok in Hw. simpl in Hw.
  rewrite can_answer_submit_request, andb_true_iff, bool_decide_eq_true in Hw.
  apply Hw. destruct Hs as [[rq ->]|]; auto.
Qed.
