(* ===== verification/QuizScenarios.v ===== *)
(** * QuizScenarios: runs of the quiz page

    The quiz page run on concrete data: a session from the choice of a
    file to the score, and the runs that end where it should not be
    possible to end.  Each run is evaluated by the kernel.  The last
    parts apply the theorems of [QuizProps], [QuizDefects], [QuizWire]
    and [QuizRefinement] that have hypotheses to the worlds of these
    runs. *)

From stdpp Require Import gmap.
From S2P Require Import Prelude JsString JsValue JsonText Action Machine Http Quiz QuizProps QuizDefects QuizWire QuizRefinement.
Import QuizPage.

(** ** Data *)

Definition notes : File :=
  {| file_name := "notes.pdf";
     file_content := {| blob_data := [37; 80; 68; 70]%N; blob_type := "application/pdf" |} |}.

(** A question of the quiz. *)
Definition question (id : string) (text : string) : json :=
  JObj [("id", JNum id); ("question", JStr text)].

(** The reply to a generation request: a quiz of two questions. *)
Definition quiz1 : json :=
  JObj [("quiz_id", JStr "q1");
        ("questions", JArr [question "1" "What is a monad?";
                            question "2" "What is a functor?"])].

(** A second quiz. *)
Definition quiz2 : json :=
  JObj [("quiz_id", JStr "q2");
        ("questions", JArr [question "7" "What is a lens?"])].

(** A reply without the questions. *)
Definition quiz_without_questions : json := JObj [("quiz_id", JStr "q3")].

(** A quiz whose questions carry no [id]. *)
Definition quiz_without_ids : json :=
  JObj [("quiz_id", JStr "q4");
        ("questions", JArr [JObj [("question", JStr "First?")];
                            JObj [("question", JStr "Second?")]])].

(** The reply to a submission. *)
Definition score : json := JObj [("score", JNum "1"); ("total", JNum "2")].

(** ** Runs *)

(** A quiz is generated from a file and the first question answered. *)
Definition answered : list quiz_event :=
  [ User (SelectFile [notes]);
    User CallUploadAndGenerate;
    Browser 0 (HttpNext quiz1);
    User (TypeAnswer "1" (JStr "A burrito")) ].

(** The answers are submitted. *)
Definition submitted : list quiz_event := answered ++ [User CallSubmit].

(** The score arrives. *)
Definition session : list quiz_event := submitted ++ [Browser 0 (HttpNext score)].

(** The button is pressed before a file is chosen; then a quiz is
    generated without trouble. *)
Definition early_click : list quiz_event :=
  [ User CallUploadAndGenerate;
    User (SelectFile [notes]);
    User CallUploadAndGenerate;
    Browser 0 (HttpNext quiz1) ].

(** A generation request is answered with [null]. *)
Definition null_quiz : list quiz_event :=
  [ User (CallGenerateFromText "Monads");
    Browser 0 (HttpNext JNull) ].

(** The reply has no questions. *)
Definition no_questions : list quiz_event :=
  [ User (CallGenerateFromText "Monads");
    Browser 0 (HttpNext quiz_without_questions) ].

(** A new quiz is generated while the submission of the first is under
    way, and the score of the first arrives last. *)
Definition late_score : list quiz_event :=
  submitted
  ++ [ User (CallGenerateFromText "Lenses");
       Browser 1 (HttpNext quiz2);
       Browser 0 (HttpNext score) ].

(** Two questions without [id] and one answer typed. *)
Definition shared_answer : list quiz_event :=
  [ User (CallGenerateFromText "Monads");
    Browser 0 (HttpNext quiz_without_ids);
    User (TypeAnswer "undefined" (JStr "Yes"));
    User CallSubmit ].

(** A second generation is started before the first is answered. *)
Definition two_generations : list quiz_event :=
  [ User (CallGenerateFromText "Monads");
    User (CallGenerateFromText "Lenses");
    Browser 0 (HttpNext quiz1) ].

(** A quiz without an id is loaded while the submission of the first is
    under way, and the score of the first arrives last. *)
Definition score_without_quiz : list quiz_event :=
  submitted
  ++ [ User (CallGenerateFromText "Lenses");
       Browser 1 (HttpNext (JObj []));
       Browser 0 (HttpNext score) ].

(** ** A whole session *)

(** In the session the submission carries the quiz id and one
    answer per question, the typed one for the first and [""] for the
    second; when the score has arrived it is the result, the spinner is
    off, no message is shown and no observer waits. *)
Theorem quiz_session_completes :
  pending (state_after (M:=quiz_machine) submitted) =
    [(QuizService.submitQuiz (JStr "q1")
        [JObj [("id", JNum "1"); ("answer", JStr "A burrito")];
         JObj [("id", JNum "2"); ("answer", JStr "")]], ObsSubmit)] ∧
  let w := state_after (M:=quiz_machine) session in
  result (this w) = score ∧ loading (this w) = false ∧
  error (this w) = JNull ∧ pending w = [] ∧
  quizId (this w) = Some (JStr "q1").
Proof. by vm_compute. Qed.

(** ** Runs that end where they should not *)

(** When the user does not wait for the score, a score can be shown
    while no quiz is loaded. *)
Theorem score_without_quiz_reachable :
  let w := state_after (M:=quiz_machine) score_without_quiz in
  reachable quiz_machine w ∧ ¬ permitted (M:=quiz_machine) orderly score_without_quiz new_World ∧
  truthy (result (this w)) = true ∧ truthy_opt (quizId (this w)) = false.
Proof.
  split; [apply state_after_reachable; run_happens|].
  split; [|by vm_compute]. vm_compute. naive_solver.
Qed.

(** A message set by a click made before a file was chosen is
    still shown after a quiz has been generated and loaded. *)
Theorem stale_message_reachable :
  let w := state_after (M:=quiz_machine) early_click in
  reachable quiz_machine w ∧
  error (this w) = JStr "Select a file first" ∧
  quizId (this w) = Some (JStr "q1") ∧ loading (this w) = false ∧
  pending w = [].
Proof. split; [apply state_after_reachable; run_happens|by vm_compute]. Qed.

(** After a [null] reply to a generation request the spinner is
    shown, nothing is waiting and no message is shown: the page stays
    that way until the user starts again. *)
Theorem quiz_spinner_stuck_reachable :
  let w := state_after (M:=quiz_machine) null_quiz in
  reachable quiz_machine w ∧ loading (this w) = true ∧ pending w = [] ∧
  error (this w) = JNull ∧
  quiz_outcome (Browser 0 (HttpNext JNull))
    (state_after (M:=quiz_machine) [User (CallGenerateFromText "Monads")])
    = Some (Throw TypeError).
Proof. split; [apply state_after_reachable; run_happens|by vm_compute]. Qed.

(** A reply that names a quiz and has no [questions] property is
    loaded with [questions] undefined, and [submit] then throws a
    TypeError and sends nothing. *)
Theorem submit_without_questions_throws :
  let w := state_after (M:=quiz_machine) no_questions in
  reachable quiz_machine w ∧ questions (this w) = None ∧
  run submit w = (Throw TypeError, w).
Proof. split; [apply state_after_reachable; run_happens|by vm_compute]. Qed.

(** The score of a quiz can arrive after the next quiz has been
    loaded: it is then shown as the result beside the new quiz, whose
    answers are still empty. *)
Theorem late_score_reachable :
  let w := state_after (M:=quiz_machine) late_score in
  reachable quiz_machine w ∧ result (this w) = score ∧
  quizId (this w) = Some (JStr "q2") ∧ userAnswers (this w) = ∅ ∧
  pending w = [].
Proof. split; [apply state_after_reachable; run_happens|by vm_compute]. Qed.

(** Questions without an [id] share the answer typed under the
    name [undefined], and the answer objects sent carry no [id]. *)
Theorem shared_answer_reachable :
  let w := state_after (M:=quiz_machine) shared_answer in
  reachable quiz_machine w ∧
  pending w =
    [(QuizService.submitQuiz (JStr "q4")
        [JObj [("answer", JStr "Yes")]; JObj [("answer", JStr "Yes")]],
      ObsSubmit)].
Proof. split; [apply state_after_reachable; run_happens|by vm_compute]. Qed.

(** With two generation requests under way the first reply turns
    the spinner off while the second request is still waiting: the
    spinner being off does not mean that the quiz shown will stay. *)
Theorem spinner_off_while_generating :
  let w := state_after (M:=quiz_machine) two_generations in
  reachable quiz_machine w ∧ loading (this w) = false ∧
  pending w = [(QuizService.generateQuizFromText "Lenses", ObsGenerateText)].
Proof. split; [apply state_after_reachable; run_happens|by vm_compute]. Qed.

(** ** The theorems at the worlds of these runs *)


Lemma submitted_reachable :
  reachable quiz_machine (state_after (M:=quiz_machine) submitted).
Proof. apply state_after_reachable; run_happens. Defined.

Lemma submit_sends_answers_witness :
  let w := state_after (M:=quiz_machine) answered in
  ∃ answers,
    run submit w = (Normal tt, sent (QuizService.submitQuiz (JStr "q1") answers) ObsSubmit w) ∧
    length answers = 2 ∧
    ∀ i q, [question "1" "What is a monad?"; question "2" "What is a functor?"] !! i = Some q →
      answers !! i =
        Some (answer_object (get_prop "id" q)
                (nullish_or (userAnswers (this w) !! template (get_prop "id" q))
                   (JStr ""))).
Proof.
  apply (submit_sends_answers (state_after (M:=quiz_machine) answered)
           [question "1" "What is a monad?"; question "2" "What is a functor?"]);
    by vm_compute.
Defined.

Lemma generate_next_loads_witness :
  let w0 := state_after (M:=quiz_machine) submitted in
  let w' := exec (uploadAndGenerate_next quiz2) w0 in
  exec (generateFromText_next quiz2) w0 = w' ∧
  quizId (this w') = get_prop "quiz_id" quiz2 ∧
  questions (this w') = get_prop "questions" quiz2 ∧
  userAnswers (this w') = ∅ ∧ result (this w') = JNull ∧
  loading (this w') = false ∧ error (this w') = error (this w0) ∧
  selectedFile (this w') = selectedFile (this w0) ∧ pending w' = pending w0.
Proof.
  exact (generate_next_loads quiz2 (state_after (M:=quiz_machine) submitted) eq_refl).
Defined.

Lemma loading_ok_invariant_witness :
  let w := state_after (M:=quiz_machine) [User (CallGenerateFromText "Monads")] in
  reachable_by quiz_machine no_null_quiz w ∧ loading (this w) = true ∧
  generating w.
Proof.
  assert (reachable_by quiz_machine no_null_quiz
            (state_after (M:=quiz_machine) [User (CallGenerateFromText "Monads")]))
    as Hr by (apply state_after_reachable_by; [run_permitted|run_happens]).
  split; [exact Hr|]. split; [by vm_compute|].
  apply (loading_ok_invariant _ Hr). by vm_compute.
Defined.

Lemma error_ok_invariant_witness :
  let w := state_after (M:=quiz_machine) submitted in
  reachable quiz_machine w ∧ error_ok w.
Proof.
  split; [exact submitted_reachable|].
  exact (error_ok_invariant _ submitted_reachable).
Defined.

Lemma error_never_cleared_witness :
  let w := state_after (M:=quiz_machine) [User CallUploadAndGenerate] in
  let es := [User (SelectFile [notes]); User CallUploadAndGenerate;
             Browser 0 (HttpNext quiz1)] in
  truthy (error (this w)) = true ∧
  truthy (error (this (state_after (M:=quiz_machine) early_click))) = true.
Proof.
  split; [by vm_compute|].
  apply (error_never_cleared
           [User (SelectFile [notes]); User CallUploadAndGenerate;
            Browser 0 (HttpNext quiz1)]
           (state_after (M:=quiz_machine) [User CallUploadAndGenerate]));
    by vm_compute.
Defined.

Lemma quiz_requests_invariant_witness :
  let w := state_after (M:=quiz_machine) submitted in
  reachable quiz_machine w ∧ quiz_requests_ok w.
Proof.
  split; [exact submitted_reachable|].
  exact (quiz_requests_invariant _ submitted_reachable).
Defined.

(** The session: four actions of the user, two replies, nothing left
    waiting. *)
Lemma replies_per_call_witness :
  list_sum (replied <$> session) = 2 ∧ list_sum (acted <$> session) = 4 ∧
  list_sum (replied <$> session)
  + length (pending (state_after (M:=quiz_machine) session))
  ≤ list_sum (acted <$> session).
Proof.
  split; [by vm_compute|]. split; [by vm_compute|].
  apply (replies_per_call session (state_after (M:=quiz_machine) session)).
  by vm_compute.
Defined.

(** The submission of the session is read back by its receiver. *)
Lemma submission_read_back_witness :
  let rq := QuizService.submitQuiz (JStr "q1")
              [ JObj [("id", JNum "1"); ("answer", JStr "A burrito")];
                JObj [("id", JNum "2"); ("answer", JStr "")] ] in
  pending (state_after (M:=quiz_machine) submitted) = [(rq, ObsSubmit)] ∧
  ∃ id answers,
    rq = QuizService.submitQuiz id answers ∧
    body_text (req_body rq) ≫= parse
    = Some (JObj [("quiz_id", id); ("answers", JArr answers)]).
Proof.
  split; [by vm_compute|].
  apply (submission_read_back (state_after (M:=quiz_machine) submitted)).
  - apply state_after_reachable_by; [by vm_compute|run_happens].
  - vm_compute. left.
Defined.

(** The session is orderly: the quiz session sees its six events and
    ends idle, with a quiz loaded and a score shown. *)
Lemma quiz_refines_session_witness :
  let w := state_after (M:=quiz_machine) session in
  session_of w =
    {| at_stage := Idle; chosen := true; quiz := true; answerable := true;
       scored := true; message := false |} ∧
  exec_events (M:=session_machine)
    [SChoose true; SGenerateFile; SReply (Truthy true true); SType; SSubmit;
     SReply (Truthy false false)] new_Session
  = Some (session_of w) ∧
  length (pending w) ≤ 1 ∧
  (loading (this w) = true ↔ at_stage (session_of w) = Generating).
Proof.
  split; [by vm_compute|].
  apply (quiz_refines_session session (state_after (M:=quiz_machine) session));
    [vm_compute; by repeat split|by vm_compute].
Defined.

(** A run of the quiz session and a run of the page that realizes it. *)
Lemma session_runs_realized_witness :
  ∃ es w,
    permitted (M:=quiz_machine) orderly es new_World ∧
    exec_events (M:=quiz_machine) es new_World = Some w ∧
    abs_events quiz_machine session_machine session_event_of es
    = [SGenerateText; SReply (Truthy true false); SSubmit; SGenerateFile] ∧
    warned {| at_stage := Idle; chosen := false; quiz := true;
              answerable := false; scored := false; message := false |}
    = session_of w.
Proof.
  apply (session_runs_realized
           [SGenerateText; SReply (Truthy true false); SSubmit; SGenerateFile]).
  by vm_compute.
Defined.

(** While the submission of the session waits, a quiz is loaded. *)
Lemma score_has_quiz_witness :
  let w := state_after (M:=quiz_machine) submitted in
  truthy_opt (quizId (this w)) = true ∧ is_Some (submit_request (this w)).
Proof.
  apply (score_has_quiz (state_after (M:=quiz_machine) submitted)).
  - apply state_after_reachable_by; [vm_compute; by repeat split|run_happens].
  - left. by eexists.
Defined.

(** ** The theorems of [QuizDefects] on these runs *)

(** The one generation request is answered with [null]. *)
Lemma null_quiz_sticks_witness :
  let w := state_after (M:=quiz_machine) [User (CallGenerateFromText "Monads")] in
  ∃ w1, quiz_step (Browser 0 (HttpNext JNull)) w = Some w1 ∧
    quiz_outcome (Browser 0 (HttpNext JNull)) w = Some (Throw TypeError) ∧
    error (this w1) = error (this w) ∧
    ∀ es w', Forall (λ e, generates e = false) es →
      exec_events (M:=quiz_machine) es w1 = Some w' →
      loading (this w') = true ∧ ¬ generating w'.
Proof.
  apply (null_quiz_sticks
           (state_after (M:=quiz_machine) [User (CallGenerateFromText "Monads")])
           0 (QuizService.generateQuizFromText "Monads") ObsGenerateText);
    [by vm_compute..|].
  vm_compute. by intros ?%Exists_nil.
Defined.

(** The reply names the quiz [q3] and has no questions. *)
Lemma submit_after_bad_reply_witness :
  let w := state_after (M:=quiz_machine) [User (CallGenerateFromText "Monads")] in
  ∃ w1, quiz_step (Browser 0 (HttpNext quiz_without_questions)) w = Some w1 ∧
    quiz_outcome (Browser 0 (HttpNext quiz_without_questions)) w
    = Some (Normal tt) ∧
    loading (this w1) = false ∧ error (this w1) = error (this w) ∧
    quiz_outcome (User CallSubmit) w1 = Some (Throw TypeError) ∧
    quiz_step (User CallSubmit) w1 = Some w1.
Proof.
  apply (submit_after_bad_reply
           (state_after (M:=quiz_machine) [User (CallGenerateFromText "Monads")])
           0 (QuizService.generateQuizFromText "Monads") ObsGenerateText
           quiz_without_questions); by vm_compute.
Defined.

(** The second quiz is asked for while the answers of the first are
    under way; it arrives first and the score of the first after it. *)
Lemma late_score_shown_witness :
  let w := state_after (M:=quiz_machine)
             (submitted ++ [User (CallGenerateFromText "Lenses")]) in
  ∃ id answers w',
    QuizService.submitQuiz (JStr "q1")
      [ JObj [("id", JNum "1"); ("answer", JStr "A burrito")];
        JObj [("id", JNum "2"); ("answer", JStr "")] ]
    = QuizService.submitQuiz id answers ∧
    exec_events (M:=quiz_machine)
      [Browser 1 (HttpNext quiz2); Browser 0 (HttpNext score)] w = Some w' ∧
    result (this w') = score ∧
    quizId (this w') = get_prop "quiz_id" quiz2 ∧
    questions (this w') = get_prop "questions" quiz2 ∧
    userAnswers (this w') = ∅.
Proof.
  apply (late_score_shown
           (state_after (M:=quiz_machine)
              (submitted ++ [User (CallGenerateFromText "Lenses")]))
           0 1 _ (QuizService.generateQuizFromText "Lenses") ObsGenerateText
           quiz2 score);
    [apply state_after_reachable; run_happens|lia|by vm_compute..].
Defined.
