(* ===== verification/App.v ===== *)
(** * App: the two pages under the router

    [AppModule] (app.module.ts) declares the components and imports the
    modules they need; [AppRoutingModule] (app-routing.module.ts) maps
    the empty path to [QuizComponent] and [front] to [FrontComponent].
    The router shows one component at a time.  Leaving a page destroys
    its component, and coming back creates a new one; neither component
    has an [ngOnDestroy], so the callbacks a destroyed component has
    registered stay with the browser and run on it when their replies
    come.

    The state of the application is the instance shown and the instances
    destroyed so far.  An event is a navigation, or an event of one of
    the two page machines at an instance: the user acts on the instance
    shown only, the browser delivers to any instance.  The element with
    id [preview] that [startRecording] looks up in the document (line
    120 of front.component.ts) belongs to the template of
    [FrontComponent]: it is there exactly when a [FrontComponent] is
    shown, whichever instance asks.

    The theorems: the module metadata lets the router create both routed
    components; every instance, shown or destroyed, goes through a run of
    its own page machine, so that the invariants of the pages hold under
    navigation; a recorder that records in a destroyed instance is never
    stopped; and runs in which a reply comes after the user has left. *)

From stdpp Require Import gmap.
From S2P Require Import Prelude JsString JsValue Action Machine Http Front FrontProps FrontMachine Quiz.

(** ** Definitions *)

(** The component classes of the application. *)
Inductive component : Type := AppComponent | QuizComponent | FrontComponent.

(** A route: a path and the component shown there. *)
Record Route : Type := {
  path : string;
  route_component : component;
}.

(** [routes] (app-routing.module.ts, line 6). *)
Definition routes : list Route :=
  [ {| path := ""; route_component := QuizComponent |};
    {| path := "front"; route_component := FrontComponent |} ].

(** The modules an [NgModule] can import or export here. *)
Inductive ng_module : Type :=
| BrowserModule
| HttpClientModule
| FormsModule
| RouterModule
| RouterModule_forRoot (rs : list Route)
| AppRoutingModule_ref.

(** The metadata of an [@NgModule] decorator. *)
Record NgModule : Type := {
  declarations : list component;
  imports : list ng_module;
  exports : list ng_module;
  providers : list string;
  bootstrap : list component;
}.

(** [AppRoutingModule] (app-routing.module.ts, lines 8-12). *)
Definition AppRoutingModule : NgModule :=
  {| declarations := [];
     imports := [RouterModule_forRoot routes];
     exports := [RouterModule];
     providers := [];
     bootstrap := [] |}.

(** [AppModule] (app.module.ts, lines 10-24). *)
Definition AppModule : NgModule :=
  {| declarations := [AppComponent; QuizComponent; FrontComponent];
     imports := [BrowserModule; AppRoutingModule_ref; HttpClientModule; FormsModule];
     exports := [];
     providers := [];
     bootstrap := [AppComponent] |}.

#[export] Instance component_eq_dec : EqDecision component.
Proof. solve_decision. Defined.

#[export] Instance Route_eq_dec : EqDecision Route.
Proof. solve_decision. Defined.

#[export] Instance ng_module_eq_dec : EqDecision ng_module.
Proof. solve_decision. Defined.

(** The routes a module passes to [RouterModule.forRoot]. *)
Definition forRoot_routes (m : NgModule) : list Route :=
  mjoin (omap (λ i, match i with
                    | RouterModule_forRoot rs => Some rs
                    | _ => None
                    end) (imports m)).

(** The routes the router knows when [m] is the root module: its own and
    those of [AppRoutingModule] when it imports it. *)
Definition registered (m : NgModule) : list Route :=
  forRoot_routes m ++
  (if decide (AppRoutingModule_ref ∈ imports m)
   then forRoot_routes AppRoutingModule else []).

(** The component the router shows for a URL: that of the first route
    whose path is the whole URL; [None] when no route matches. *)
Definition match_route (rs : list Route) (url : string) : option component :=
  r ← List.find (λ r, String.eqb (path r) url) rs;
  Some (route_component r).

(** What a constructor asks the injector for. *)
Inductive token : Type := HttpClient | NgZone | TheQuizService | TheAiService.

(** The metadata of a [@Component] decorator. *)
Record Decorator : Type := {
  selector : string;
  templateUrl : string;
  styleUrls : list string;
}.

(** The decorator of [FrontComponent] (front.component.ts, lines 4-8). *)
Definition FrontComponent_decorator : Decorator :=
  {| selector := "app-front";
     templateUrl := "./front.component.html";
     styleUrls := ["./front.component.css"] |}.

(** The constructor of [FrontComponent] (front.component.ts, line 33). *)
Definition FrontComponent_constructor : list token := [HttpClient; NgZone].

(** The decorator of [QuizComponent] (quiz.component.ts, lines 4-7). *)
Definition QuizComponent_decorator : Decorator :=
  {| selector := "app-quiz";
     templateUrl := "./quiz.component.html";
     styleUrls := [] |}.

(** The constructor of [QuizComponent] (quiz.component.ts, line 17). *)
Definition QuizComponent_constructor : list token := [TheQuizService].

(** [providedIn] of [QuizService] (quiz.service.ts, line 5) and its
    constructor (line 9). *)
Definition QuizService_providedIn : string := "root".
Definition QuizService_constructor : list token := [HttpClient].

(** [providedIn] of [AiService] (ai.service.ts, lines 5-7) and its
    constructor (line 11). *)
Definition AiService_providedIn : string := "root".
Definition AiService_constructor : list token := [HttpClient].

(** The parameters of the constructor of a component; the source of
    [AppComponent] is not in the repository. *)
Definition constructor_of (c : component) : list token :=
  match c with
  | FrontComponent => FrontComponent_constructor
  | QuizComponent => QuizComponent_constructor
  | AppComponent => []
  end.

(** The parameters of the constructor of a service. *)
Definition service_constructor (t : token) : list token :=
  match t with
  | TheQuizService => QuizService_constructor
  | TheAiService => AiService_constructor
  | HttpClient | NgZone => []
  end.

(** The root injector of [m] has a provider for [t]: [HttpClient] comes
    with [HttpClientModule], [NgZone] with the platform, a service with
    its own [providedIn: 'root']. *)
Definition provided (m : NgModule) (t : token) : bool :=
  match t with
  | HttpClient => bool_decide (HttpClientModule ∈ imports m)
  | NgZone => true
  | TheQuizService => String.eqb QuizService_providedIn "root"
  | TheAiService => String.eqb AiService_providedIn "root"
  end.

(** [t] can be injected: it has a provider, and so has each parameter of
    its constructor. *)
Definition injectable (m : NgModule) (t : token) : bool :=
  provided m t && forallb (provided m) (service_constructor t).

(** The module lets the router create the component: it declares it and
    each parameter of its constructor can be injected. *)
Definition creatable (m : NgModule) (c : component) : bool :=
  bool_decide (c ∈ declarations m) && forallb (injectable m) (constructor_of c).

(** An instance of a routed component with what the browser holds for
    it. *)
Inductive instance : Type :=
| QuizInstance (w : QuizPage.World)
| FrontInstance (w : Front.World).

Definition class_of (i : instance) : component :=
  match i with
  | QuizInstance _ => QuizComponent
  | FrontInstance _ => FrontComponent
  end.

(** A new instance of a class, with the initial values of its fields;
    the root component is not routed. *)
Definition new_instance (c : component) : option instance :=
  match c with
  | QuizComponent => Some (QuizInstance QuizPage.new_World)
  | FrontComponent => Some (FrontInstance Front.new_World)
  | AppComponent => None
  end.

(** The application: the instance in the outlet, and the instances
    destroyed so far, oldest first. *)
Record App : Type := {
  shown : instance;
  destroyed : list instance;
}.

(** The application after its initial navigation to the empty path. *)
Definition new_App : App :=
  {| shown := QuizInstance QuizPage.new_World; destroyed := [] |}.

(** The document has the element with id [preview]. *)
Definition has_preview (s : App) : bool :=
  bool_decide (class_of (shown s) = FrontComponent).

(** A navigation: [None] when no route matches or the component cannot
    be created.  The component shown is kept when the route is its own;
    otherwise it is destroyed and a new one is created. *)
Definition navigate (url : string) (s : App) : option App :=
  c ← match_route (registered AppModule) url;
  if decide (c = class_of (shown s)) then Some s
  else if creatable AppModule c then
    i ← new_instance c;
    Some {| shown := i; destroyed := destroyed s ++ [shown s] |}
  else None.

(** An event of one of the two pages. *)
Inductive page_event : Type :=
| OnQuiz (e : QuizPage.quiz_event)
| OnFront (e : front_event).

(** The event is an action of the user. *)
Definition by_user (e : page_event) : bool :=
  match e with
  | OnQuiz (QuizPage.User _) | OnFront (User _) => true
  | _ => false
  end.

(** The event agrees with the document: [getUserMedia] resumes with the
    [preview] element exactly when there is one. *)
Definition agrees (preview : bool) (e : page_event) : bool :=
  match e with
  | OnFront (Browser _ (MediaGranted p)) => bool_decide (p = preview)
  | _ => true
  end.

(** An event at an instance of its page. *)
Definition instance_step (e : page_event) (i : instance) : option instance :=
  match e, i with
  | OnQuiz e, QuizInstance w => QuizInstance <$> QuizPage.quiz_step e w
  | OnFront e, FrontInstance w => FrontInstance <$> front_step e w
  | _, _ => None
  end.

(** Where an event happens. *)
Inductive target : Type :=
| Shown
| Destroyed (k : nat).

Inductive app_event : Type :=
| Navigate (url : string)
| At (t : target) (e : page_event).

(** One step of the application.  A navigation that fails leaves the
    application as it is. *)
Definition app_step (e : app_event) (s : App) : option App :=
  match e with
  | Navigate url => Some (default s (navigate url s))
  | At t e =>
      if agrees (has_preview s) e then
        match t with
        | Shown =>
            i ← instance_step e (shown s);
            Some {| shown := i; destroyed := destroyed s |}
        | Destroyed k =>
            if by_user e then None
            else
              i ← destroyed s !! k;
              i' ← instance_step e i;
              Some {| shown := shown s; destroyed := <[k := i']> (destroyed s) |}
        end
      else None
  end.

#[export] Instance app_machine : Machine :=
  {| state := App; event := app_event; initial := new_App; step := app_step |}.

(** The run of its own page machine an instance is at the end of. *)
Definition instance_reachable (i : instance) : Prop :=
  match i with
  | QuizInstance w => reachable QuizPage.quiz_machine w
  | FrontInstance w => reachable front_machine w
  end.

(** Every instance of the application. *)
Definition instances (s : App) : list instance := shown s :: destroyed s.

(** The recorder [r] of the destroyed instance [k] is recording. *)
Definition records (k r : nat) (s : App) : Prop :=
  ∃ w m, destroyed s !! k = Some (FrontInstance w)
         ∧ recorders w !! r = Some m ∧ rec_state m = Recording.

(** ** The modules *)

(** The router knows the two routes of [routes]. *)
Lemma registered_AppModule : registered AppModule = routes.
Proof. done. Qed.

Lemma match_route_spec url :
  match_route routes url =
    if String.eqb "" url then Some QuizComponent
    else if String.eqb "front" url then Some FrontComponent
    else None.
Proof.
  unfold match_route, routes. cbn [List.find path].
  destruct (String.eqb "" url); [done|]. by destruct (String.eqb "front" url).
Qed.

(** Both routed components can be created. *)
Lemma routes_creatable :
  Forall (λ r, creatable AppModule (route_component r) = true
               ∧ is_Some (new_instance (route_component r))) (registered AppModule).
Proof.
  rewrite registered_AppModule. unfold routes.
  repeat apply Forall_cons_2; [split; [by vm_compute|by eexists]..|constructor].
Qed.

(** A routed component needs [HttpClientModule], directly or through its
    service. *)
Lemma creatable_needs_http m r :
  r ∈ routes → creatable m (route_component r) = true → HttpClientModule ∈ imports m.
Proof.
  unfold creatable, injectable.
  intros [->|[->|[]%elem_of_nil]%elem_of_cons]%elem_of_cons; simpl;
    rewrite ?andb_true_r, !andb_true_iff, ?bool_decide_eq_true; tauto.
Qed.

(** The two components have different selectors. *)
Lemma selectors_differ :
  selector FrontComponent_decorator ≠ selector QuizComponent_decorator.
Proof. done. Qed.

(** ** Instances under navigation *)

Lemma instance_step_reachable e i i' :
  instance_reachable i → instance_step e i = Some i' → instance_reachable i'.
Proof.
  destruct e as [e|e], i as [w|w]; simpl; try done; intros Hw Hstep.
  - destruct (QuizPage.quiz_step e w) as [w'|] eqn:E; simplify_eq/=.
    by eapply (reachable_step (M:=QuizPage.quiz_machine)).
  - destruct (front_step e w) as [w'|] eqn:E; simplify_eq/=.
    by eapply (reachable_step (M:=front_machine)).
Qed.

Lemma new_instance_reachable c i : new_instance c = Some i → instance_reachable i.
Proof. destruct c; intros [= <-]; constructor. Qed.

Lemma navigate_instances url s s' :
  Forall instance_reachable (instances s) → navigate url s = Some s' →
  Forall instance_reachable (instances s').
Proof.
  unfold navigate, instances. intros Hs Hnav.
  destruct (match_route _ url) as [c|]; simplify_eq/=.
  case_decide; simplify_eq/=; [done|].
  destruct (creatable AppModule c); simplify_eq/=.
  destruct (new_instance c) as [i|] eqn:E; simplify_eq/=.
  inversion_clear Hs. constructor; [by eapply new_instance_reachable|].
  apply Forall_app. split; [done|by constructor].
Qed.

(** An event at a destroyed instance is not an action of the user; it
    is a step of that instance and changes nothing else. *)
Lemma app_step_destroyed k e s s' :
  app_step (At (Destroyed k) e) s = Some s' →
  by_user e = false ∧
  ∃ i i', destroyed s !! k = Some i ∧ instance_step e i = Some i' ∧
          s' = {| shown := shown s; destroyed := <[k := i']> (destroyed s) |}.
Proof.
  simpl. destruct (agrees _ e); [|done]. destruct (by_user e); [done|].
  destruct (destroyed s !! k) as [i|]; [simpl|done].
  destruct (instance_step e i) as [i'|] eqn:E; [simpl|done].
  intros [= <-]. eauto 6.
Qed.

(** Each step keeps every instance on a run of its page. *)
Lemma app_step_instances e s s' :
  Forall instance_reachable (instances s) → app_step e s = Some s' →
  Forall instance_reachable (instances s').
Proof.
  unfold instances. intros Hs Hstep. destruct e as [url|[|k] e]; simpl in Hstep.
  - destruct (navigate url s) as [s1|] eqn:E; simplify_eq/=; [|done].
    by eapply navigate_instances.
  - destruct (agrees _ e); [|done].
    destruct (instance_step e (shown s)) as [i|] eqn:E; simplify_eq/=.
    inversion_clear Hs. constructor; [by eapply instance_step_reachable|done].
  - apply app_step_destroyed in Hstep as (_ & i & i' & Ek & E & ->).
    inversion_clear Hs. constructor; [done|]. apply Forall_insert; [done|].
    eapply instance_step_reachable; [|done]. by eapply Forall_lookup_1.
Qed.

(** ** Recorders of destroyed instances *)

(** No callback stops a recorder: one that records still records after
    the browser has run a callback of its instance. *)
Lemma browser_keeps_recording i b w w' r m :
  front_step (Browser i b) w = Some w' →
  recorders w !! r = Some m → rec_state m = Recording →
  ∃ m', recorders w' !! r = Some m' ∧ rec_state m' = Recording.
Proof.
  intros Hstep Hr Hm. remember (Browser i b) as e eqn:He.
  pose proof (lookup_lt_Some _ _ _ Hr) as Hlt.
  step_cases Hstep; try discriminate; exec_specs;
    rewrite ?list_lookup_alter_ne by lia;
    rewrite ?(lookup_app_l_Some _ _ _ _ Hr); eauto.
Qed.

Lemma records_step k r e s s' :
  records k r s → app_step e s = Some s' → records k r s'.
Proof.
  intros (w & m & Hk & Hr & Hm) Hstep. unfold records.
  destruct e as [url|[|k'] e]; simpl in Hstep.
  - destruct (navigate url s) as [s1|] eqn:E; simplify_eq/=; [|eauto].
    unfold navigate in E. destruct (match_route _ url) as [c|]; simplify_eq/=.
    case_decide; simplify_eq/=; [eauto|].
    destruct (creatable AppModule c); simplify_eq/=.
    destruct (new_instance c) as [i|]; simplify_eq/=.
    rewrite (lookup_app_l_Some _ _ _ _ Hk). eauto.
  - destruct (agrees _ e); [|done].
    destruct (instance_step e (shown s)); simplify_eq/=. eauto.
  - apply app_step_destroyed in Hstep as (Hu & i & i' & Ek & E & ->). simpl.
    destruct (decide (k' = k)) as [->|Hne].
    2:{ rewrite list_lookup_insert_ne by done. eauto. }
    rewrite list_lookup_insert_eq by by eapply lookup_lt_Some.
    simplify_eq. destruct e as [e|[u|j b]]; simplify_eq/=.
    destruct (front_step (Browser j b) w) as [w'|] eqn:Ew; simplify_eq/=.
    destruct (browser_keeps_recording _ _ _ _ _ _ Ew Hr Hm) as (m' & ? & ?).
    eauto 6.
Qed.

(** ** Theorems *)

(** The module metadata and the routes fit: the router knows exactly
    the two routes of [routes], and a navigation fails exactly when its
    URL is neither the empty path nor [front]; both routed components are
    declared and find their [HttpClient]. *)
Theorem navigate_fails_iff url s :
  navigate url s = None ↔ url ≠ "" ∧ url ≠ "front".
Proof.
  unfold navigate. rewrite registered_AppModule, match_route_spec.
  destruct (String.eqb_spec "" url) as [<-|?];
    [|destruct (String.eqb_spec "front" url) as [<-|?]]; simpl.
  - split; [|by intros [? _]]. by case_decide.
  - split; [|by intros [_ ?]]. by case_decide.
  - done.
Qed.

(** Composition: in every state of the application each instance,
    the one shown and every destroyed one, is at the end of a run of its
    own page machine.  Every invariant of [FrontInvariants] and of
    [QuizProps] therefore holds of every instance under navigation. *)
Theorem instances_on_page_runs :
  invariant app_machine (λ s, Forall instance_reachable (instances s)).
Proof.
  apply inductive_invariant. split.
  - repeat constructor.
  - intros s e s' Hs _. by apply app_step_instances.
Qed.

(** C15.  A recorder that records in a destroyed [FrontComponent] records
    for ever: no navigation, no action of the user on the page shown and
    no callback of any instance stops it. *)
Theorem destroyed_recorder_never_stops k r es s s' :
  records k r s → exec_events (M:=app_machine) es s = Some s' → records k r s'.
Proof.
  apply (exec_events_stable (M:=app_machine) (records k r)).
  intros s0 e s1. apply records_step.
Qed.

(** The events at destroyed instances leave the page shown as it is. *)
Theorem destroyed_events_invisible es s s' :
  Forall (λ e, ∃ k e', e = At (Destroyed k) e') es →
  exec_events (M:=app_machine) es s = Some s' → shown s' = shown s.
Proof.
  intros Hes; revert s; induction Hes as [|e es (k & e' & ->) Hes IH];
    intros s; [by intros [= <-]|]. cbn [exec_events].
  destruct (step _ s) as [s1|] eqn:E; [|done].
  apply app_step_destroyed in E as (_ & i & i' & _ & _ & ->).
  intros Hrun. by rewrite (IH _ Hrun).
Qed.
