(* ===== verification/AppInvariants.v ===== *)
(** * AppInvariants: what holds of the application under navigation

    [view_of] computes from the events of a run, without running the
    application, the component the last change of page went to and the
    events at the page shown since then; the page shown is proved to be
    a new instance of that component that has seen those events and
    nothing else.  A camera granted to a destroyed interview page while
    another is shown starts a recording that nothing stops.

    Every instance of the application, shown or destroyed, is at the end
    of a run of its page machine ([App]); an invariant of the interview
    page and an invariant of the quiz page therefore hold together of
    every instance in every state of the application.  This is used for
    the requests in flight: each goes to one of the eight addresses
    [FrontComponent] and [QuizService] post to, and none was built by
    [AiService], which no constructor asks for. *)

From stdpp Require Import gmap.
From S2P Require Import Prelude JsString JsValue Action Machine Http Front FrontProps FrontMachine FrontInvariants Quiz QuizProps App.

(** ** Definitions *)

(** A property of the instances: [I] of the worlds of the interview page,
    [J] of the worlds of the quiz page. *)
Definition holds_of (I : Front.World → Prop) (J : QuizPage.World → Prop)
    (i : instance) : Prop :=
  match i with
  | FrontInstance w => I w
  | QuizInstance w => J w
  end.

(** The request a callback of the interview page waits for, if any. *)
Definition task_request (t : task) : option request :=
  match t with
  | Http rq _ => Some rq
  | _ => None
  end.

(** The requests an instance has in flight. *)
Definition requests_of (i : instance) : list request :=
  match i with
  | FrontInstance w => omap task_request (pending w)
  | QuizInstance w => fst <$> QuizPage.pending w
  end.

(** The addresses the application posts to. *)
Definition endpoints : list string :=
  [ "http://127.0.0.1:8000/summarize_cv";
    "http://127.0.0.1:8000/generate_questions";
    "http://127.0.0.1:8000/text_to_speech";
    "http://127.0.0.1:8000/analyze_video";
    "http://127.0.0.1:8000/transcribe_audio";
    "http://127.0.0.1:8000/generate_feedback";
    "http://localhost:5000/generate-quiz";
    "http://localhost:5000/submit-quiz" ].

(** The tokens a component needs, directly or through a service. *)
Definition needs (c : component) : list token :=
  constructor_of c ++ (constructor_of c ≫= service_constructor).

(** The component the address bar names: the quiz page at the empty
    path, the interview page at [front]. *)
Definition page_of (url : string) : option component :=
  if String.eqb url "" then Some QuizComponent
  else if String.eqb url "front" then Some FrontComponent
  else None.

(** What the page shown has seen of a run: the component the last
    change of page went to, and the events at the page shown since
    then.  A navigation to the page shown, or to no page, changes
    nothing; events at destroyed instances are not seen. *)
Fixpoint view_of (c : component) (seen : list page_event)
    (es : list app_event) : component * list page_event :=
  match es with
  | [] => (c, seen)
  | Navigate url :: es =>
      match page_of url with
      | Some c' => if decide (c' = c) then view_of c seen es else view_of c' [] es
      | None => view_of c seen es
      end
  | At Shown e :: es => view_of c (seen ++ [e]) es
  | At (Destroyed _) _ :: es => view_of c seen es
  end.

(** The events [es] at an instance, one after the other. *)
Fixpoint instance_run (es : list page_event) (i : instance) : option instance :=
  match es with
  | [] => Some i
  | e :: es => instance_step e i ≫= instance_run es
  end.

(** The instance of [c] that has seen the events [seen] and nothing
    else. *)
Definition fresh_after (c : component) (seen : list page_event) : option instance :=
  new_instance c ≫= instance_run seen.

(** ** Lifting *)

Lemma instances_reachable s :
  reachable app_machine s → Forall instance_reachable (instances s).
Proof.
  revert s. apply (inductive_invariant (M:=app_machine)).
  split; [repeat constructor|].
  intros ? e ? Hs _. by eapply app_step_instances.
Qed.

(** An invariant of each page is an invariant of the application. *)
Lemma lift_invariants I J :
  invariant front_machine I → invariant QuizPage.quiz_machine J →
  invariant app_machine (λ s, Forall (holds_of I J) (instances s)).
Proof.
  intros HI HJ s Hs%instances_reachable.
  eapply Forall_impl; [done|]. intros [w|w]; simpl; auto.
Qed.

(** ** The requests in flight *)

Lemma task_ok_endpoint t rq :
  task_ok t → task_request t = Some rq → req_url rq ∈ endpoints.
Proof.
  destruct t as [rq' obs|a| |r]; simpl; [|done..]. intros Ht [= ->].
  destruct obs; destruct_all; subst; simpl; set_solver.
Qed.

Lemma request_for_endpoint t : request_for t → req_url t.1 ∈ endpoints.
Proof.
  unfold request_for. destruct t as [rq []]; simpl; intros Ht;
    destruct_all; subst; simpl; set_solver.
Qed.

(** In every state of the application, every request in flight of every
    instance, shown or destroyed, goes to one of the eight addresses. *)
Theorem app_requests_known s i rq :
  reachable app_machine s → i ∈ instances s → rq ∈ requests_of i →
  req_url rq ∈ endpoints.
Proof.
  intros Hs Hi Hrq.
  pose proof (lift_invariants _ _ requests_ok_reachable
                (quiz_requests_invariant_by _) s Hs) as Hall.
  rewrite Forall_forall in Hall. apply Hall in Hi. clear Hall.
  destruct i as [w|w]; simpl in *.
  - apply list_elem_of_fmap in Hrq as ([rq' obs] & -> & Hin).
    unfold quiz_requests_ok in Hi. rewrite Forall_forall in Hi.
    by apply (request_for_endpoint (rq', obs)), Hi.
  - apply list_elem_of_omap in Hrq as (t & Hin & Ht).
    unfold requests_ok in Hi. rewrite Forall_forall in Hi.
    eapply task_ok_endpoint; eauto.
Qed.

(** No component asks for [AiService], directly or through a service it
    is given. *)
Theorem AiService_not_injected c : TheAiService ∉ needs c.
Proof. destruct c; vm_compute; set_solver. Qed.

(** No request in flight was built by [AiService]. *)
Theorem AiService_never_called s i rq :
  reachable app_machine s → i ∈ instances s → rq ∈ requests_of i →
  (∀ state, rq ≠ AiService.getNextQuestion state) ∧
  (∀ answer context, rq ≠ AiService.submitAnswer answer context).
Proof.
  intros Hs Hi Hrq. pose proof (app_requests_known _ _ _ Hs Hi Hrq) as Hurl.
  split; intros; intros ->; vm_compute in Hurl; set_solver.
Qed.

(** ** The page shown *)

Lemma instance_run_snoc es e i :
  instance_run (es ++ [e]) i = instance_run es i ≫= instance_step e.
Proof.
  revert i; induction es as [|e' es IH]; intros i; simpl.
  - by destruct (instance_step e i).
  - destruct (instance_step e' i); simpl; [apply IH|done].
Qed.

Lemma instance_step_class e i i' :
  instance_step e i = Some i' → class_of i' = class_of i.
Proof.
  destruct e, i; simpl; try done; intros Hstep;
    by apply fmap_Some in Hstep as (? & _ & ->).
Qed.

Lemma instance_run_class es i i' :
  instance_run es i = Some i' → class_of i' = class_of i.
Proof.
  revert i; induction es as [|e es IH]; intros i; simpl; [by intros [= <-]|].
  destruct (instance_step e i) as [i1|] eqn:E; [simpl|done].
  intros ->%IH. by eapply instance_step_class.
Qed.

Lemma fresh_after_class c seen i : fresh_after c seen = Some i → class_of i = c.
Proof.
  unfold fresh_after. destruct (new_instance c) as [i0|] eqn:E; [simpl|done].
  intros ->%instance_run_class. by destruct c; simplify_eq/=.
Qed.

Lemma match_route_page_of url : match_route (registered AppModule) url = page_of url.
Proof.
  rewrite registered_AppModule, match_route_spec. unfold page_of.
  by rewrite !(String.eqb_sym url).
Qed.

(** A step of the application is a step of the view. *)
Lemma view_step c seen e s s' :
  fresh_after c seen = Some (shown s) → app_step e s = Some s' →
  ∃ c' seen', view_of c seen [e] = (c', seen')
              ∧ fresh_after c' seen' = Some (shown s').
Proof.
  intros Hs Hstep. pose proof (fresh_after_class _ _ _ Hs) as Hc.
  destruct e as [url|[|k] e]; simpl in *.
  - injection Hstep as <-. unfold navigate.
    rewrite match_route_page_of, Hc.
    destruct (page_of url) as [c'|] eqn:Hp; simpl; [|eauto].
    case_decide; simpl; [eauto|].
    unfold page_of in Hp. by repeat case_match; simplify_eq; eauto.
  - destruct (agrees _ e); [|done].
    destruct (instance_step e (shown s)) as [i|] eqn:E; simplify_eq/=.
    eexists _, _. split; [done|]. unfold fresh_after in *.
    destruct (new_instance _); simplify_eq/=.
    by rewrite instance_run_snoc, Hs.
  - apply app_step_destroyed in Hstep as (_ & i & i' & _ & _ & ->). eauto.
Qed.

Lemma view_of_cons c seen e es :
  view_of c seen (e :: es)
  = let '(c', seen') := view_of c seen [e] in view_of c' seen' es.
Proof.
  destruct e as [url|[|k] e]; simpl; [|done..].
  destruct (page_of url); [|done]. by case_decide.
Qed.

Lemma view_run es c seen s s' :
  fresh_after c seen = Some (shown s) →
  exec_events (M:=app_machine) es s = Some s' →
  fresh_after (view_of c seen es).1 (view_of c seen es).2 = Some (shown s').
Proof.
  revert c seen s; induction es as [|e es IH]; intros c seen s Hs.
  - by intros [= <-].
  - cbn [exec_events]. destruct (step e s) as [s1|] eqn:E; [|done]. intros Hrun.
    destruct (view_step _ _ _ _ _ Hs E) as (c' & seen' & Hv & Hs1).
    rewrite view_of_cons, Hv. eauto.
Qed.

(** C16.  The page shown is a new component that has seen the events at
    the page shown since the last change of page and nothing else: not
    what the user did on that page before leaving it, and not what has
    arrived since for the components the router destroyed.  So a quiz or
    a reply that arrives for a page the user has left and come back to
    is never shown. *)
Theorem shown_has_seen es s :
  exec_events (M:=app_machine) es new_App = Some s →
  ∃ c seen, view_of QuizComponent [] es = (c, seen) ∧
            class_of (shown s) = c ∧ fresh_after c seen = Some (shown s).
Proof.
  intros Hrun. destruct (view_of QuizComponent [] es) as [c seen] eqn:Hv.
  pose proof (view_run es QuizComponent [] new_App s eq_refl Hrun) as Hs.
  rewrite Hv in Hs. exists c, seen. eauto using fresh_after_class.
Qed.

(** C27.  A camera granted to a destroyed [FrontComponent] while an
    interview page is shown starts a recording in the destroyed
    component: [startRecording] finds the preview element of the page
    shown, the page shown is not changed (its [recording] flag stays as
    it is), and the recorder of the destroyed component records for
    ever, whatever happens afterwards. *)
Theorem orphan_recording s k w i :
  destroyed s !! k = Some (FrontInstance w) →
  pending w !! i = Some GetUserMedia →
  class_of (shown s) = FrontComponent →
  ∃ s1,
    app_step (At (Destroyed k) (OnFront (Browser i (MediaGranted true)))) s
    = Some s1 ∧
    shown s1 = shown s ∧
    ∀ es s', exec_events (M:=app_machine) es s1 = Some s' →
             records k (length (recorders w)) s'.
Proof.
  intros Hk Hi Hc. eexists. split_and!.
  - simpl. unfold has_preview. rewrite Hc, Hk. simpl.
    unfold front_step. simpl. rewrite Hi. simpl. done.
  - done.
  - intros es s'. apply (exec_events_stable (M:=app_machine) (records k _));
      [intros ???; apply records_step|].
    eexists _, _. simpl.
    rewrite list_lookup_insert_eq by (by eapply lookup_lt_Some).
    split; [done|]. unfold exec. rewrite startRecording_resume_run.
    by rewrite recording_started_recorder.
Qed.
