(* ===== verification/AppScenarios.v ===== *)
(** * AppScenarios: runs of the application across navigations

    Runs of [App.app_machine] in which the user leaves a page while the
    browser still holds callbacks of its component, evaluated by the
    kernel: a quiz that arrives after the user has left and is never
    shown; a recording that starts in a destroyed component, through the
    [preview] element of the one shown, and that nothing can stop; a
    camera that is granted while the quiz page is shown and is never
    recorded.  The last part applies the theorems of [App] and of
    [AppInvariants] that have hypotheses to these runs. *)

From stdpp Require Import gmap.
From S2P Require Import Prelude JsString JsValue Action Machine Http Front FrontProps FrontMachine FrontInvariants FrontScenarios Quiz QuizScenarios App AppInvariants.

(** ** Runs *)

(** The application at the end of a run (the initial one if the run
    cannot happen). *)
Definition app_after (es : list app_event) : App :=
  state_after (M:=app_machine) es.

(** A quiz is asked for and the user leaves for the interview page. *)
Definition left_while_generating : list app_event :=
  [ At Shown (OnQuiz (QuizPage.User (QuizPage.CallGenerateFromText "Monads")));
    Navigate "front" ].

(** A quiz is asked for, the user visits the interview page and comes
    back, and the quiz arrives. *)
Definition quiz_after_return : list app_event :=
  [ At Shown (OnQuiz (QuizPage.User (QuizPage.CallGenerateFromText "Monads")));
    Navigate "front";
    Navigate "";
    At (Destroyed 0) (OnQuiz (QuizPage.Browser 0 (QuizPage.HttpNext quiz1))) ].

(** On the interview page a CV is uploaded and the first question is
    being played when the user leaves for the quiz page. *)
Definition left_during_question : list app_event :=
  [ Navigate "front";
    At Shown (OnFront (User (SelectCV (Some cv))));
    At Shown (OnFront (Browser 0 (HttpNext summary_ok)));
    At Shown (OnFront (Browser 0 (HttpNext two_questions)));
    At Shown (OnFront (Browser 0 (HttpNext (RSpeech speech))));
    Navigate "";
    At (Destroyed 1) (OnFront (Browser 0 Ended)) ].

(** The camera is granted while the quiz page is shown. *)
Definition granted_on_quiz_page : list app_event :=
  left_during_question
  ++ [ At (Destroyed 1) (OnFront (Browser 0 (MediaGranted false))) ].

(** The user is back on the interview page when the camera is granted. *)
Definition granted_after_return : list app_event :=
  left_during_question
  ++ [ Navigate "front";
       At (Destroyed 1) (OnFront (Browser 0 (MediaGranted true))) ].

(** Back on the interview page the user tries every button. *)
Definition every_button : list app_event :=
  [ At Shown (OnFront (User (CallStopRecording false)));
    At Shown (OnFront (User CallNextQuestion));
    At Shown (OnFront (User CallPlayFeedback));
    Navigate "";
    Navigate "front";
    At Shown (OnFront (User (CallStopRecording true))) ].

(** ** Theorems *)

(** A quiz that arrives after the user has left the quiz page and
    come back is loaded into the destroyed component: the page shown has
    no quiz, shows no spinner and no message, and waits for nothing. *)
Theorem quiz_lost_after_return :
  is_Some (exec_events (M:=app_machine) quiz_after_return new_App) ∧
  shown (app_after quiz_after_return) = QuizInstance QuizPage.new_World ∧
  ∃ w, destroyed (app_after quiz_after_return) !! 0 = Some (QuizInstance w)
       ∧ QuizPage.quizId (QuizPage.this w) = Some (JStr "q1")
       ∧ QuizPage.pending w = [].
Proof.
  split; [run_happens|]. split; [by vm_compute|].
  eexists. by vm_compute.
Qed.

(** A recording can start in a destroyed component: the question of
    a page the user has left ends, the camera is granted once the user is
    back on a new interview page, and the destroyed component starts a
    recorder on the stream, shown in the [preview] element of the new
    page, whose own [recording] flag is down and whose buttons do not
    reach that recorder. *)
Theorem orphan_recording_reachable :
  is_Some (exec_events (M:=app_machine) granted_after_return new_App) ∧
  records 1 0 (app_after granted_after_return) ∧
  shown (app_after granted_after_return) = FrontInstance Front.new_World.
Proof.
  split; [run_happens|]. split; [|by vm_compute].
  eexists _, _. by vm_compute.
Qed.

(** While the quiz page is shown the grant cannot come with the
    [preview] element: the destroyed component throws at line 121, no
    recorder is created and nothing is left pending, with the camera
    granted. *)
Theorem camera_granted_unrecorded :
  app_step (At (Destroyed 1) (OnFront (Browser 0 (MediaGranted true))))
    (app_after left_during_question) = None ∧
  is_Some (exec_events (M:=app_machine) granted_on_quiz_page new_App) ∧
  ∃ w, destroyed (app_after granted_on_quiz_page) !! 1 = Some (FrontInstance w)
       ∧ recorders w = [] ∧ pending w = [].
Proof.
  split; [by vm_compute|]. split; [run_happens|].
  eexists. by vm_compute.
Qed.

(** ** The theorems of [App] on these runs *)

Lemma destroyed_recorder_never_stops_witness :
  records 1 0 (app_after (granted_after_return ++ every_button)).
Proof.
  apply (destroyed_recorder_never_stops 1 0 every_button
           (app_after granted_after_return)).
  - eexists _, _. by vm_compute.
  - by vm_compute.
Defined.

Lemma navigate_fails_iff_witness :
  navigate "quiz" new_App = None ∧ is_Some (navigate "front" new_App).
Proof.
  split; [|by vm_compute; eexists].
  by apply (navigate_fails_iff "quiz" new_App).
Defined.

Lemma instances_on_page_runs_witness :
  Forall instance_reachable (instances (app_after granted_after_return)).
Proof.
  apply instances_on_page_runs.
  apply (state_after_reachable (M:=app_machine)). run_happens.
Defined.

(** The request of the quiz page the user has left is still in flight,
    and goes to the quiz backend. *)
Lemma app_requests_known_witness :
  let rq := QuizService.generateQuizFromText "Monads" in
  (∃ i, destroyed (app_after left_while_generating) !! 0 = Some i ∧
        requests_of i = [rq]) ∧
  req_url rq ∈ endpoints.
Proof.
  split; [by eexists|].
  apply (app_requests_known (app_after left_while_generating)
           (QuizInstance
              {| QuizPage.this := QuizPage.set_loading true QuizPage.new_QuizComponent;
                 QuizPage.pending :=
                   [(QuizService.generateQuizFromText "Monads",
                     QuizPage.ObsGenerateText)] |})).
  - apply (state_after_reachable (M:=app_machine)). run_happens.
  - vm_compute. set_solver.
  - vm_compute. set_solver.
Defined.

(** When the quiz arrives after the user has left and come back, the
    page shown is a quiz page that has seen nothing. *)
Lemma shown_has_seen_witness :
  shown (app_after quiz_after_return) = QuizInstance QuizPage.new_World ∧
  ∃ c seen, view_of QuizComponent [] quiz_after_return = (c, seen) ∧
            class_of (shown (app_after quiz_after_return)) = c ∧
            fresh_after c seen = Some (shown (app_after quiz_after_return)).
Proof.
  split; [by vm_compute|].
  apply (shown_has_seen quiz_after_return (app_after quiz_after_return)).
  by vm_compute.
Defined.

(** The user is back on the interview page when the camera is granted to
    the component of the first visit. *)
Lemma orphan_recording_witness :
  let s := app_after (left_during_question ++ [Navigate "front"]) in
  ∃ s1,
    app_step (At (Destroyed 1) (OnFront (Browser 0 (MediaGranted true)))) s
    = Some s1 ∧
    shown s1 = shown s ∧
    ∀ es s', exec_events (M:=app_machine) es s1 = Some s' → records 1 0 s'.
Proof.
  apply (orphan_recording
           (app_after (left_during_question ++ [Navigate "front"])) 1
           (world_after
              [ User (SelectCV (Some cv)); Browser 0 (HttpNext summary_ok);
                Browser 0 (HttpNext two_questions);
                Browser 0 (HttpNext (RSpeech speech)); Browser 0 Ended ]) 0);
    by vm_compute.
Defined.
